(** * Society-Management-System: the validation rules, the role gate and the
      request handlers of [core/models.py], [core/signals.py] and
      [core/views.py], the routes of [core/urls.py] and the columns and
      actions of [core/admin.py], embedded in Rocq.

    The records of [models.py] are Rocq records, the relational store is a
    record of finite maps keyed by primary key, and a request handler is a
    computation in a small state-and-exception monad whose state holds the
    store, the notices queued by [messages.*], the mail handed to
    [send_mail] and the schedule of refusals of the store. *)

From stdpp Require Import base option list gmap strings pretty.
From Stdlib Require Import ZArith Ascii String Lia.

Local Open Scope string_scope.
Local Open Scope list_scope.
Local Open Scope Z_scope.

(** ** Python strings and numbers

    Strings are modelled as sequences of 8-bit characters, read as the
    code points U+0000 to U+00FF; the character classes below are
    Python's on these code points. *)
Module Py.

Definition code (c : ascii) : Z := Z.of_nat (nat_of_ascii c).

(** [str.isspace] on one character, which is also what [str.strip()]
    removes and what [\s] matches: TAB..CR, FS..US, the blank, NEL
    (U+0085) and the no-break space (U+00A0). *)
Definition is_space (c : ascii) : bool :=
  let n := code c in
  ((9 <=? n) && (n <=? 13)) || ((28 <=? n) && (n <=? 32))
  || (n =? 133) || (n =? 160).

(** The blanks [int()] skips at both ends: those of [str.isspace] without
    FS..US. *)
Definition is_int_space (c : ascii) : bool :=
  let n := code c in
  ((9 <=? n) && (n <=? 13)) || (n =? 32) || (n =? 133) || (n =? 160).

(** The decimal digits [0-9], which are also what [\d] matches. *)
Definition is_digit (c : ascii) : bool :=
  let n := code c in (48 <=? n) && (n <=? 57).

(** The characters [str.isdigit()] takes: the decimal digits and the
    superscripts two, three and one (U+00B2, U+00B3, U+00B9). *)
Definition is_digit_char (c : ascii) : bool :=
  let n := code c in
  is_digit c || (n =? 178) || (n =? 179) || (n =? 185).

Definition is_upper (c : ascii) : bool :=
  let n := code c in (65 <=? n) && (n <=? 90).

Definition is_lower (c : ascii) : bool :=
  let n := code c in (97 <=? n) && (n <=? 122).

Definition is_alnum (c : ascii) : bool := is_digit c || is_upper c || is_lower c.

Definition digit_val (c : ascii) : Z := code c - 48.

(** The capital and the small letters beyond ASCII: U+00C0..U+00DE
    without the multiplication sign, U+00E0..U+00FE without the division
    sign. *)
Definition is_upper_latin (c : ascii) : bool :=
  let n := code c in (192 <=? n) && (n <=? 222) && negb (n =? 215).

Definition is_lower_latin (c : ascii) : bool :=
  let n := code c in (224 <=? n) && (n <=? 254) && negb (n =? 247).

(** [str.upper()] on one character. The micro sign, the sharp s and the
    y with diaeresis (U+00B5, U+00DF, U+00FF) have their upper case
    outside the 8-bit characters and are left as they are; the one string
    the program puts in upper case, a flat number, passes its validator
    only without them. *)
Definition to_upper (c : ascii) : ascii :=
  if is_lower c || is_lower_latin c
  then ascii_of_nat (nat_of_ascii c - 32) else c.

(** [str.lower()] on one character. *)
Definition to_lower (c : ascii) : ascii :=
  if is_upper c || is_upper_latin c
  then ascii_of_nat (nat_of_ascii c + 32) else c.

Fixpoint map_chars (f : ascii -> ascii) (s : string) : string :=
  match s with
  | EmptyString => EmptyString
  | String c r => String (f c) (map_chars f r)
  end.

Fixpoint all_chars (p : ascii -> bool) (s : string) : bool :=
  match s with
  | EmptyString => true
  | String c r => p c && all_chars p r
  end.

Definition upper (s : string) : string := map_chars to_upper s.
Definition lower (s : string) : string := map_chars to_lower s.

Fixpoint lstrip (s : string) : string :=
  match s with
  | String c r => if is_space c then lstrip r else s
  | EmptyString => EmptyString
  end.

Fixpoint rev_onto (s acc : string) : string :=
  match s with
  | EmptyString => acc
  | String c r => rev_onto r (String c acc)
  end.

Definition reverse (s : string) : string := rev_onto s EmptyString.

(** [str.strip()] *)
Definition strip (s : string) : string :=
  reverse (lstrip (reverse (lstrip s))).

(** [len(s)] *)
Definition len (s : string) : Z := Z.of_nat (String.length s).

(** Truth value of a string: [bool(s)]. *)
Definition truthy (s : string) : bool :=
  match s with EmptyString => false | _ => true end.

(** [str.isdigit()] *)
Definition isdigit (s : string) : bool :=
  truthy s && all_chars is_digit_char s.

(** [", ".join(l)] *)
Fixpoint join (sep : string) (l : list string) : string :=
  match l with
  | [] => EmptyString
  | [x] => x
  | x :: r => x +:+ sep +:+ join sep r
  end.

(** The digits of an [int] literal: digits, with single underscores
    between them. [prev] tells whether the previous character was a
    digit. *)
Fixpoint int_digits (s : string) (acc : Z) (prev : bool) : option Z :=
  match s with
  | EmptyString => if prev then Some acc else None
  | String c r =>
      if is_digit c then int_digits r (10 * acc + digit_val c) true
      else if Ascii.eqb c "_" && prev then int_digits r acc false
      else None
  end.

Fixpoint int_lstrip (s : string) : string :=
  match s with
  | String c r => if is_int_space c then int_lstrip r else s
  | EmptyString => EmptyString
  end.

Fixpoint count_chars (p : ascii -> bool) (s : string) : Z :=
  match s with
  | EmptyString => 0
  | String c r => (if p c then 1 else 0) + count_chars p r
  end.

(** The number of digits [int()] and [str()] convert at most
    ([sys.int_info.default_max_str_digits]). *)
Definition max_str_digits : Z := 4300.

(** [int(s)] in base ten; [None] stands for [ValueError]. The blanks at
    both ends are skipped first, and a numeral of more than
    [max_str_digits] digits is refused. *)
Definition int (s : string) : option Z :=
  let t := reverse (int_lstrip (reverse (int_lstrip s))) in
  if max_str_digits <? count_chars is_digit t then None
  else match t with
       | String "+" r => int_digits r 0 false
       | String "-" r => Z.opp <$> int_digits r 0 false
       | _ => int_digits t 0 false
       end.

(** *** [datetime.date] *)
Record date := Date { d_year : Z; d_month : Z; d_day : Z }.

Definition date_ltb (a b : date) : bool :=
  (d_year a <? d_year b)
  || ((d_year a =? d_year b)
      && ((d_month a <? d_month b)
          || ((d_month a =? d_month b) && (d_day a <? d_day b)))).

Definition date_eqb (a b : date) : bool :=
  (d_year a =? d_year b) && (d_month a =? d_month b) && (d_day a =? d_day b).

Definition date_leb (a b : date) : bool := date_ltb a b || date_eqb a b.

Definition is_leap (y : Z) : bool :=
  ((y mod 4 =? 0) && negb (y mod 100 =? 0)) || (y mod 400 =? 0).

Definition days_in_month (y m : Z) : Z :=
  if m =? 2 then (if is_leap y then 29 else 28)
  else if (m =? 4) || (m =? 6) || (m =? 9) || (m =? 11) then 30
  else 31.

(** [datetime.date(y, m, d)]; [None] stands for [ValueError]. *)
Definition make_date (y m d : Z) : option date :=
  if (1 <=? y) && (y <=? 9999) && (1 <=? m) && (m <=? 12)
     && (1 <=? d) && (d <=? days_in_month y m)
  then Some (Date y m d) else None.

(** The directive [%m]: the alternatives [1[0-2]], [0[1-9]], [[1-9]], tried
    in this order; the result is the month and the rest of the input. *)
Definition strptime_m (s : string) : option (Z * string) :=
  match s with
  | String a r =>
      let one := if is_digit a && negb (Ascii.eqb a "0")
                 then Some (digit_val a, r) else None in
      match r with
      | String b r' =>
          if Ascii.eqb a "1" && is_digit b && (digit_val b <=? 2)
          then Some (10 + digit_val b, r')
          else if Ascii.eqb a "0" && is_digit b && negb (Ascii.eqb b "0")
          then Some (digit_val b, r')
          else one
      | EmptyString => one
      end
  | EmptyString => None
  end.

(** The directive [%d]: [3[0-1]], [[1-2]\d], [0[1-9]], [[1-9]], [ [1-9]]. *)
Definition strptime_d (s : string) : option (Z * string) :=
  match s with
  | String a r =>
      let one := if is_digit a && negb (Ascii.eqb a "0")
                 then Some (digit_val a, r) else None in
      match r with
      | String b r' =>
          if Ascii.eqb a "3" && is_digit b && (digit_val b <=? 1)
          then Some (30 + digit_val b, r')
          else if (Ascii.eqb a "1" || Ascii.eqb a "2") && is_digit b
          then Some (10 * digit_val a + digit_val b, r')
          else if (Ascii.eqb a "0" || Ascii.eqb a " ")
                  && is_digit b && negb (Ascii.eqb b "0")
          then Some (digit_val b, r')
          else one
      | EmptyString => one
      end
  | EmptyString => None
  end.

(** [datetime.strptime(s, '%Y-%m-%d')]; [None] stands for [ValueError]
    (no match, unconverted data, or a day out of range). In the format's
    pattern the month is followed by a hyphen, so the one-digit
    alternative of [%m] is the one that applies when the two-digit ones
    do not leave a hyphen next. *)
Definition strptime_ymd (s : string) : option date :=
  match s with
  | String y1 (String y2 (String y3 (String y4 (String "-" r)))) =>
      if is_digit y1 && is_digit y2 && is_digit y3 && is_digit y4 then
        let y := 1000 * digit_val y1 + 100 * digit_val y2
                 + 10 * digit_val y3 + digit_val y4 in
        let after_month (mr : Z * string) : option date :=
          match snd mr with
          | String "-" r' =>
              match strptime_d r' with
              | Some (d, EmptyString) => make_date y (fst mr) d
              | _ => None
              end
          | _ => None
          end in
        match strptime_m r with
        | Some mr =>
            match snd mr with
            | String "-" _ => after_month mr
            | _ =>
                (* backtrack to the one-digit alternative *)
                match r with
                | String a r1 =>
                    if is_digit a && negb (Ascii.eqb a "0")
                    then after_month (digit_val a, r1) else None
                | EmptyString => None
                end
            end
        | None => None
        end
      else None
  | _ => None
  end.

End Py.

(** ** [decimal.Decimal]

    A finite decimal is its signed coefficient and its exponent (the value
    is [coeff * 10 ^ exp]); NaN and the infinities are [DecNonFinite]. *)
Inductive Decimal :=
| DecFin (coeff : Z) (exp : Z)
| DecNonFinite.

Module Dec.

(** [value < p / q] for a positive [q], computed exactly, as Python compares
    a [Decimal] with a [float]. *)
Definition lt_frac (v : Decimal) (p q : Z) : bool :=
  match v with
  | DecFin c e =>
      if 0 <=? e then c * 10 ^ e * q <? p
      else c * q <? p * 10 ^ (- e)
  | DecNonFinite => false
  end.

Fixpoint count_digits (fuel : nat) (n : Z) : Z :=
  match fuel with
  | O => 1
  | S f => if n <? 10 then 1 else 1 + count_digits f (n / 10)
  end.

(** [len(value.as_tuple().digits)] *)
Definition ndigits (c : Z) : Z :=
  count_digits (Z.to_nat (Z.log2 (Z.abs c) + 1)) (Z.abs c).

End Dec.

(** ** The regular expressions of [models.py]

    [RegexValidator] applies [regex.search]; [$] matches at the end of the
    string and before a final newline. *)
Module Regex.

Definition newline : ascii := ascii_of_nat 10.

(** The string without one final newline, when it has one. *)
Fixpoint chomp (s : string) : string :=
  match s with
  | EmptyString => EmptyString
  | String c EmptyString => if Ascii.eqb c newline then EmptyString else s
  | String c r => String c (chomp r)
  end.

(** [^\+?1?\d{9,15}$] *)
Definition phone (s : string) : bool :=
  let body := match s with String "+" r => r | _ => s end in
  let body := chomp body in
  let n := Py.len body in
  Py.all_chars Py.is_digit body
  && (((9 <=? n) && (n <=? 15))
      || ((n =? 16) && match body with String "1" _ => true | _ => false end)).

Definition society_name_char (c : ascii) : bool :=
  Py.is_alnum c || Py.is_space c
  || Ascii.eqb c "-" || Ascii.eqb c "," || Ascii.eqb c ".".

(** [^[a-zA-Z0-9\s\-,.]+$] *)
Definition society_name (s : string) : bool :=
  Py.truthy s && Py.all_chars society_name_char s.

Definition flat_number_char (c : ascii) : bool :=
  Py.is_alnum c || Ascii.eqb c "-" || Ascii.eqb c "/".

(** [^[A-Za-z0-9\-/]+$] *)
Definition flat_number (s : string) : bool :=
  Py.truthy (chomp s) && Py.all_chars flat_number_char (chomp s).

End Regex.

(** ** Exceptions

    Every constructor is a subclass of Python's [Exception]. A
    [ValidationError] carries its error dictionary: the field names (or
    [__all__]) in insertion order, each with its messages. *)
Definition ErrorDict := list (string * list string).

Inductive Exc :=
| ValidationError (errors : ErrorDict)
| IntegrityError
| Http404
| DoesNotExist
| ValueError
| InvalidOperation
| TypeError
| OtherError (what : string).

Definition NON_FIELD_ERRORS : string := "__all__".

(** [error_dict.setdefault(field, []).extend(msgs)] *)
Fixpoint extend_field (field : string) (msgs : list string) (d : ErrorDict)
  : ErrorDict :=
  match d with
  | [] => [(field, msgs)]
  | (f, ms) :: r =>
      if String.eqb f field then (f, (ms ++ msgs)%list) :: r
      else (f, ms) :: extend_field field msgs r
  end.

(** [ValidationError.update_error_dict] *)
Definition update_error_dict (e : ErrorDict) (into : ErrorDict) : ErrorDict :=
  foldl (fun acc fm => extend_field (fst fm) (snd fm) acc) into e.

(** [e.messages] *)
Definition messages_of (e : ErrorDict) : list string :=
  List.concat (List.map snd e).

(** ** The records of [models.py]

    A foreign key is the primary key of the row it refers to. [u_pk] and
    its likes are [None] until the instance is saved ([self.pk is None]).
    [u_plain_password] is the transient attribute [_plain_password]; it is
    not a column. *)
Record User := mkUser {
  u_pk : option Z;
  u_username : string;
  u_email : string;
  u_first_name : string;
  u_last_name : string;
  u_phone : option string;
  u_role : string;
  u_is_active : bool;
  u_is_superuser : bool;
  u_password : string;
  u_plain_password : option string
}.

Record Society := mkSociety {
  s_pk : option Z;
  s_name : string;
  s_address : string
}.

Record Flat := mkFlat {
  f_pk : option Z;
  f_society : Z;
  f_flat_number : string;
  f_owner : option Z
}.

(** The value of a [DateField] attribute: what the handler assigned (a
    string from the form) or what [clean_fields] and the store put there
    (a date). *)
Inductive DateVal :=
| DStr (s : string)
| DDate (d : Py.date).

Record Tenant := mkTenant {
  t_pk : option Z;
  t_user : Z;
  t_flat : Z;
  t_rent_amount : Decimal;
  t_start_date : DateVal;
  t_end_date : option Py.date;
  t_is_active : bool
}.

Record MaintenanceBill := mkBill {
  b_pk : option Z;
  b_flat : Z;
  b_month : string;
  b_year : Z;
  b_amount : Decimal;
  b_status : string
}.

Definition ADMIN : string := "ADMIN".
Definition OWNER : string := "OWNER".
Definition TENANT : string := "TENANT".
Definition ROLE_CHOICES : list string := [ADMIN; OWNER; TENANT].

Definition PAID : string := "PAID".
Definition UNPAID : string := "UNPAID".
Definition STATUS_CHOICES : list string := [PAID; UNPAID].

Definition MONTH_CHOICES : list string :=
  ["JANUARY"; "FEBRUARY"; "MARCH"; "APRIL"; "MAY"; "JUNE"; "JULY"; "AUGUST";
   "SEPTEMBER"; "OCTOBER"; "NOVEMBER"; "DECEMBER"].

Definition in_choices (v : string) (choices : list string) : bool :=
  existsb (String.eqb v) choices.

(** ** The record store *)
Record Store := mkStore {
  users : gmap Z User;
  societies : gmap Z Society;
  flats : gmap Z Flat;
  tenants : gmap Z Tenant;
  bills : gmap Z MaintenanceBill
}.

Definition empty_store : Store := mkStore ∅ ∅ ∅ ∅ ∅.

Definition with_users (m : gmap Z User) (s : Store) : Store :=
  mkStore m (societies s) (flats s) (tenants s) (bills s).
Definition with_societies (m : gmap Z Society) (s : Store) : Store :=
  mkStore (users s) m (flats s) (tenants s) (bills s).
Definition with_flats (m : gmap Z Flat) (s : Store) : Store :=
  mkStore (users s) (societies s) m (tenants s) (bills s).
Definition with_tenants (m : gmap Z Tenant) (s : Store) : Store :=
  mkStore (users s) (societies s) (flats s) m (bills s).
Definition with_bills (m : gmap Z MaintenanceBill) (s : Store) : Store :=
  mkStore (users s) (societies s) (flats s) (tenants s) m.

(** The key the store gives to a new row: one more than the largest key of
    the table. *)
Definition next_pk {A} (m : gmap Z A) : Z :=
  1 + foldr Z.max 0 (fst <$> map_to_list m).

(** Does some row of the table satisfy [p]? ([QuerySet.exists()]) *)
Definition exists_row {A} (p : A -> bool) (m : gmap Z A) : bool :=
  existsb (fun kv => p (snd kv)) (map_to_list m).

(** [qs.exclude(pk=pk).exists()]: some row other than [pk] satisfies [p]. *)
Definition exists_other {A} (pk : option Z) (p : A -> bool) (m : gmap Z A)
  : bool :=
  existsb (fun kv => p (snd kv) && negb (bool_decide (pk = Some (fst kv))))
          (map_to_list m).

(** ** Requests, responses and the world a handler runs in *)
Inductive Level := SUCCESS | WARNING | ERROR.

Record Notice := mkNotice { n_level : Level; n_text : string }.

Record Mail := mkMail { m_to : string; m_subject : string; m_body : string }.

(** [faults] is the schedule of the store's refusals: each write
    ([save()], [delete()]) takes the head of the list, and is refused with
    that exception when the head holds one. An empty schedule refuses
    nothing. This is how a lost race on a uniqueness constraint
    ([IntegrityError]) and unexpected failures of the store enter the
    model. *)
Record World := mkWorld {
  store : Store;
  notices : list Notice;
  outbox : list Mail;
  faults : list (option Exc)
}.

Definition set_store (s : Store) (w : World) : World :=
  mkWorld s (notices w) (outbox w) (faults w).
Definition set_faults (f : list (option Exc)) (w : World) : World :=
  mkWorld (store w) (notices w) (outbox w) f.

Inductive Result (A : Type) :=
| Ok (a : A)
| Raise (e : Exc).
Arguments Ok {A} a.
Arguments Raise {A} e.

Definition M (A : Type) : Type := World -> Result A * World.

Definition ret {A} (a : A) : M A := fun w => (Ok a, w).

Definition bind {A B} (m : M A) (k : A -> M B) : M B :=
  fun w =>
    match m w with
    | (Ok a, w') => k a w'
    | (Raise e, w') => (Raise e, w')
    end.

Definition raise {A} (e : Exc) : M A := fun w => (Raise e, w).

(** [try: m  except Exception as e: h e]; a handler re-raises what its
    [except] clauses do not name. *)
Definition try_except {A} (m : M A) (h : Exc -> M A) : M A :=
  fun w =>
    match m w with
    | (Ok a, w') => (Ok a, w')
    | (Raise e, w') => h e w'
    end.

(** [with transaction.atomic(): m]: when [m] raises, the store is put back
    to what it was on entry and the exception goes on; notices and mail
    are not undone. *)
Definition atomic {A} (m : M A) : M A :=
  fun w =>
    match m w with
    | (Ok a, w') => (Ok a, w')
    | (Raise e, w') => (Raise e, set_store (store w) w')
    end.

(** A read of the store. *)
Definition query {A} (f : Store -> Result A) : M A :=
  fun w => (f (store w), w).

(** The refusal that awaits the next write, and the world once the head of
    the schedule is used up. *)
Definition refusal (w : World) : option Exc :=
  match faults w with
  | Some e :: _ => Some e
  | _ => None
  end.

Definition tick (w : World) : World := set_faults (tail (faults w)) w.

(** A write of the store: refused when the schedule says so, otherwise
    [f] decides (the constraints of the schema) and gives the new store. *)
Definition db_write {A} (f : Store -> Result (A * Store)) : M A :=
  fun w =>
    match refusal w with
    | Some e => (Raise e, tick w)
    | None =>
        match f (store w) with
        | Ok (a, s') => (Ok a, set_store s' (tick w))
        | Raise e => (Raise e, tick w)
        end
    end.

(** [messages.success(request, text)], [messages.error(request, text)] *)
Definition message (l : Level) (text : string) : M unit :=
  fun w => (Ok tt, mkWorld (store w) (notices w ++ [mkNotice l text])
                           (outbox w) (faults w)).

(** [send_mail(...)], as far as the program can tell: the mail is handed
    over; a failure of the delivery is caught and printed by the caller. *)
Definition send_mail (m : Mail) : M unit :=
  fun w => (Ok tt, mkWorld (store w) (notices w) (outbox w ++ [m]) (faults w)).

Declare Scope monad_scope.
Delimit Scope monad_scope with monad.
Notation "x <- m ;; k" := (bind m (fun x => k))
  (at level 100, m at next level, right associativity) : monad_scope.
Notation "m ;;; k" := (bind m (fun _ => k))
  (at level 100, right associativity) : monad_scope.
Local Open Scope monad_scope.

Inductive Response :=
| RedirectTo (name : string)
| RenderPage (template : string).

(** [request.user] is [None] for an anonymous visitor
    ([is_authenticated] false) and the logged-in user otherwise. *)
Record Request := mkRequest {
  method : string;
  POST : gmap string string;
  GET : gmap string string;
  user : option User
}.

(** [request.POST.get(key, '')] *)
Definition post_get (r : Request) (key : string) : string :=
  default EmptyString (POST r !! key).

(** [request.POST.get(key)]; [not v] holds for [None] and for [''] *)
Definition post_opt (r : Request) (key : string) : option string :=
  POST r !! key.

Definition opt_truthy (v : option string) : bool :=
  match v with Some s => Py.truthy s | None => false end.

(** What the program takes from its environment: the clock, and the parts
    of Django and of Python's [decimal] that the repository only calls. *)
Record Env := mkEnv {
  today_year : Z;                       (* date.today().year *)
  username_validator : string -> bool;  (* AbstractUser.username_validator *)
  email_validator : string -> bool;     (* EmailField's validate_email *)
  normalize_email : string -> string;   (* AbstractUser.clean's normalisation *)
  make_password : string -> string;     (* set_password's hash *)
  parse_Decimal : string -> option Decimal  (* Decimal(s); None: InvalidOperation *)
}.

(** ** Field updates ([instance.field = value]) *)
Definition u_set_pk v (u : User) : User :=
  mkUser v (u_username u) (u_email u) (u_first_name u) (u_last_name u)
         (u_phone u) (u_role u) (u_is_active u) (u_is_superuser u)
         (u_password u) (u_plain_password u).
Definition u_set_username v (u : User) : User :=
  mkUser (u_pk u) v (u_email u) (u_first_name u) (u_last_name u)
         (u_phone u) (u_role u) (u_is_active u) (u_is_superuser u)
         (u_password u) (u_plain_password u).
Definition u_set_email v (u : User) : User :=
  mkUser (u_pk u) (u_username u) v (u_first_name u) (u_last_name u)
         (u_phone u) (u_role u) (u_is_active u) (u_is_superuser u)
         (u_password u) (u_plain_password u).
Definition u_set_first_name v (u : User) : User :=
  mkUser (u_pk u) (u_username u) (u_email u) v (u_last_name u)
         (u_phone u) (u_role u) (u_is_active u) (u_is_superuser u)
         (u_password u) (u_plain_password u).
Definition u_set_last_name v (u : User) : User :=
  mkUser (u_pk u) (u_username u) (u_email u) (u_first_name u) v
         (u_phone u) (u_role u) (u_is_active u) (u_is_superuser u)
         (u_password u) (u_plain_password u).
Definition u_set_phone v (u : User) : User :=
  mkUser (u_pk u) (u_username u) (u_email u) (u_first_name u) (u_last_name u)
         v (u_role u) (u_is_active u) (u_is_superuser u)
         (u_password u) (u_plain_password u).
Definition u_set_role v (u : User) : User :=
  mkUser (u_pk u) (u_username u) (u_email u) (u_first_name u) (u_last_name u)
         (u_phone u) v (u_is_active u) (u_is_superuser u)
         (u_password u) (u_plain_password u).
Definition u_set_is_active v (u : User) : User :=
  mkUser (u_pk u) (u_username u) (u_email u) (u_first_name u) (u_last_name u)
         (u_phone u) (u_role u) v (u_is_superuser u)
         (u_password u) (u_plain_password u).
Definition u_set_password v (u : User) : User :=
  mkUser (u_pk u) (u_username u) (u_email u) (u_first_name u) (u_last_name u)
         (u_phone u) (u_role u) (u_is_active u) (u_is_superuser u)
         v (u_plain_password u).
Definition u_set_plain_password v (u : User) : User :=
  mkUser (u_pk u) (u_username u) (u_email u) (u_first_name u) (u_last_name u)
         (u_phone u) (u_role u) (u_is_active u) (u_is_superuser u)
         (u_password u) v.

Definition s_set_pk v (x : Society) : Society := mkSociety v (s_name x) (s_address x).
Definition s_set_name v (x : Society) : Society := mkSociety (s_pk x) v (s_address x).
Definition s_set_address v (x : Society) : Society := mkSociety (s_pk x) (s_name x) v.

Definition f_set_pk v (x : Flat) : Flat :=
  mkFlat v (f_society x) (f_flat_number x) (f_owner x).
Definition f_set_society v (x : Flat) : Flat :=
  mkFlat (f_pk x) v (f_flat_number x) (f_owner x).
Definition f_set_flat_number v (x : Flat) : Flat :=
  mkFlat (f_pk x) (f_society x) v (f_owner x).
Definition f_set_owner v (x : Flat) : Flat :=
  mkFlat (f_pk x) (f_society x) (f_flat_number x) v.

Definition t_set_pk v (x : Tenant) : Tenant :=
  mkTenant v (t_user x) (t_flat x) (t_rent_amount x) (t_start_date x)
           (t_end_date x) (t_is_active x).
Definition t_set_flat v (x : Tenant) : Tenant :=
  mkTenant (t_pk x) (t_user x) v (t_rent_amount x) (t_start_date x)
           (t_end_date x) (t_is_active x).
Definition t_set_rent_amount v (x : Tenant) : Tenant :=
  mkTenant (t_pk x) (t_user x) (t_flat x) v (t_start_date x)
           (t_end_date x) (t_is_active x).
Definition t_set_start_date v (x : Tenant) : Tenant :=
  mkTenant (t_pk x) (t_user x) (t_flat x) (t_rent_amount x) v
           (t_end_date x) (t_is_active x).
Definition t_set_is_active v (x : Tenant) : Tenant :=
  mkTenant (t_pk x) (t_user x) (t_flat x) (t_rent_amount x) (t_start_date x)
           (t_end_date x) v.

Definition b_set_pk v (x : MaintenanceBill) : MaintenanceBill :=
  mkBill v (b_flat x) (b_month x) (b_year x) (b_amount x) (b_status x).
Definition b_set_flat v (x : MaintenanceBill) : MaintenanceBill :=
  mkBill (b_pk x) v (b_month x) (b_year x) (b_amount x) (b_status x).
Definition b_set_month v (x : MaintenanceBill) : MaintenanceBill :=
  mkBill (b_pk x) (b_flat x) v (b_year x) (b_amount x) (b_status x).
Definition b_set_year v (x : MaintenanceBill) : MaintenanceBill :=
  mkBill (b_pk x) (b_flat x) (b_month x) v (b_amount x) (b_status x).
Definition b_set_amount v (x : MaintenanceBill) : MaintenanceBill :=
  mkBill (b_pk x) (b_flat x) (b_month x) (b_year x) v (b_status x).
Definition b_set_status v (x : MaintenanceBill) : MaintenanceBill :=
  mkBill (b_pk x) (b_flat x) (b_month x) (b_year x) (b_amount x) v.

(** ** Django's field validation, as [Model.clean_fields] applies it

    Each function gives the messages of one field; an empty list means the
    field is clean. *)
Module Field.

Definition blank_msg : string := "This field cannot be blank.".

(** [MaxLengthValidator(n)] *)
Definition max_length (n : Z) (v : string) : list string :=
  if n <? Py.len v
  then ["Ensure this value has at most " +:+ pretty n
        +:+ " characters (it has " +:+ pretty (Py.len v) +:+ ")."]
  else [].

(** A validator built from a test and its message. *)
Definition check (ok : bool) (msg : string) : list string :=
  if ok then [] else [msg].

(** A [CharField]/[TextField] without choices. [blank] is the field's
    [blank] option, [validators] the messages of the field's validators in
    their order. An empty value of a [blank=True] field is skipped; of
    another field it is the [blank] error and no validator runs. *)
Definition text (blank : bool) (v : string) (validators : list string)
  : list string :=
  if Py.truthy v then validators
  else if blank then [] else [blank_msg].

(** A [CharField] with [choices]. *)
Definition choice (choices : list string) (v : string)
           (validators : list string) : list string :=
  if Py.truthy v then
    if in_choices v choices then validators
    else ["Value '" +:+ v +:+ "' is not a valid choice."]
  else [blank_msg].

(** [MinValueValidator(limit)] on an integer. *)
Definition min_int (limit : Z) (msg : string) (v : Z) : list string :=
  check (negb (v <? limit)) msg.

Definition min_default_msg (limit : string) : string :=
  "Ensure this value is greater than or equal to " +:+ limit +:+ ".".

(** [MinValueValidator(p / q)] on a decimal. *)
Definition min_dec (p q : Z) (msg : string) (v : Decimal) : list string :=
  check (negb (Dec.lt_frac v p q)) msg.

(** [DecimalValidator(max_digits, decimal_places)]: the first of its three
    checks that fails. *)
Definition decimal_digits (max_digits decimal_places : Z) (v : Decimal)
  : list string :=
  match v with
  | DecNonFinite => ["Enter a number."]
  | DecFin c e =>
      let n := Dec.ndigits c in
      let digits :=
        if 0 <=? e then (if c =? 0 then n else n + e)
        else if n <? - e then - e else n in
      let decimals := if 0 <=? e then 0 else - e in
      if max_digits <? digits then
        ["Ensure that there are no more than " +:+ pretty max_digits
         +:+ " digits in total."]
      else if decimal_places <? decimals then
        ["Ensure that there are no more than " +:+ pretty decimal_places
         +:+ " decimal places."]
      else if max_digits - decimal_places <? digits - decimals then
        ["Ensure that there are no more than "
         +:+ pretty (max_digits - decimal_places)
         +:+ " digits before the decimal point."]
      else []
  end.

(** A [DecimalField]: [to_python] refuses what is not finite; then the
    field's validators, then [DecimalValidator]. *)
Definition decimal (v : Decimal) (validators : list string)
           (max_digits decimal_places : Z) : list string :=
  match v with
  | DecNonFinite => ["This value must be a decimal number."]
  | DecFin _ _ => validators ++ decimal_digits max_digits decimal_places v
  end.

(** [ForeignKey.validate]: a row with this key, within the field's
    [limit_choices_to], must exist. *)
Definition foreign_key {A} (model : string) (k : Z) (m : gmap Z A)
           (limit : A -> bool) : list string :=
  match m !! k with
  | Some r =>
      check (limit r)
            (model +:+ " instance with id " +:+ pretty k +:+ " does not exist.")
  | None => [model +:+ " instance with id " +:+ pretty k +:+ " does not exist."]
  end.

(** [django.utils.dateparse.parse_date] on the pattern
    [\d{4}-\d{1,2}-\d{1,2}$]: [None] when the pattern does not match,
    [Some None] when it matches and the day does not exist ([ValueError]).
    (The ISO basic and week formats, which [date.fromisoformat] also takes,
    are never handed to a [DateField] by the handlers: they pass
    [strptime('%Y-%m-%d')] first.) *)
Definition one_or_two_digits (s : string) : option (Z * string) :=
  match s with
  | String a r =>
      if Py.is_digit a then
        match r with
        | String b r' =>
            if Py.is_digit b
            then Some (10 * Py.digit_val a + Py.digit_val b, r')
            else Some (Py.digit_val a, r)
        | EmptyString => Some (Py.digit_val a, r)
        end
      else None
  | EmptyString => None
  end.

Definition parse_date (s : string) : option (option Py.date) :=
  match s with
  | String y1 (String y2 (String y3 (String y4 (String "-" r)))) =>
      if Py.is_digit y1 && Py.is_digit y2 && Py.is_digit y3 && Py.is_digit y4
      then
        let y := 1000 * Py.digit_val y1 + 100 * Py.digit_val y2
                 + 10 * Py.digit_val y3 + Py.digit_val y4 in
        match one_or_two_digits r with
        | Some (m, String "-" r') =>
            match one_or_two_digits r' with
            | Some (d, rest) =>
                if Py.truthy (Regex.chomp rest) then None
                else Some (Py.make_date y m d)
            | None => None
            end
        | _ => None
        end
      else None
  | _ => None
  end.

(** [DateField.to_python]: the cleaned value, or the field's messages. *)
Definition date_to_python (v : DateVal) : Py.date + list string :=
  match v with
  | DDate d => inl d
  | DStr s =>
      match parse_date s with
      | Some (Some d) => inl d
      | Some None =>
          inr ["'" +:+ s +:+ "' value has the correct format (YYYY-MM-DD) but it is an invalid date."]
      | None =>
          inr ["'" +:+ s +:+ "' value has an invalid date format. It must be in YYYY-MM-DD format."]
      end
  end.

(** The entry of a field in the error dictionary. *)
Definition entry (name : string) (msgs : list string) : ErrorDict :=
  match msgs with [] => [] | _ => [(name, msgs)] end.

(** One uniqueness check of [validate_unique]: skipped when one of its
    fields is in [exclude]. *)
Definition unique (exclude : list string) (fields : list string)
           (key : string) (taken : bool) (msg : string) : ErrorDict :=
  if existsb (fun f => in_choices f exclude) fields then []
  else if taken then [(key, [msg])] else [].

End Field.

(** [Model.full_clean]: [clean_fields], then [clean] (also when fields
    failed), then [validate_unique] without the fields that have errors;
    all the errors are raised together. [cleaned] is what [clean] made of
    the instance with what it raised ([[]] when nothing); an exception of
    [clean] that is not a [ValidationError] goes through. *)
Definition full_clean_of {A} (field_errors : ErrorDict)
           (cleaned : Result (A * ErrorDict))
           (validate_unique : A -> list string -> ErrorDict) : Result A :=
  match cleaned with
  | Raise e => Raise e
  | Ok (a, clean_errors) =>
      let errors := update_error_dict clean_errors field_errors in
      let exclude :=
        List.filter (fun f => negb (String.eqb f NON_FIELD_ERRORS))
                    (List.map fst errors) in
      match update_error_dict (validate_unique a exclude) errors with
      | [] => Ok a
      | errors' => Raise (ValidationError errors')
      end
  end.
Arguments full_clean_of : simpl never.

(** ** [models.py] *)
Section Models.

Context (env : Env).

(** *** [class User(AbstractUser)] *)

(** [clean_fields] of a [User]: the fields of [AbstractUser] and the three
    the repository declares ([email], [role], [phone]). *)
Definition User_clean_fields (u : User) : ErrorDict :=
  Field.entry "password"
    (Field.text false (u_password u) (Field.max_length 128 (u_password u)))
  ++ Field.entry "username"
    (Field.text false (u_username u)
       (Field.check (username_validator env (u_username u))
          "Enter a valid username. This value may contain only letters, numbers, and @/./+/-/_ characters."
        ++ Field.max_length 150 (u_username u)))
  ++ Field.entry "first_name"
    (Field.text true (u_first_name u) (Field.max_length 150 (u_first_name u)))
  ++ Field.entry "last_name"
    (Field.text true (u_last_name u) (Field.max_length 150 (u_last_name u)))
  ++ Field.entry "email"
    (Field.text false (u_email u)
       (Field.check (email_validator env (u_email u))
          "Enter a valid email address."
        ++ Field.max_length 254 (u_email u)))
  ++ Field.entry "role"
    (Field.choice ROLE_CHOICES (u_role u) (Field.max_length 10 (u_role u)))
  ++ Field.entry "phone"
    (match u_phone u with
     | None => []
     | Some p =>
         Field.text true p
           (Field.check (Regex.phone p)
              "Enter a valid phone number (9-15 digits)"
            ++ Field.max_length 15 p)
     end).

(** [User.clean] *)
Definition User_clean (u : User) : User * ErrorDict :=
  (* super().clean() *)
  let u := u_set_email (normalize_email env (u_email u)) u in
  let u := if Py.truthy (u_email u)
           then u_set_email (Py.strip (Py.lower (u_email u))) u else u in
  (* Validate first and last name for owners *)
  if in_choices (u_role u) [OWNER; TENANT]
     && (negb (Py.truthy (u_first_name u)) || negb (Py.truthy (u_last_name u)))
  then (u, [(NON_FIELD_ERRORS,
             ["First name and last name are required for Owners and Tenants"])])
  else (u, []).

(** [validate_unique] of a [User]: [username] and [email] are unique. *)
Definition User_validate_unique (s : Store) (u : User) (exclude : list string)
  : ErrorDict :=
  Field.unique exclude ["username"] "username"
    (exists_other (u_pk u)
       (fun r => String.eqb (u_username r) (u_username u)) (users s))
    "User with this Username already exists."
  ++ Field.unique exclude ["email"] "email"
    (exists_other (u_pk u)
       (fun r => String.eqb (u_email r) (u_email u)) (users s))
    "User with this Email already exists.".

(** [user.full_clean()], as a function of the store it reads. *)
Definition User_full_clean_in (s : Store) (u : User) : Result User :=
  full_clean_of (User_clean_fields u) (Ok (User_clean u))
                (User_validate_unique s).

Definition User_full_clean (u : User) : M User :=
  query (fun s => User_full_clean_in s u).

(** The row written for a [User], and whether it is a new row. The store
    holds the uniqueness of [username] and of [email]. *)
Definition User_db_save (u : User) (s : Store)
  : Result ((User * bool) * Store) :=
  if exists_other (u_pk u)
       (fun r => String.eqb (u_username r) (u_username u)) (users s)
     || exists_other (u_pk u)
       (fun r => String.eqb (u_email r) (u_email u)) (users s)
  then Raise IntegrityError
  else
    let k := match u_pk u with Some k => k | None => next_pk (users s) end in
    let created := bool_decide (users s !! k = None) in
    let row := u_set_pk (Some k) u in
    Ok ((row, created),
        with_users (<[k := u_set_plain_password None row]> (users s)) s).

(** [signals.py]: the mail of [send_credentials_on_create]. *)
Definition credentials_mail (instance : User) (plain : string) : Mail :=
  let '(role_display, sender_title) :=
    if String.eqb (u_role instance) "OWNER"
    then ("Society Owner", "Society Administrator")
    else if String.eqb (u_role instance) "TENANT"
    then ("Tenant", "Flat Owner")
    else ("User", "Administrator") in
  let subject :=
    "Welcome to Society Management - Your " +:+ role_display +:+ " Account" in
  let body :=
    "Hello " +:+ u_first_name instance +:+ " " +:+ u_last_name instance
    +:+ ", your account has been successfully created by the "
    +:+ sender_title +:+ ". Email: " +:+ u_email instance
    +:+ " Password: " +:+ plain in
  mkMail (u_email instance) subject body.

(** [signals.py]: [send_credentials_on_create], the receiver of
    [post_save] for [User]: it sends the credentials when the row is new
    and the instance carries [_plain_password]. *)
Definition send_credentials_on_create (instance : User) (created : bool)
  : M unit :=
  match created, u_plain_password instance with
  | true, Some plain => send_mail (credentials_mail instance plain)
  | _, _ => ret tt
  end.

(** [User.save] *)
Definition User_save (u : User) : M User :=
  (* ensure any superuser always has ADMIN role *)
  let u := if u_is_superuser u then u_set_role ADMIN u else u in
  (* super().save(...) *)
  saved <- db_write (User_db_save u);;
  send_credentials_on_create (fst saved) (snd saved);;;
  ret (fst saved).

(** [user.delete()]: with the user go the tenants that refer to them
    ([on_delete=CASCADE]); the flats they own lose their owner
    ([on_delete=SET_NULL]). *)
Definition User_db_delete (k : Z) (s : Store) : Result (unit * Store) :=
  let ts := filter (fun kv => t_user (snd kv) ≠ k) (tenants s) in
  let fs := (fun f => if bool_decide (f_owner f = Some k)
                      then f_set_owner None f else f) <$> flats s in
  Ok (tt, mkStore (delete k (users s)) (societies s) fs ts (bills s)).

Definition User_delete (u : User) : M unit :=
  match u_pk u with
  | Some k => db_write (User_db_delete k)
  | None => raise ValueError
  end.

(** [user.set_password(raw)] *)
Definition set_password (raw : string) (u : User) : User :=
  u_set_password (make_password env raw) u.

(** [user.get_full_name()] *)
Definition get_full_name (u : User) : string :=
  Py.strip (u_first_name u +:+ " " +:+ u_last_name u).

(** *** [class Society] *)

Definition Society_clean_fields (x : Society) : ErrorDict :=
  Field.entry "name"
    (Field.text false (s_name x)
       (Field.check (Regex.society_name (s_name x))
          "Society name can only contain letters, numbers, spaces, hyphens, commas and dots"
        ++ Field.max_length 200 (s_name x)))
  ++ Field.entry "address" (Field.text false (s_address x) []).

(** [Society.clean] *)
Definition Society_clean (x : Society) : Society * ErrorDict :=
  let x1 := if Py.truthy (s_name x)
            then s_set_name (Py.strip (s_name x)) x else x in
  if Py.truthy (s_name x) && (Py.len (s_name x1) <? 3)
  then (x1, [("name", ["Society name must be at least 3 characters long"])])
  else
    let x2 := if Py.truthy (s_address x1)
              then s_set_address (Py.strip (s_address x1)) x1 else x1 in
    if Py.truthy (s_address x1) && (Py.len (s_address x2) <? 10)
    then (x2, [("address",
                ["Please provide a complete address (minimum 10 characters)"])])
    else (x2, []).

Definition Society_full_clean_in (s : Store) (x : Society) : Result Society :=
  full_clean_of (Society_clean_fields x) (Ok (Society_clean x))
                (fun _ _ => []).

Definition Society_full_clean (x : Society) : M Society :=
  query (fun s => Society_full_clean_in s x).

Definition Society_db_save (x : Society) (s : Store)
  : Result (Society * Store) :=
  let k := match s_pk x with Some k => k | None => next_pk (societies s) end in
  let row := s_set_pk (Some k) x in
  Ok (row, with_societies (<[k := row]> (societies s)) s).

Definition Society_save (x : Society) : M Society :=
  db_write (Society_db_save x).

(** The society of flat [k] in [s], when there is such a flat. *)
Definition society_of_flat (s : Store) (k : Z) : option Z :=
  f_society <$> flats s !! k.

(** [society.delete()]: [Flat.society] is [on_delete=CASCADE], and so are
    [Tenant.flat] and [MaintenanceBill.flat]: the flats of the society go
    with it, and with them their tenants and bills. *)
Definition Society_db_delete (k : Z) (s : Store) : Result (unit * Store) :=
  Ok (tt,
      mkStore (users s)
              (delete k (societies s))
              (filter (fun kv => f_society (snd kv) ≠ k) (flats s))
              (filter (fun kv => society_of_flat s (t_flat (snd kv)) ≠ Some k)
                      (tenants s))
              (filter (fun kv => society_of_flat s (b_flat (snd kv)) ≠ Some k)
                      (bills s))).

Definition Society_delete (x : Society) : M unit :=
  match s_pk x with
  | Some k => db_write (Society_db_delete k)
  | None => raise ValueError
  end.

(** *** [class Flat] *)

Definition Flat_clean_fields (s : Store) (x : Flat) : ErrorDict :=
  Field.entry "society"
    (Field.foreign_key "society" (f_society x) (societies s) (fun _ => true))
  ++ Field.entry "flat_number"
    (Field.text false (f_flat_number x)
       (Field.check (Regex.flat_number (f_flat_number x))
          "Flat number can only contain letters, numbers, hyphens and slashes (e.g., A-101, B/205)"
        ++ Field.max_length 50 (f_flat_number x)))
  ++ Field.entry "owner"
    (match f_owner x with
     | None => []
     | Some k =>
         Field.foreign_key "user" k (users s)
           (fun o => String.eqb (u_role o) "OWNER")
     end).

(** [Flat.clean]; [self.owner] is the row of the owner. *)
Definition Flat_clean (s : Store) (x : Flat) : Result (Flat * ErrorDict) :=
  let x := if Py.truthy (f_flat_number x)
           then f_set_flat_number (Py.strip (Py.upper (f_flat_number x))) x
           else x in
  (* Validate owner role *)
  match f_owner x with
  | None => Ok (x, [])
  | Some k =>
      match users s !! k with
      | None => Raise DoesNotExist
      | Some o =>
          if negb (String.eqb (u_role o) "OWNER")
          then Ok (x, [("owner", ["Selected user must have OWNER role"])])
          else Ok (x, [])
      end
  end.

Definition same_flat_key (x r : Flat) : bool :=
  (f_society r =? f_society x) && String.eqb (f_flat_number r) (f_flat_number x).

(** [unique_together = ['society', 'flat_number']] *)
Definition Flat_validate_unique (s : Store) (x : Flat) (exclude : list string)
  : ErrorDict :=
  Field.unique exclude ["society"; "flat_number"] NON_FIELD_ERRORS
    (exists_other (f_pk x) (same_flat_key x) (flats s))
    "Flat with this Society and Flat number already exists.".

Definition Flat_full_clean_in (s : Store) (x : Flat) : Result Flat :=
  full_clean_of (Flat_clean_fields s x) (Flat_clean s x)
                (Flat_validate_unique s).

Definition Flat_full_clean (x : Flat) : M Flat :=
  query (fun s => Flat_full_clean_in s x).

(** A foreign key is checked by the store when the row is new or the key
    has changed. *)
Definition fk_ok {A} (old : option Z) (new : Z) (m : gmap Z A) : bool :=
  bool_decide (old = Some new) || bool_decide (is_Some (m !! new)).

Definition Flat_db_save (x : Flat) (s : Store) : Result (Flat * Store) :=
  let k := match f_pk x with Some k => k | None => next_pk (flats s) end in
  let old := flats s !! k in
  if exists_other (f_pk x) (same_flat_key x) (flats s)
     || negb (fk_ok (f_society <$> old) (f_society x) (societies s))
     || negb (match f_owner x with
              | None => true
              | Some o => fk_ok (old ≫= f_owner) o (users s)
              end)
  then Raise IntegrityError
  else
    let row := f_set_pk (Some k) x in
    Ok (row, with_flats (<[k := row]> (flats s)) s).

Definition Flat_save (x : Flat) : M Flat := db_write (Flat_db_save x).

(** [flat.delete()]: [Tenant.flat] and [MaintenanceBill.flat] are
    [on_delete=CASCADE]. *)
Definition Flat_db_delete (k : Z) (s : Store) : Result (unit * Store) :=
  Ok (tt,
      mkStore (users s) (societies s)
              (delete k (flats s))
              (filter (fun kv => t_flat (snd kv) ≠ k) (tenants s))
              (filter (fun kv => b_flat (snd kv) ≠ k) (bills s))).

Definition Flat_delete (x : Flat) : M unit :=
  match f_pk x with
  | Some k => db_write (Flat_db_delete k)
  | None => raise ValueError
  end.

(** *** [class Tenant] *)

(** [MinValueValidator(0.01)]: the limit is the float [0.01], that is
    5764607523034235 / 2^59. *)
Definition rent_min (v : Decimal) : list string :=
  Field.min_dec 5764607523034235 576460752303423488
                "Rent amount must be greater than 0" v.

(** [clean_fields] of a [Tenant]; it also stores the cleaned values, so a
    well-formed [start_date] string becomes a date. *)
Definition Tenant_clean_fields (s : Store) (x : Tenant) : Tenant * ErrorDict :=
  let start := Field.date_to_python (t_start_date x) in
  (match start with inl d => t_set_start_date (DDate d) x | inr _ => x end,
   Field.entry "user"
     (Field.foreign_key "user" (t_user x) (users s)
        (fun o => String.eqb (u_role o) "TENANT"))
   ++ Field.entry "flat"
     (Field.foreign_key "flat" (t_flat x) (flats s) (fun _ => true))
   ++ Field.entry "rent_amount"
     (Field.decimal (t_rent_amount x) (rent_min (t_rent_amount x)) 10 2)
   ++ Field.entry "start_date"
     (match start with inl _ => [] | inr msgs => msgs end)).

Definition year_2000 : Py.date := Py.Date 2000 1 1.

(** [Tenant.clean]. Comparing a string with a date is a [TypeError]. *)
Definition Tenant_clean (s : Store) (x : Tenant) : Result (Tenant * ErrorDict) :=
  (* Validate user role *)
  match users s !! t_user x with
  | None => Raise DoesNotExist
  | Some u =>
      if negb (String.eqb (u_role u) "TENANT")
      then Ok (x, [("user", ["Selected user must have TENANT role"])])
      else
        (* Validate dates *)
        let after_start :=
          match t_end_date x, t_start_date x with
          | Some e, DDate d =>
              if Py.date_leb e d
              then Ok (x, [("end_date", ["End date must be after start date"])])
              else Ok (x, [])
          | Some e, DStr _ => Raise TypeError
          | None, _ => Ok (x, [])
          end in
        let after_end (r : Result (Tenant * ErrorDict)) :=
          match r with
          | Ok (x, []) =>
              (* Check if tenant already exists for this user *)
              if bool_decide (t_pk x = None)
                 && exists_row
                      (fun r => (t_user r =? t_user x) && t_is_active r)
                      (tenants s)
              then Ok (x, [("user", ["This user is already an active tenant"])])
              else Ok (x, [])
          | r => r
          end in
        match t_start_date x with
        | DStr str =>
            if Py.truthy str then Raise TypeError else after_end after_start
        | DDate d =>
            if Py.date_ltb d year_2000
            then Ok (x, [("start_date",
                          ["Start date cannot be before year 2000"])])
            else after_end after_start
        end
  end.

(** [user] is a [OneToOneField]: unique. *)
Definition Tenant_validate_unique (s : Store) (x : Tenant)
           (exclude : list string) : ErrorDict :=
  Field.unique exclude ["user"] "user"
    (exists_other (t_pk x) (fun r => t_user r =? t_user x) (tenants s))
    "Tenant with this User already exists.".

Definition Tenant_full_clean_in (s : Store) (x : Tenant) : Result Tenant :=
  let '(x1, field_errors) := Tenant_clean_fields s x in
  full_clean_of field_errors (Tenant_clean s x1) (Tenant_validate_unique s).

Definition Tenant_full_clean (x : Tenant) : M Tenant :=
  query (fun s => Tenant_full_clean_in s x).

Definition Tenant_db_save (x : Tenant) (s : Store) : Result (Tenant * Store) :=
  match Field.date_to_python (t_start_date x) with
  | inr msgs => Raise (ValidationError [("start_date", msgs)])
  | inl d =>
      let k := match t_pk x with Some k => k | None => next_pk (tenants s) end in
      let old := tenants s !! k in
      if exists_other (t_pk x) (fun r => t_user r =? t_user x) (tenants s)
         || negb (fk_ok (t_user <$> old) (t_user x) (users s))
         || negb (fk_ok (t_flat <$> old) (t_flat x) (flats s))
      then Raise IntegrityError
      else
        let row := t_set_start_date (DDate d) (t_set_pk (Some k) x) in
        Ok (row, with_tenants (<[k := row]> (tenants s)) s)
  end.

Definition Tenant_save (x : Tenant) : M Tenant := db_write (Tenant_db_save x).

Definition Tenant_db_delete (k : Z) (s : Store) : Result (unit * Store) :=
  Ok (tt, with_tenants (delete k (tenants s)) s).

Definition Tenant_delete (x : Tenant) : M unit :=
  match t_pk x with
  | Some k => db_write (Tenant_db_delete k)
  | None => raise ValueError
  end.

(** *** [class MaintenanceBill] *)

(** The validators of [year]:
    [MinValueValidator(2000, message=...)] and [MinValueValidator(1900)]. *)
Definition year_validators (y : Z) : list string :=
  Field.min_int 2000 "Year must be 2000 or later" y
  ++ Field.min_int 1900 (Field.min_default_msg "1900") y.

Definition Bill_clean_fields (s : Store) (x : MaintenanceBill) : ErrorDict :=
  Field.entry "flat"
    (Field.foreign_key "flat" (b_flat x) (flats s) (fun _ => true))
  ++ Field.entry "month"
    (Field.choice MONTH_CHOICES (b_month x) (Field.max_length 20 (b_month x)))
  ++ Field.entry "year" (year_validators (b_year x))
  ++ Field.entry "amount"
    (Field.decimal (b_amount x)
       (Field.min_dec 1 1 "Bill amount must be at least ₹1" (b_amount x)) 10 2)
  ++ Field.entry "status"
    (Field.choice STATUS_CHOICES (b_status x)
       (Field.max_length 10 (b_status x))).

Definition same_bill_key (x r : MaintenanceBill) : bool :=
  (b_flat r =? b_flat x) && String.eqb (b_month r) (b_month x)
  && (b_year r =? b_year x).

(** [MaintenanceBill.clean]; [self.flat] is the row of the flat and
    [self.flat.owner] the row of its owner. *)
Definition Bill_clean (s : Store) (x : MaintenanceBill)
  : Result (MaintenanceBill * ErrorDict) :=
  (* Validate year is not in future *)
  let current_year := today_year env in
  if negb (b_year x =? 0) && (current_year + 1 <? b_year x)
  then Ok (x, [("year",
                ["Year cannot be more than " +:+ pretty (current_year + 1)])])
  else
    (* Validate flat has owner *)
    match flats s !! b_flat x with
    | None => Raise DoesNotExist
    | Some f =>
        match f_owner f with
        | None =>
            Ok (x, [("flat",
                     ["Cannot create bill for flat without an owner"])])
        | Some o =>
            match users s !! o with
            | None => Raise DoesNotExist
            | Some _ =>
                (* Check duplicate bill for same flat, month, year *)
                if bool_decide (b_pk x = None)
                   && exists_row (same_bill_key x) (bills s)
                then Ok (x, [(NON_FIELD_ERRORS,
                      ["A bill for this flat, month and year already exists"])])
                else Ok (x, [])
            end
        end
    end.

(** [unique_together = ['flat', 'month', 'year']] *)
Definition Bill_validate_unique (s : Store) (x : MaintenanceBill)
           (exclude : list string) : ErrorDict :=
  Field.unique exclude ["flat"; "month"; "year"] NON_FIELD_ERRORS
    (exists_other (b_pk x) (same_bill_key x) (bills s))
    "Maintenance bill with this Flat, Month and Year already exists.".

Definition Bill_full_clean_in (s : Store) (x : MaintenanceBill)
  : Result MaintenanceBill :=
  full_clean_of (Bill_clean_fields s x) (Bill_clean s x)
                (Bill_validate_unique s).

Definition Bill_full_clean (x : MaintenanceBill) : M MaintenanceBill :=
  query (fun s => Bill_full_clean_in s x).

Definition Bill_db_save (x : MaintenanceBill) (s : Store)
  : Result (MaintenanceBill * Store) :=
  let k := match b_pk x with Some k => k | None => next_pk (bills s) end in
  let old := bills s !! k in
  if exists_other (b_pk x) (same_bill_key x) (bills s)
     || negb (fk_ok (b_flat <$> old) (b_flat x) (flats s))
  then Raise IntegrityError
  else
    let row := b_set_pk (Some k) x in
    Ok (row, with_bills (<[k := row]> (bills s)) s).

Definition Bill_save (x : MaintenanceBill) : M MaintenanceBill :=
  db_write (Bill_db_save x).

Definition Bill_db_delete (k : Z) (s : Store) : Result (unit * Store) :=
  Ok (tt, with_bills (delete k (bills s)) s).

Definition Bill_delete (x : MaintenanceBill) : M unit :=
  match b_pk x with
  | Some k => db_write (Bill_db_delete k)
  | None => raise ValueError
  end.

End Models.

(** ** Reading the store *)

(** What every model has: its primary key. *)
Class Model (A : Type) := {
  pk : A -> option Z;
  set_pk : option Z -> A -> A;
  table : Store -> gmap Z A
}.

#[export] Instance User_Model : Model User :=
  {| pk := u_pk; set_pk := u_set_pk; table := users |}.
#[export] Instance Society_Model : Model Society :=
  {| pk := s_pk; set_pk := s_set_pk; table := societies |}.
#[export] Instance Flat_Model : Model Flat :=
  {| pk := f_pk; set_pk := f_set_pk; table := flats |}.
#[export] Instance Tenant_Model : Model Tenant :=
  {| pk := t_pk; set_pk := t_set_pk; table := tenants |}.
#[export] Instance Bill_Model : Model MaintenanceBill :=
  {| pk := b_pk; set_pk := b_set_pk; table := bills |}.

(** The instance built from the row with key [k]. *)
Definition load {A} `{Model A} (s : Store) (k : Z) : option A :=
  set_pk (Some k) <$> table s !! k.

(** [get_object_or_404(Model, pk=k, **cond)] *)
Definition get_object_or_404 {A} `{Model A} (k : Z) (cond : Store -> A -> bool)
  : M A :=
  query (fun s =>
    match load s k with
    | Some r => if cond s r then Ok r else Raise Http404
    | None => Raise Http404
    end).

(** [Model.objects.get(id=k, **cond)] *)
Definition objects_get {A} `{Model A} (k : Z) (cond : Store -> A -> bool)
  : M A :=
  query (fun s =>
    match load s k with
    | Some r => if cond s r then Ok r else Raise DoesNotExist
    | None => Raise DoesNotExist
    end).

(** A related object reached through a foreign key ([tenant.user],
    [bill.flat]). *)
Definition related {A} `{Model A} (k : Z) : M A :=
  objects_get k (fun _ _ => true).

Definition any_row {A} : Store -> A -> bool := fun _ _ => true.

Definition is_owner_role : Store -> User -> bool :=
  fun _ u => String.eqb (u_role u) "OWNER".

(** [owner=request.user] on a flat *)
Definition owned_by (u : User) : Store -> Flat -> bool :=
  fun _ f => bool_decide (f_owner f = u_pk u).

(** [flat__owner=request.user] on a tenant *)
Definition flat_owned_by (u : User) : Store -> Tenant -> bool :=
  fun s t =>
    match flats s !! t_flat t with
    | Some f => bool_decide (f_owner f = u_pk u)
    | None => false
    end.

(** ** [views.py] *)

Definition redirect (name : string) : M Response := ret (RedirectTo name).
Definition render (template : string) : M Response := ret (RenderPage template).

(** [all([...])] over form values *)
Definition all_truthy (l : list string) : bool := forallb Py.truthy l.

(** [int(s)], raising [ValueError] *)
Definition py_int (s : string) : M Z :=
  match Py.int s with Some z => ret z | None => raise ValueError end.

(** A [try] block may leave the function ([Some response]) or fall
    through to what follows it ([None]). *)
Definition or_else (m : M (option Response)) (after : M Response) : M Response :=
  r <- m;; match r with Some resp => ret resp | None => after end.

Definition returning (m : M Response) : M (option Response) :=
  r <- m;; ret (Some r).

(** [s] between double quotes *)
Definition quoted (s : string) : string :=
  String (ascii_of_nat 34) (s +:+ String (ascii_of_nat 34) EmptyString).

Definition validation_notice (errors : ErrorDict) : string :=
  "Validation error: " +:+ Py.join ", " (messages_of errors).

(** *** Decorators *)

(** [admin_required] *)
Definition admin_required (view_func : Request -> M Response)
  : Request -> M Response :=
  fun request =>
    match user request with
    | None => redirect "core:login"
    | Some u =>
        if negb (String.eqb (u_role u) "ADMIN") then
          message ERROR "Access denied. Administrator privileges required.";;;
          redirect "core:index"
        else view_func request
    end.

(** [owner_required] *)
Definition owner_required (view_func : Request -> M Response)
  : Request -> M Response :=
  fun request =>
    match user request with
    | None => redirect "core:login"
    | Some u =>
        if negb (String.eqb (u_role u) "OWNER") then
          message ERROR "Access denied. Owner privileges required.";;;
          redirect "core:index"
        else view_func request
    end.

(** [tenant_required] *)
Definition tenant_required (view_func : Request -> M Response)
  : Request -> M Response :=
  fun request =>
    match user request with
    | None => redirect "core:login"
    | Some u =>
        if negb (String.eqb (u_role u) "TENANT") then
          message ERROR "Access denied. Tenant privileges required.";;;
          redirect "core:index"
        else view_func request
    end.

Section Views.

Context (env : Env).

Definition is_post (request : Request) : bool :=
  String.eqb (method request) "POST".

Definition phone_or_none (phone : string) : option string :=
  if Py.truthy phone then Some phone else None.

(** *** Admin views: owners *)

Definition create_owner_view (request : Request) : M Response :=
  if is_post request then
    let email := Py.strip (post_get request "email") in
    let username := Py.strip (post_get request "username") in
    let first_name := Py.strip (post_get request "first_name") in
    let last_name := Py.strip (post_get request "last_name") in
    let phone := Py.strip (post_get request "phone") in
    let password := Py.strip (post_get request "password") in
    if negb (all_truthy [email; username; first_name; last_name; password]) then
      message ERROR "All fields (Email, Username, Name, Password) are required.";;;
      redirect "core:owner_list"
    else
      or_else
        (try_except
           (u <- atomic
                  (let u := mkUser None username email first_name last_name
                                   (phone_or_none phone) "OWNER" true false
                                   EmptyString None in
                   let u := set_password env password u in
                   u <- User_full_clean env u;;
                   let u := u_set_plain_password (Some password) u in
                   User_save u);;
            message SUCCESS ("Owner account for " +:+ get_full_name u
                             +:+ " created successfully.");;;
            returning (redirect "core:owner_list"))
           (fun e =>
              match e with
              | IntegrityError =>
                  message ERROR "A user with this email or username already exists.";;;
                  ret None
              | ValidationError errors =>
                  message ERROR (validation_notice errors);;; ret None
              | _ =>
                  message ERROR "An unexpected error occurred while creating the owner.";;;
                  ret None
              end))
        (redirect "core:owner_list")
  else redirect "core:owner_list".

Definition update_owner_view (k : Z) (request : Request) : M Response :=
  owner <- get_object_or_404 k is_owner_role;;
  if is_post request then
    let first_name := Py.strip (post_get request "first_name") in
    let last_name := Py.strip (post_get request "last_name") in
    let email := Py.strip (post_get request "email") in
    let phone := Py.strip (post_get request "phone") in
    let username := Py.strip (post_get request "username") in
    let new_password := Py.strip (post_get request "password") in
    if negb (all_truthy [first_name; last_name; email; username]) then
      message ERROR "Name, Email and Username cannot be empty.";;;
      redirect "core:owner_list"
    else
      try_except
        (owner <- atomic
             (let owner := u_set_first_name first_name owner in
              let owner := u_set_last_name last_name owner in
              let owner := u_set_email email owner in
              let owner := u_set_phone (phone_or_none phone) owner in
              let owner := u_set_username username owner in
              let owner := if Py.truthy new_password
                           then set_password env new_password owner
                           else owner in
              owner <- User_full_clean env owner;;
              User_save owner);;
         message SUCCESS ("Owner details for " +:+ get_full_name owner
                          +:+ " updated successfully."))
        (fun e =>
           match e with
           | IntegrityError =>
               message ERROR "The provided email or username is already in use by another account."
           | ValidationError errors => message ERROR (validation_notice errors)
           | _ => message ERROR "An system error occurred while updating the owner."
           end);;;
      redirect "core:owner_list"
  else redirect "core:owner_list".

Definition delete_owner_view (k : Z) (request : Request) : M Response :=
  owner <- get_object_or_404 k is_owner_role;;
  try_except
    (let name := get_full_name owner in
     User_delete owner;;;
     message SUCCESS ("Owner " +:+ name +:+ " has been deleted permanently."))
    (fun e =>
       match e with
       | IntegrityError =>
           message ERROR "Cannot delete this owner because they are assigned to flats or have active records."
       | _ => message ERROR "An unexpected error occurred during deletion."
       end);;;
  redirect "core:owner_list".

Definition toggle_owner_status_view (k : Z) (request : Request) : M Response :=
  owner <- get_object_or_404 k is_owner_role;;
  try_except
    (let owner := u_set_is_active (negb (u_is_active owner)) owner in
     owner <- User_save owner;;
     let status := if u_is_active owner then "activated" else "deactivated" in
     message SUCCESS ("Owner " +:+ get_full_name owner +:+ " has been "
                      +:+ status +:+ "."))
    (fun _ => message ERROR "Failed to change owner status.");;;
  redirect "core:owner_list".

(** *** Admin views: societies *)

Definition create_society_view (request : Request) : M Response :=
  or_else
    (if is_post request then
       let name := Py.strip (post_get request "name") in
       let address := Py.strip (post_get request "address") in
       if negb (Py.truthy name) || negb (Py.truthy address) then
         message ERROR "Society Name and Address are required.";;; ret None
       else
         try_except
           (let society := mkSociety None name address in
            society <- Society_full_clean society;;
            society <- Society_save society;;
            message SUCCESS ("Society " +:+ quoted (s_name society)
                             +:+ " created successfully.");;;
            returning (redirect "core:society_list"))
           (fun e =>
              match e with
              | ValidationError errors =>
                  message ERROR (validation_notice errors);;; ret None
              | _ =>
                  message ERROR "An unexpected error occurred while creating the society.";;;
                  ret None
              end)
     else ret None)
    (render "admin/society_list.html").

Definition update_society_view (k : Z) (request : Request) : M Response :=
  society <- get_object_or_404 k (any_row (A:=Society));;
  (if is_post request then
     let name := Py.strip (post_get request "name") in
     let address := Py.strip (post_get request "address") in
     if negb (Py.truthy name) || negb (Py.truthy address) then
       message ERROR "Society Name and Address are required."
     else
       try_except
         (let society := s_set_name name society in
          let society := s_set_address address society in
          society <- Society_full_clean society;;
          society <- Society_save society;;
          message SUCCESS ("Society " +:+ quoted (s_name society)
                           +:+ " updated successfully."))
         (fun e =>
            match e with
            | ValidationError errors => message ERROR (validation_notice errors)
            | _ => message ERROR "An unexpected error occurred while updating the society."
            end)
   else ret tt);;;
  redirect "core:society_list".

Definition delete_society_view (k : Z) (request : Request) : M Response :=
  society <- get_object_or_404 k (any_row (A:=Society));;
  try_except
    (let name := s_name society in
     Society_delete society;;;
     message SUCCESS ("Society " +:+ quoted name +:+ " deleted successfully."))
    (fun e =>
       match e with
       | IntegrityError =>
           message ERROR ("Cannot delete Society " +:+ quoted (s_name society)
                          +:+ " because it contains flats.")
       | _ => message ERROR "An unexpected error occurred during deletion."
       end);;;
  redirect "core:society_list".

(** *** Admin views: flats *)

Definition create_flat_view (request : Request) : M Response :=
  if is_post request then
    let society_id := post_opt request "society" in
    let flat_number := Py.strip (post_get request "flat_number") in
    let owner_id := post_opt request "owner" in
    match society_id with
    | Some society_id =>
        if negb (Py.truthy society_id) || negb (Py.truthy flat_number) then
          message ERROR "Society and Flat Number are required.";;;
          redirect "core:flat_list"
        else if negb (Py.isdigit society_id) then
          message ERROR "Invalid Society ID.";;;
          redirect "core:flat_list"
        else
          or_else
            (try_except
               (sid <- py_int society_id;;
                society <- objects_get sid (any_row (A:=Society));;
                let make (owner : option User) : M (option Response) :=
                  let flat := mkFlat None sid flat_number
                                     (owner ≫= u_pk) in
                  flat <- Flat_full_clean flat;;
                  flat <- Flat_save flat;;
                  message SUCCESS ("Flat " +:+ f_flat_number flat
                                   +:+ " created successfully in "
                                   +:+ s_name society +:+ ".");;;
                  returning (redirect "core:flat_list") in
                match owner_id with
                | Some owner_id =>
                    if Py.truthy owner_id && Py.truthy (Py.strip owner_id) then
                      if negb (Py.isdigit owner_id) then
                        message ERROR "Invalid Owner ID.";;;
                        returning (redirect "core:flat_list")
                      else
                        found <- try_except
                                   (oid <- py_int owner_id;;
                                    o <- objects_get oid is_owner_role;;
                                    ret (Some o))
                                   (fun e =>
                                      match e with
                                      | DoesNotExist => ret None
                                      | _ => raise e
                                      end);;
                        match found with
                        | Some o => make (Some o)
                        | None =>
                            message ERROR "The selected owner does not exist.";;;
                            returning (redirect "core:flat_list")
                        end
                    else make None
                | None => make None
                end)
               (fun e =>
                  match e with
                  | DoesNotExist =>
                      message ERROR "Invalid Society selected.";;; ret None
                  | IntegrityError =>
                      message ERROR ("Flat " +:+ flat_number
                                     +:+ " already exists in this society.");;;
                      ret None
                  | ValidationError errors =>
                      message ERROR (validation_notice errors);;; ret None
                  | _ =>
                      message ERROR "An unexpected error occurred while creating the flat.";;;
                      returning (redirect "core:flat_list")
                  end))
            (render "admin/flat_list.html")
    | None =>
        message ERROR "Society and Flat Number are required.";;;
        redirect "core:flat_list"
    end
  else render "admin/flat_list.html".

Definition update_flat_view (k : Z) (request : Request) : M Response :=
  flat <- get_object_or_404 k (any_row (A:=Flat));;
  if is_post request then
    let society_id := post_opt request "society" in
    let flat_number := Py.strip (post_get request "flat_number") in
    let owner_id := post_opt request "owner" in
    match society_id with
    | Some society_id =>
        if negb (Py.truthy society_id) || negb (Py.truthy flat_number) then
          message ERROR "Society and Flat Number are required.";;;
          redirect "core:flat_list"
        else if negb (Py.isdigit society_id) then
          message ERROR "Invalid Society ID.";;;
          redirect "core:flat_list"
        else
          or_else
            (try_except
               (sid <- py_int society_id;;
                society <- get_object_or_404 sid (any_row (A:=Society));;
                let flat := f_set_society sid flat in
                let flat := f_set_flat_number flat_number flat in
                let finish (flat : Flat) : M (option Response) :=
                  flat <- Flat_full_clean flat;;
                  flat <- Flat_save flat;;
                  message SUCCESS ("Flat " +:+ f_flat_number flat
                                   +:+ " updated successfully.");;;
                  ret None in
                match owner_id with
                | Some owner_id =>
                    if Py.truthy owner_id && Py.truthy (Py.strip owner_id) then
                      if negb (Py.isdigit owner_id) then
                        message ERROR "Invalid Owner ID.";;;
                        returning (redirect "core:flat_list")
                      else
                        oid <- py_int owner_id;;
                        o <- get_object_or_404 oid is_owner_role;;
                        finish (f_set_owner (u_pk o) flat)
                    else finish (f_set_owner None flat)
                | None => finish (f_set_owner None flat)
                end)
               (fun e =>
                  match e with
                  | IntegrityError =>
                      message ERROR "A flat with this number already exists in the selected society.";;;
                      ret None
                  | ValidationError errors =>
                      message ERROR (validation_notice errors);;; ret None
                  | _ =>
                      message ERROR "An unexpected error occurred while updating the flat.";;;
                      ret None
                  end))
            (redirect "core:flat_list")
    | None =>
        message ERROR "Society and Flat Number are required.";;;
        redirect "core:flat_list"
    end
  else redirect "core:flat_list".

Definition delete_flat_view (k : Z) (request : Request) : M Response :=
  flat <- get_object_or_404 k (any_row (A:=Flat));;
  try_except
    (let number := f_flat_number flat in
     Flat_delete flat;;;
     message SUCCESS ("Flat " +:+ number +:+ " deleted successfully."))
    (fun e =>
       match e with
       | IntegrityError =>
           message ERROR "Cannot delete this flat because it has associated bills or tenants."
       | _ => message ERROR "An unexpected error occurred during deletion."
       end);;;
  redirect "core:flat_list".

(** *** Admin views: bills *)

(** [Decimal(s)], raising [InvalidOperation] *)
Definition py_Decimal (s : string) : M Decimal :=
  match parse_Decimal env s with
  | Some d => ret d
  | None => raise InvalidOperation
  end.

(** The inner [try] of the bill and tenant forms:
    [except (ValueError, InvalidOperation)]. *)
Definition malformed (e : Exc) : bool :=
  match e with ValueError | InvalidOperation => true | _ => false end.

Definition create_bill_view (request : Request) : M Response :=
  if is_post request then
    let flat_id := post_opt request "flat" in
    let month := post_opt request "month" in
    let year := post_opt request "year" in
    let amount := post_opt request "amount" in
    let status := default "UNPAID" (post_opt request "status") in
    match flat_id, month, year, amount with
    | Some flat_id, Some month, Some year, Some amount =>
        if negb (all_truthy [flat_id; month; year; amount]) then
          message ERROR "All fields (Flat, Month, Year, Amount) are required.";;;
          redirect "core:bill_list"
        else if negb (Py.isdigit flat_id) then
          message ERROR "Invalid Flat ID.";;;
          redirect "core:bill_list"
        else
          or_else
            (try_except
               (parsed <- try_except
                            (year_val <- py_int year;;
                             amount_val <- py_Decimal amount;;
                             ret (Some (year_val, amount_val)))
                            (fun e => if malformed e then ret None else raise e);;
                match parsed with
                | None =>
                    message ERROR "Invalid format for Year or Amount.";;;
                    returning (redirect "core:bill_list")
                | Some (year_val, amount_val) =>
                    fid <- py_int flat_id;;
                    flat <- get_object_or_404 fid (any_row (A:=Flat));;
                    let bill := mkBill None fid month year_val amount_val
                                       status in
                    bill <- Bill_full_clean env bill;;
                    bill <- Bill_save bill;;
                    message SUCCESS ("Bill generated for " +:+ f_flat_number flat
                                     +:+ " (" +:+ month +:+ " " +:+ year
                                     +:+ ") successfully.");;;
                    returning (redirect "core:bill_list")
                end)
               (fun e =>
                  match e with
                  | IntegrityError =>
                      message ERROR "A bill for this flat, month, and year already exists.";;;
                      ret None
                  | ValidationError errors =>
                      message ERROR (validation_notice errors);;; ret None
                  | _ =>
                      message ERROR "An unexpected error occurred while generating the bill.";;;
                      ret None
                  end))
            (render "admin/bill_list.html")
    | _, _, _, _ =>
        message ERROR "All fields (Flat, Month, Year, Amount) are required.";;;
        redirect "core:bill_list"
    end
  else render "admin/bill_list.html".

(** ['PAID' if bill.status == 'UNPAID' else 'UNPAID'] *)
Definition toggled_status (status : string) : string :=
  if String.eqb status "UNPAID" then "PAID" else "UNPAID".

Definition toggle_bill_status_view (k : Z) (request : Request) : M Response :=
  bill <- get_object_or_404 k (any_row (A:=MaintenanceBill));;
  try_except
    (let bill := b_set_status (toggled_status (b_status bill)) bill in
     bill <- Bill_save bill;;
     let action := if String.eqb (b_status bill) "PAID"
                   then "marked as PAID" else "marked as UNPAID" in
     flat <- related (A:=Flat) (b_flat bill);;
     message SUCCESS ("Bill for Flat " +:+ f_flat_number flat +:+ " "
                      +:+ action +:+ "."))
    (fun _ => message ERROR "Failed to update bill status.");;;
  redirect "core:bill_list".

Definition update_bill_view (k : Z) (request : Request) : M Response :=
  bill <- get_object_or_404 k (any_row (A:=MaintenanceBill));;
  if is_post request then
    let flat_id := post_opt request "flat" in
    let month := post_opt request "month" in
    let year := post_opt request "year" in
    let amount := post_opt request "amount" in
    let status := post_opt request "status" in
    match flat_id, month, year, amount, status with
    | Some flat_id, Some month, Some year, Some amount, Some status =>
        if negb (all_truthy [flat_id; month; year; amount; status]) then
          message ERROR "All fields are required.";;;
          redirect "core:bill_list"
        else if negb (Py.isdigit flat_id) then
          message ERROR "Invalid Flat ID.";;;
          redirect "core:bill_list"
        else
          or_else
            (try_except
               (parsed <- try_except
                            (year_val <- py_int year;;
                             amount_val <- py_Decimal amount;;
                             ret (Some (year_val, amount_val)))
                            (fun e => if malformed e then ret None else raise e);;
                match parsed with
                | None =>
                    message ERROR "Invalid format for Year or Amount.";;;
                    returning (redirect "core:bill_list")
                | Some (year_val, amount_val) =>
                    fid <- py_int flat_id;;
                    flat <- get_object_or_404 fid (any_row (A:=Flat));;
                    let bill := b_set_flat fid bill in
                    let bill := b_set_month month bill in
                    let bill := b_set_year year_val bill in
                    let bill := b_set_amount amount_val bill in
                    let bill := b_set_status status bill in
                    bill <- Bill_full_clean env bill;;
                    bill <- Bill_save bill;;
                    message SUCCESS "Bill updated successfully.";;;
                    ret None
                end)
               (fun e =>
                  match e with
                  | IntegrityError =>
                      message ERROR "A bill with these details already exists.";;;
                      ret None
                  | ValidationError errors =>
                      message ERROR (validation_notice errors);;; ret None
                  | _ =>
                      message ERROR "An unexpected error occurred while updating the bill.";;;
                      ret None
                  end))
            (redirect "core:bill_list")
    | _, _, _, _, _ =>
        message ERROR "All fields are required.";;;
        redirect "core:bill_list"
    end
  else redirect "core:bill_list".

Definition delete_bill_view (k : Z) (request : Request) : M Response :=
  bill <- get_object_or_404 k (any_row (A:=MaintenanceBill));;
  try_except
    (Bill_delete bill;;;
     message SUCCESS "Bill deleted successfully.")
    (fun _ => message ERROR "An unexpected error occurred while deleting the bill.");;;
  redirect "core:bill_list".

(** *** Owner views *)

(** [request.user] used as a filter value; an anonymous user cannot be
    one. *)
Definition request_user (request : Request) : M User :=
  match user request with
  | Some u => ret u
  | None => raise TypeError
  end.

(** [datetime.strptime(s, '%Y-%m-%d')], raising [ValueError] *)
Definition check_strptime (s : string) : M unit :=
  match Py.strptime_ymd s with
  | Some _ => ret tt
  | None => raise ValueError
  end.

(** The key of a saved instance, as a foreign key needs it. *)
Definition saved_pk (u : User) : M Z :=
  match u_pk u with
  | Some k => ret k
  | None => raise ValueError
  end.

Definition create_tenant_view (request : Request) : M Response :=
  if is_post request then
    let email := Py.strip (post_get request "email") in
    let username := Py.strip (post_get request "username") in
    let first_name := Py.strip (post_get request "first_name") in
    let last_name := Py.strip (post_get request "last_name") in
    let phone := Py.strip (post_get request "phone") in
    let password := Py.strip (post_get request "password") in
    let flat_id := post_opt request "flat" in
    let rent_amount := post_opt request "rent_amount" in
    let start_date := post_opt request "start_date" in
    match flat_id, rent_amount, start_date with
    | Some flat_id, Some rent_amount, Some start_date =>
        if negb (all_truthy [email; username; first_name; last_name; password;
                             flat_id; rent_amount; start_date]) then
          message ERROR "All fields are required.";;;
          redirect "core:tenant_list"
        else if negb (Py.isdigit flat_id) then
          message ERROR "Invalid Flat ID.";;;
          redirect "core:tenant_list"
        else
          or_else
            (try_except
               (parsed <- try_except
                            (rent_val <- py_Decimal rent_amount;;
                             check_strptime start_date;;;
                             ret (Some rent_val))
                            (fun e => if malformed e then ret None else raise e);;
                match parsed with
                | None =>
                    message ERROR "Invalid format for Rent or Date.";;;
                    returning (redirect "core:tenant_list")
                | Some rent_val =>
                    u <- atomic
                      (fid <- py_int flat_id;;
                       me <- request_user request;;
                       flat <- get_object_or_404 fid (owned_by me);;
                       let u := mkUser None username email first_name last_name
                                       (phone_or_none phone) "TENANT" true false
                                       EmptyString None in
                       let u := set_password env password u in
                       u <- User_full_clean env u;;
                       let u := u_set_plain_password (Some password) u in
                       u <- User_save u;;
                       uid <- saved_pk u;;
                       let tenant := mkTenant None uid fid rent_val
                                              (DStr start_date) None true in
                       tenant <- Tenant_full_clean tenant;;
                       Tenant_save tenant;;;
                       ret u);;
                    message SUCCESS ("Tenant " +:+ get_full_name u
                                     +:+ " created successfully.");;;
                    returning (redirect "core:tenant_list")
                end)
               (fun e =>
                  match e with
                  | IntegrityError =>
                      message ERROR "A user with this email or username already exists, or the flat already has an active tenant.";;;
                      ret None
                  | ValidationError errors =>
                      message ERROR (validation_notice errors);;; ret None
                  | DoesNotExist =>
                      message ERROR "Invalid Flat selected.";;; ret None
                  | _ =>
                      message ERROR "An system error occurred while creating the tenant.";;;
                      ret None
                  end))
            (render "owner/tenant_list.html")
    | _, _, _ =>
        message ERROR "All fields are required.";;;
        redirect "core:tenant_list"
    end
  else render "owner/tenant_list.html".

Definition toggle_tenant_status_view (k : Z) (request : Request) : M Response :=
  me <- request_user request;;
  tenant <- get_object_or_404 k (flat_owned_by me);;
  try_except
    (let tenant := t_set_is_active (negb (t_is_active tenant)) tenant in
     tenant <- Tenant_save tenant;;
     let status := if t_is_active tenant then "activated" else "deactivated" in
     u <- related (A:=User) (t_user tenant);;
     message SUCCESS ("Tenant " +:+ get_full_name u +:+ " " +:+ status +:+ "."))
    (fun _ => message ERROR "Failed to update tenant status.");;;
  redirect "core:tenant_list".

Definition update_tenant_view (k : Z) (request : Request) : M Response :=
  me <- request_user request;;
  tenant <- get_object_or_404 k (flat_owned_by me);;
  if is_post request then
    let first_name := Py.strip (post_get request "first_name") in
    let last_name := Py.strip (post_get request "last_name") in
    let email := Py.strip (post_get request "email") in
    let username := Py.strip (post_get request "username") in
    let phone := Py.strip (post_get request "phone") in
    let flat_id := post_opt request "flat" in
    let rent_amount := post_opt request "rent_amount" in
    let start_date := post_opt request "start_date" in
    match flat_id, rent_amount, start_date with
    | Some flat_id, Some rent_amount, Some start_date =>
        if negb (all_truthy [first_name; last_name; email; username;
                             flat_id; rent_amount; start_date]) then
          message ERROR "All fields are required.";;;
          redirect "core:tenant_list"
        else if negb (Py.isdigit flat_id) then
          message ERROR "Invalid Flat ID.";;;
          redirect "core:tenant_list"
        else
          or_else
            (try_except
               (parsed <- try_except
                            (rent_val <- py_Decimal rent_amount;;
                             check_strptime start_date;;;
                             ret (Some rent_val))
                            (fun e => if malformed e then ret None else raise e);;
                match parsed with
                | None =>
                    message ERROR "Invalid format for Rent or Date.";;;
                    returning (redirect "core:tenant_list")
                | Some rent_val =>
                    u <- atomic
                      (u <- related (A:=User) (t_user tenant);;
                       let u := u_set_first_name first_name u in
                       let u := u_set_last_name last_name u in
                       let u := u_set_email email u in
                       let u := u_set_username username u in
                       let u := u_set_phone (phone_or_none phone) u in
                       u <- User_full_clean env u;;
                       u <- User_save u;;
                       fid <- py_int flat_id;;
                       flat <- get_object_or_404 fid (owned_by me);;
                       let tenant := t_set_flat fid tenant in
                       let tenant := t_set_rent_amount rent_val tenant in
                       let tenant := t_set_start_date (DStr start_date) tenant in
                       tenant <- Tenant_full_clean tenant;;
                       Tenant_save tenant;;;
                       ret u);;
                    message SUCCESS ("Tenant " +:+ get_full_name u
                                     +:+ " updated successfully.");;;
                    ret None
                end)
               (fun e =>
                  match e with
                  | IntegrityError =>
                      message ERROR "Email or Username already in use.";;;
                      ret None
                  | ValidationError errors =>
                      message ERROR (validation_notice errors);;; ret None
                  | _ =>
                      message ERROR "An unexpected error occurred while updating the tenant.";;;
                      ret None
                  end))
            (redirect "core:tenant_list")
    | _, _, _ =>
        message ERROR "All fields are required.";;;
        redirect "core:tenant_list"
    end
  else redirect "core:tenant_list".

Definition delete_tenant_view (k : Z) (request : Request) : M Response :=
  (if is_post request then
     me <- request_user request;;
     tenant <- get_object_or_404 k (flat_owned_by me);;
     u <- related (A:=User) (t_user tenant);;
     try_except
       (atomic (Tenant_delete tenant;;; User_delete u);;;
        message SUCCESS "Tenant account deleted successfully.")
       (fun _ => message ERROR "An unexpected error occurred during deletion.")
   else ret tt);;;
  redirect "core:tenant_list".

End Views.

(** *** Pages

    The views that only show a page: the queries that fill the page's
    context are not modelled. [user_login] and [user_logout] work on the
    session, which the framework keeps, and are not modelled either; they
    are not role-gated. *)
Definition admin_dashboard_view (_ : Request) : M Response :=
  render "admin/admin_dashboard.html".
Definition owner_list_view (_ : Request) : M Response :=
  render "admin/owner_list.html".
Definition society_list_view (_ : Request) : M Response :=
  render "admin/society_list.html".
Definition flat_list_view (_ : Request) : M Response :=
  render "admin/flat_list.html".
Definition bill_list_view (_ : Request) : M Response :=
  render "admin/bill_list.html".
Definition owner_dashboard_view (_ : Request) : M Response :=
  render "owner/owner_dashboard.html".
Definition owner_flats_view (_ : Request) : M Response :=
  render "owner/owner_flats.html".
Definition owner_bills_view (_ : Request) : M Response :=
  render "owner/owner_bills.html".
Definition tenant_list_view (_ : Request) : M Response :=
  render "owner/tenant_list.html".
Definition tenant_dashboard_view (_ : Request) : M Response :=
  render "tenant/tenant_dashboard.html".
Definition tenant_flat_view (_ : Request) : M Response :=
  render "tenant/tenant_flat.html".


(** *** The role-gated handlers, as [urls.py] routes to them *)
Inductive Handler :=
| admin_dashboard | owner_list | create_owner
| update_owner (pk : Z) | delete_owner (pk : Z) | toggle_owner_status (pk : Z)
| create_society | update_society (pk : Z) | delete_society (pk : Z)
| society_list
| flat_list | create_flat | update_flat (pk : Z) | delete_flat (pk : Z)
| bill_list | create_bill | toggle_bill_status (pk : Z)
| update_bill (pk : Z) | delete_bill (pk : Z)
| owner_dashboard | owner_flats | owner_bills
| create_tenant | tenant_list | toggle_tenant_status (pk : Z)
| update_tenant (pk : Z) | delete_tenant (pk : Z)
| tenant_dashboard | tenant_flat.

(** The function under the decorator. *)
Definition view (env : Env) (h : Handler) : Request -> M Response :=
  match h with
  | admin_dashboard => admin_dashboard_view
  | owner_list => owner_list_view
  | create_owner => create_owner_view env
  | update_owner k => update_owner_view env k
  | delete_owner k => delete_owner_view k
  | toggle_owner_status k => toggle_owner_status_view k
  | create_society => create_society_view
  | update_society k => update_society_view k
  | delete_society k => delete_society_view k
  | society_list => society_list_view
  | flat_list => flat_list_view
  | create_flat => create_flat_view
  | update_flat k => update_flat_view k
  | delete_flat k => delete_flat_view k
  | bill_list => bill_list_view
  | create_bill => create_bill_view env
  | toggle_bill_status k => toggle_bill_status_view k
  | update_bill k => update_bill_view env k
  | delete_bill k => delete_bill_view k
  | owner_dashboard => owner_dashboard_view
  | owner_flats => owner_flats_view
  | owner_bills => owner_bills_view
  | create_tenant => create_tenant_view env
  | tenant_list => tenant_list_view
  | toggle_tenant_status k => toggle_tenant_status_view k
  | update_tenant k => update_tenant_view env k
  | delete_tenant k => delete_tenant_view k
  | tenant_dashboard => tenant_dashboard_view
  | tenant_flat => tenant_flat_view
  end.

(** The decorator each handler is defined under. *)
Definition decorator (h : Handler)
  : (Request -> M Response) -> Request -> M Response :=
  match h with
  | admin_dashboard | owner_list | create_owner | update_owner _
  | delete_owner _ | toggle_owner_status _ | create_society
  | update_society _ | delete_society _ | society_list | flat_list
  | create_flat | update_flat _ | delete_flat _ | bill_list | create_bill
  | toggle_bill_status _ | update_bill _ | delete_bill _ => admin_required
  | owner_dashboard | owner_flats | owner_bills | create_tenant | tenant_list
  | toggle_tenant_status _ | update_tenant _ | delete_tenant _ => owner_required
  | tenant_dashboard | tenant_flat => tenant_required
  end.

(** The role the decorator asks for. *)
Definition required_role (h : Handler) : string :=
  match h with
  | admin_dashboard | owner_list | create_owner | update_owner _
  | delete_owner _ | toggle_owner_status _ | create_society
  | update_society _ | delete_society _ | society_list | flat_list
  | create_flat | update_flat _ | delete_flat _ | bill_list | create_bill
  | toggle_bill_status _ | update_bill _ | delete_bill _ => "ADMIN"
  | owner_dashboard | owner_flats | owner_bills | create_tenant | tenant_list
  | toggle_tenant_status _ | update_tenant _ | delete_tenant _ => "OWNER"
  | tenant_dashboard | tenant_flat => "TENANT"
  end.

(** The handler as the router calls it. *)
Definition handle (env : Env) (h : Handler) : Request -> M Response :=
  decorator h (view env h).

(** ** A concrete environment and store, for running the handlers *)
Module Example.

(** Unsigned decimal numerals with an optional fraction, which is what the
    forms of the site send; enough of [Decimal(s)] to run examples. *)
Fixpoint frac_digits (s : string) (acc : Z) (places : Z) : option Decimal :=
  match s with
  | EmptyString => Some (DecFin acc (- places))
  | String c r =>
      if Py.is_digit c
      then frac_digits r (10 * acc + Py.digit_val c) (places + 1)
      else None
  end.

Fixpoint whole_digits (s : string) (acc : Z) (seen : bool) : option Decimal :=
  match s with
  | EmptyString => if seen then Some (DecFin acc 0) else None
  | String c r =>
      if Py.is_digit c then whole_digits r (10 * acc + Py.digit_val c) true
      else if Ascii.eqb c "." && seen then
        match r with
        | EmptyString => Some (DecFin acc 0)
        | _ => frac_digits r acc 0
        end
      else None
  end.

Definition contains_at (s : string) : bool :=
  negb (Py.all_chars (fun c => negb (Ascii.eqb c "@")) s).

Definition env : Env :=
  {| today_year := 2026;
     username_validator := fun s => Py.all_chars (fun c => negb (Py.is_space c)) s;
     email_validator := contains_at;
     normalize_email := fun s => s;
     make_password := fun raw => "pbkdf2$" +:+ raw;
     parse_Decimal := fun s => whole_digits (Py.strip s) 0 false |}.

Definition admin : User :=
  mkUser (Some 1) "root" "root@example.com" "Ad" "Min" None "ADMIN" true true
         "pbkdf2$x" None.
Definition owner : User :=
  mkUser (Some 2) "olga" "olga@example.com" "Olga" "Owner" None "OWNER" true
         false "pbkdf2$y" None.
Definition tenant_user : User :=
  mkUser (Some 3) "tom" "tom@example.com" "Tom" "Tenant" None "TENANT" true
         false "pbkdf2$z" None.

Definition society1 : Society :=
  mkSociety (Some 1) "Green Park" "12 Long Road, Pune".
(** flat 1 is owned by [owner]; flat 2 has no owner. *)
Definition flat1 : Flat := mkFlat (Some 1) 1 "A-101" (Some 2).
Definition flat2 : Flat := mkFlat (Some 2) 1 "A-102" None.
Definition tenant1 : Tenant :=
  mkTenant (Some 1) 3 1 (DecFin 1200000 (-2)) (DDate (Py.Date 2024 4 1)) None
           true.
Definition bill1 : MaintenanceBill :=
  mkBill (Some 1) 1 "JANUARY" 2025 (DecFin 150000 (-2)) "UNPAID".

Definition store0 : Store :=
  mkStore (list_to_map [(1, admin); (2, owner); (3, tenant_user)])
          (list_to_map [(1, society1)])
          (list_to_map [(1, flat1); (2, flat2)])
          (list_to_map [(1, tenant1)])
          (list_to_map [(1, bill1)]).

Definition world0 : World := mkWorld store0 [] [] [].

Definition post (u : User) (fields : list (string * string)) : Request :=
  mkRequest "POST" (list_to_map fields) ∅ (Some u).

End Example.

(** * The vocabulary of the properties

    What the statements below speak of: the outcome of a run, the
    invariants of the store, the stores the site can reach, and the
    requests the examples run. *)

(** The world with one more notice, with one more mail. *)
Definition add_notice (n : Notice) (w : World) : World :=
  mkWorld (store w) (notices w ++ [n]) (outbox w) (faults w).

Definition add_mail (m : Mail) (w : World) : World :=
  mkWorld (store w) (notices w) (outbox w ++ [m]) (faults w).

(** [wp m Q w]: running [m] in the world [w] ends in a result and a world
    that satisfy [Q]. *)
Definition wp {A} (m : M A) (Q : Result A -> World -> Prop) (w : World) : Prop :=
  Q (fst (m w)) (snd (m w)).

(** The notice of a refused request, by the role the handler asks for. *)
Definition access_denied (role : string) : string :=
  "Access denied. "
  +:+ (if String.eqb role "ADMIN" then "Administrator"
       else if String.eqb role "OWNER" then "Owner" else "Tenant")
  +:+ " privileges required.".

(** The fields a [ValidationError] speaks of. *)
Definition error_keys (d : ErrorDict) : list string := List.map fst d.

(** The years a bill may have. *)
Definition year_in_range (env : Env) (y : Z) : Prop :=
  2000 <= y <= today_year env + 1.

(** What a request adds to the notices when it fails or does nothing:
    nothing, or one error notice. *)
Definition no_success (w w' : World) : Prop :=
  notices w' = notices w
  \/ exists text, notices w' = notices w ++ [mkNotice ERROR text].

(** What a request adds to the notices when it succeeds. *)
Definition one_success (w w' : World) : Prop :=
  exists text, notices w' = notices w ++ [mkNotice SUCCESS text].

(** No two tenant rows have the same user ([Tenant.user] is a
    [OneToOneField]). *)
Definition tenant_user_unique (s : Store) : Prop :=
  forall i j t1 t2,
    tenants s !! i = Some t1 -> tenants s !! j = Some t2 ->
    t_user t1 = t_user t2 -> i = j.

(** The user of every tenant row is a row of the store. *)
Definition tenant_users_exist (s : Store) : Prop :=
  forall i t, tenants s !! i = Some t -> is_Some (users s !! t_user t).

(** No two bills have the same flat, month and year
    ([unique_together]). *)
Definition bill_key_unique (s : Store) : Prop :=
  forall i j b1 b2,
    bills s !! i = Some b1 -> bills s !! j = Some b2 ->
    same_bill_key b1 b2 = true -> i = j.

(** The part of the schema the properties below rest on. *)
Definition consistent (s : Store) : Prop :=
  tenant_user_unique s /\ tenant_users_exist s /\ bill_key_unique s.

(** [admin.py]: the actions [mark_paid] and [mark_unpaid] of
    [MaintenanceBillAdmin], [queryset.update(status=...)] on the selected
    bills. *)
Definition mark_bills (status : string) (selected : Z -> bool) (s : Store)
  : Store :=
  with_bills (map_imap (fun k b => Some (if selected k
                                         then b_set_status status b else b))
                       (bills s)) s.

(** [admin.py] registers the five models with Django's admin site; what
    the site writes, it writes through the same model methods, one row at
    a time, under the same schema. *)
Inductive admin_site_write (s s' : Store) : Prop :=
| admin_save_user u r : User_db_save u s = Ok (r, s') -> admin_site_write s s'
| admin_delete_user k r : User_db_delete k s = Ok (r, s') -> admin_site_write s s'
| admin_save_society x r :
    Society_db_save x s = Ok (r, s') -> admin_site_write s s'
| admin_delete_society k r :
    Society_db_delete k s = Ok (r, s') -> admin_site_write s s'
| admin_save_flat x r : Flat_db_save x s = Ok (r, s') -> admin_site_write s s'
| admin_delete_flat k r : Flat_db_delete k s = Ok (r, s') -> admin_site_write s s'
| admin_save_tenant x r : Tenant_db_save x s = Ok (r, s') -> admin_site_write s s'
| admin_delete_tenant k r :
    Tenant_db_delete k s = Ok (r, s') -> admin_site_write s s'
| admin_save_bill x r : Bill_db_save x s = Ok (r, s') -> admin_site_write s s'
| admin_delete_bill k r : Bill_db_delete k s = Ok (r, s') -> admin_site_write s s'
| admin_mark_bills status selected :
    s' = mark_bills status selected s -> admin_site_write s s'.

(** The stores the site can be in: the empty store, every store a handler
    of [views.py] leaves behind when it is called on a reachable store,
    with any request, any clock and any schedule of refusals, and every
    store the admin site writes from a reachable one. *)
Inductive reachable : Store -> Prop :=
| reach_empty : reachable empty_store
| reach_handle (env : Env) (h : Handler) (request : Request) (w : World) :
    reachable (store w) ->
    reachable (store (snd (handle env h request w)))
| reach_admin_site (s s' : Store) :
    reachable s -> admin_site_write s s' -> reachable s'.

(** Is tenant [k] a tenant of a flat of the owner who asks? *)
Definition tenant_found (request : Request) (s : Store) (k : Z) : bool :=
  match user request, tenants s !! k with
  | Some u, Some t => flat_owned_by u s t
  | _, _ => false
  end.

(** Does the handler's leading [get_object_or_404] find its object? *)
Definition found (h : Handler) (request : Request) (s : Store) : bool :=
  match h with
  | update_owner k | delete_owner k | toggle_owner_status k =>
      match users s !! k with
      | Some u => String.eqb (u_role u) "OWNER"
      | None => false
      end
  | update_society k | delete_society k =>
      bool_decide (is_Some (societies s !! k))
  | update_flat k | delete_flat k => bool_decide (is_Some (flats s !! k))
  | toggle_bill_status k | update_bill k | delete_bill k =>
      bool_decide (is_Some (bills s !! k))
  | toggle_tenant_status k | update_tenant k => tenant_found request s k
  | delete_tenant k => negb (is_post request) || tenant_found request s k
  | _ => true
  end.

(** Does the request make the handler act (and so report)? The form
    handlers act on a POST; the toggles and most deletions on any
    method; the pages never. *)
Definition submits (h : Handler) (request : Request) : bool :=
  match h with
  | create_owner | update_owner _ | create_society | update_society _
  | create_flat | update_flat _ | create_bill | update_bill _
  | create_tenant | update_tenant _ | delete_tenant _ => is_post request
  | delete_owner _ | toggle_owner_status _ | delete_society _ | delete_flat _
  | toggle_bill_status _ | delete_bill _ | toggle_tenant_status _ => true
  | _ => false
  end.

(** The handlers that may answer with a page instead of a redirect: the
    pages, and the four creation forms. *)
Definition may_render (h : Handler) : bool :=
  match h with
  | update_owner _ | delete_owner _ | toggle_owner_status _ | create_owner
  | update_society _ | delete_society _ | update_flat _ | delete_flat _
  | toggle_bill_status _ | update_bill _ | delete_bill _
  | toggle_tenant_status _ | update_tenant _ | delete_tenant _ => false
  | _ => true
  end.

Definition is_redirect (resp : Response) : Prop :=
  match resp with RedirectTo _ => True | RenderPage _ => False end.

(** How a handler answers an authorized request: with [Http404] and
    nothing else when its leading lookup misses; otherwise with a
    response (a redirect, unless the handler may render), and with
    exactly one notice when the request makes it act. *)
Definition answered (h : Handler) (request : Request) (w : World)
           (r : Result Response) (w' : World) : Prop :=
  if found h request (store w) then
    exists resp, r = Ok resp
      /\ (may_render h = false -> is_redirect resp)
      /\ (if submits h request
          then exists n, notices w' = notices w ++ [n]
          else notices w' = notices w)
  else r = Raise Http404 /\ w' = w.

(** What a found request is answered with. *)
Definition answer (h : Handler) (request : Request) (w : World)
           (r : Result Response) (w' : World) : Prop :=
  exists resp, r = Ok resp
    /\ (may_render h = false -> is_redirect resp)
    /\ (if submits h request
        then exists n, notices w' = notices w ++ [n]
        else notices w' = notices w).

(** The requests and runs of the examples. *)
Module Cases.
Import Example.

Definition delete_society_1 :=
  handle env (delete_society 1) (post admin []) world0.

Definition delete_flat_1 :=
  handle env (delete_flat 1) (post admin []) world0.

Definition update_missing_owner :=
  handle env (update_owner 99) (post admin []) world0.

Definition create_short_society :=
  handle env create_society (post admin [("name", "ab"); ("address", "x")])
         world0.

(** A superuser saved with the role TENANT. *)
Definition root_as_tenant : User :=
  mkUser None "root2" "root2@example.com" "Ro" "Ot" None "TENANT" true true
         "pbkdf2$x" None.

Definition toggle_bill_1 : Request := post admin [].

Definition bill_3000 : Request :=
  post admin [("flat", "1"); ("month", "MARCH"); ("year", "3000");
              ("amount", "100.50")].

Definition bill_for_flat2 : Request :=
  post admin [("flat", "2"); ("month", "MARCH"); ("year", "2026");
              ("amount", "100.50")].

Definition tenant_1999 : Request :=
  post owner [("email", "New@Example.com"); ("username", "newt");
              ("first_name", "New"); ("last_name", "Tenant");
              ("password", "pw"); ("flat", "1"); ("rent_amount", "900");
              ("start_date", "1999-01-01")].

(** From the empty store: an owner, a society, a flat of that owner, and a
    tenant in the flat. *)
Definition w1 : World :=
  snd (handle env create_owner
         (post admin [("email", "olga@example.com"); ("username", "olga");
                      ("first_name", "Olga"); ("last_name", "Owner");
                      ("password", "pw")])
         (mkWorld empty_store [] [] [])).
Definition w2 : World :=
  snd (handle env create_society
         (post admin [("name", "Green Park");
                      ("address", "12 Long Road, Pune")]) w1).
Definition w3 : World :=
  snd (handle env create_flat
         (post admin [("society", "1"); ("flat_number", "a-101");
                      ("owner", "1")]) w2).
Definition olga : User :=
  mkUser (Some 1) "olga" "olga@example.com" "Olga" "Owner" None "OWNER" true
         false "pbkdf2$pw" None.
Definition w4 : World :=
  snd (handle env create_tenant
         (post olga [("email", "tom@example.com"); ("username", "tom");
                     ("first_name", "Tom"); ("last_name", "Tenant");
                     ("password", "pw"); ("flat", "1");
                     ("rent_amount", "900"); ("start_date", "2024-04-01")])
         w3).

Definition update_owner_2 : Request :=
  post admin [("first_name", "Olga"); ("last_name", "Owner");
              ("email", "olga@example.com"); ("username", "root")].

End Cases.

(** * The rest of the schema, [urls.py], the tenant pages and [admin.py] *)

(** ** What the schema promises about references and keys

    The foreign keys of [models.py] point at rows of the store, and the
    unique columns and [unique_together] sets have no duplicates. *)
Definition flat_societies_exist (s : Store) : Prop :=
  forall i f, flats s !! i = Some f -> is_Some (societies s !! f_society f).

Definition flat_owners_exist (s : Store) : Prop :=
  forall i f o, flats s !! i = Some f -> f_owner f = Some o ->
    is_Some (users s !! o).

Definition tenant_flats_exist (s : Store) : Prop :=
  forall i t, tenants s !! i = Some t -> is_Some (flats s !! t_flat t).

Definition bill_flats_exist (s : Store) : Prop :=
  forall i b, bills s !! i = Some b -> is_Some (flats s !! b_flat b).

(** [username] (of [AbstractUser]) and [email] are unique. *)
Definition user_names_unique (s : Store) : Prop :=
  forall i j u1 u2, users s !! i = Some u1 -> users s !! j = Some u2 ->
    u_username u1 = u_username u2 \/ u_email u1 = u_email u2 -> i = j.

(** [unique_together = ['society', 'flat_number']] *)
Definition flat_key_unique (s : Store) : Prop :=
  forall i j f1 f2, flats s !! i = Some f1 -> flats s !! j = Some f2 ->
    f_society f1 = f_society f2 -> f_flat_number f1 = f_flat_number f2 ->
    i = j.

Definition schema_holds (s : Store) : Prop :=
  consistent s /\ flat_societies_exist s /\ flat_owners_exist s
  /\ tenant_flats_exist s /\ bill_flats_exist s
  /\ user_names_unique s /\ flat_key_unique s.

(** ** [urls.py]

    A route is its literal parts and its converters, in order:
    ['admin/owner/<int:pk>/update/'] is
    [[Lit "admin/owner/"; IntConverter "pk"; Lit "/update/"]]. *)
Inductive Segment :=
| Lit (text : string)
| IntConverter (name : string).

(** What a route leads to: one of the three public views, a role-gated
    view without argument, or a role-gated view of a [pk]. *)
Inductive View :=
| views_index
| views_user_login
| views_user_logout
| gated (h : Handler)
| gated_pk (h : Z -> Handler).

Record UrlPattern := path {
  p_route : list Segment;
  p_view : View;
  p_name : string
}.

Definition app_name : string := "core".

Definition urlpatterns : list UrlPattern :=
  [ (* Public *)
    path [] views_index "index";
    path [Lit "login/"] views_user_login "login";
    path [Lit "logout/"] views_user_logout "logout";
    (* Admin URLs *)
    path [Lit "admin-dashboard/"] (gated admin_dashboard) "admin_dashboard";
    path [Lit "admin/create-owner/"] (gated create_owner) "create_owner";
    path [Lit "admin/owner/"; IntConverter "pk"; Lit "/update/"]
         (gated_pk update_owner) "update_owner";
    path [Lit "admin/owner/"; IntConverter "pk"; Lit "/delete/"]
         (gated_pk delete_owner) "delete_owner";
    path [Lit "admin/owners/"] (gated owner_list) "owner_list";
    path [Lit "admin/owner/"; IntConverter "pk"; Lit "/toggle-status/"]
         (gated_pk toggle_owner_status) "toggle_owner_status";
    path [Lit "admin/create-society/"] (gated create_society) "create_society";
    path [Lit "admin/society/"; IntConverter "pk"; Lit "/update/"]
         (gated_pk update_society) "update_society";
    path [Lit "admin/society/"; IntConverter "pk"; Lit "/delete/"]
         (gated_pk delete_society) "delete_society";
    path [Lit "admin/societies/"] (gated society_list) "society_list";
    path [Lit "admin/create-flat/"] (gated create_flat) "create_flat";
    path [Lit "admin/flat/"; IntConverter "pk"; Lit "/update/"]
         (gated_pk update_flat) "update_flat";
    path [Lit "admin/flat/"; IntConverter "pk"; Lit "/delete/"]
         (gated_pk delete_flat) "delete_flat";
    path [Lit "admin/flats/"] (gated flat_list) "flat_list";
    path [Lit "admin/create-bill/"] (gated create_bill) "create_bill";
    path [Lit "admin/bill/"; IntConverter "pk"; Lit "/update/"]
         (gated_pk update_bill) "update_bill";
    path [Lit "admin/bill/"; IntConverter "pk"; Lit "/delete/"]
         (gated_pk delete_bill) "delete_bill";
    path [Lit "admin/bills/"] (gated bill_list) "bill_list";
    path [Lit "admin/bill/"; IntConverter "pk"; Lit "/toggle-status/"]
         (gated_pk toggle_bill_status) "toggle_bill_status";
    (* Owner URLs *)
    path [Lit "owner-dashboard/"] (gated owner_dashboard) "owner_dashboard";
    path [Lit "owner/flats/"] (gated owner_flats) "owner_flats";
    path [Lit "owner/bills/"] (gated owner_bills) "owner_bills";
    path [Lit "owner/create-tenant/"] (gated create_tenant) "create_tenant";
    path [Lit "owner/tenants/"] (gated tenant_list) "tenant_list";
    path [Lit "owner/tenant/"; IntConverter "pk"; Lit "/toggle-status/"]
         (gated_pk toggle_tenant_status) "toggle_tenant_status";
    path [Lit "owner/tenant/"; IntConverter "pk"; Lit "/update/"]
         (gated_pk update_tenant) "update_tenant";
    path [Lit "owner/tenant/"; IntConverter "pk"; Lit "/delete/"]
         (gated_pk delete_tenant) "delete_tenant";
    (* Tenant URLs *)
    path [Lit "tenant-dashboard/"] (gated tenant_dashboard) "tenant_dashboard";
    path [Lit "tenant/flat/"] (gated tenant_flat) "tenant_flat" ].

(** [s] without the prefix [p], when it starts with [p]. *)
Fixpoint strip_prefix (p s : string) : option string :=
  match p, s with
  | EmptyString, _ => Some s
  | String a p', String b s' =>
      if Ascii.eqb a b then strip_prefix p' s' else None
  | String _ _, EmptyString => None
  end.

(** The digits a string starts with ([[0-9]+], as many as there are), and
    what follows them. *)
Fixpoint span_digits (s : string) : string * string :=
  match s with
  | String c r =>
      if Py.is_digit c
      then (String c (fst (span_digits r)), snd (span_digits r))
      else (EmptyString, s)
  | EmptyString => (EmptyString, EmptyString)
  end.

(** The match of a path against a route, to its end: the values of the
    converters, in order. The [int] converter takes [[0-9]+] and hands
    over [int(value)]; every literal that follows a converter in
    [urlpatterns] starts with a slash, so the converter takes all the
    digits there are. A numeral [int] refuses ([ValueError] in
    [to_python]) makes the route not match. *)
Fixpoint match_route (segments : list Segment) (p : string)
  : option (list Z) :=
  match segments with
  | [] => if Py.truthy p then None else Some []
  | Lit text :: rest =>
      match strip_prefix text p with
      | Some p' => match_route rest p'
      | None => None
      end
  | IntConverter _ :: rest =>
      let value := fst (span_digits p) in
      if Py.truthy value then
        match Py.int value, match_route rest (snd (span_digits p)) with
        | Some k, Some args => Some (k :: args)
        | _, _ => None
        end
      else None
  end.

(** The resolver: the first pattern that matches, with the arguments it
    took from the path. The path is what is left of the request's path
    once the project's URLconf has taken its prefix. *)
Fixpoint resolve_in (patterns : list UrlPattern) (p : string)
  : option (UrlPattern * list Z) :=
  match patterns with
  | [] => None
  | pat :: rest =>
      match match_route (p_route pat) p with
      | Some args => Some (pat, args)
      | None => resolve_in rest p
      end
  end.

Definition resolve (p : string) : option (UrlPattern * list Z) :=
  resolve_in urlpatterns p.

(** The path a route gives for its arguments; a negative number does not
    match [[0-9]+] and gives none. ([str] of a number of more than
    [Py.max_str_digits] digits raises; the keys of a store are far
    below, and the properties of the routes speak of keys below
    [2 ^ 63].) *)
Fixpoint fill (segments : list Segment) (args : list Z) : option string :=
  match segments, args with
  | [], [] => Some EmptyString
  | Lit text :: rest, _ => String.append text <$> fill rest args
  | IntConverter _ :: rest, k :: args' =>
      if k <? 0 then None else String.append (pretty k) <$> fill rest args'
  | _, _ => None
  end.

Fixpoint reverse_in (patterns : list UrlPattern) (n : string) (args : list Z)
  : option string :=
  match patterns with
  | [] => None
  | pat :: rest =>
      if String.eqb (p_name pat) n then
        match fill (p_route pat) args with
        | Some p => Some p
        | None => reverse_in rest n args
        end
      else reverse_in rest n args
  end.

(** [reverse('core:<name>', args=...)], which [redirect] calls; [None]
    stands for [NoReverseMatch]. *)
Definition reverse (viewname : string) (args : list Z) : option string :=
  match strip_prefix (app_name +:+ ":") viewname with
  | Some n => reverse_in urlpatterns n args
  | None => None
  end.


(** ** The pages of a tenant *)

(** [Tenant.objects.get(user=u)] *)
Definition tenant_of_user (u : User) : M Tenant :=
  query (fun s =>
    match map_to_list
            (filter (fun kv => Some (t_user (snd kv)) = u_pk u) (tenants s))
    with
    | [] => Raise DoesNotExist
    | [(k, t)] => Ok (t_set_pk (Some k) t)
    | _ => Raise (OtherError "MultipleObjectsReturned")
    end).

(** The [try] of the two tenant pages names [Tenant.DoesNotExist], which
    only the lookup of the tenant raises; a missing flat or society is
    another exception and goes through. *)
Definition tenant_or_none (request : Request) : M (option Tenant) :=
  me <- request_user request;;
  try_except (t <- tenant_of_user me;; ret (Some t))
             (fun e => match e with
                       | DoesNotExist => ret None
                       | _ => raise e
                       end).

(** The context of [tenant_dashboard]: [None] is [{'tenant': None}]. *)
Definition tenant_dashboard_context (request : Request)
  : M (option (Tenant * Flat * Society)) :=
  found <- tenant_or_none request;;
  match found with
  | None => ret None
  | Some tenant =>
      flat <- related (A:=Flat) (t_flat tenant);;
      society <- related (A:=Society) (f_society flat);;
      ret (Some (tenant, flat, society))
  end.

(** The context of [tenant_flat]; the owner of the flat may be [None]. *)
Definition tenant_flat_context (request : Request)
  : M (option (Tenant * Flat * Society * option User)) :=
  found <- tenant_or_none request;;
  match found with
  | None => ret None
  | Some tenant =>
      flat <- related (A:=Flat) (t_flat tenant);;
      society <- related (A:=Society) (f_society flat);;
      match f_owner flat with
      | None => ret (Some (tenant, flat, society, None))
      | Some o =>
          owner <- related (A:=User) o;;
          ret (Some (tenant, flat, society, Some owner))
      end
  end.

(** ** [admin.py] *)

(** [UserAdmin.get_name] *)
Definition get_name (obj : User) : string :=
  if Py.truthy (get_full_name obj) then get_full_name obj else "-".

(** [SocietyAdmin.get_address] *)
Definition get_address (obj : Society) : string :=
  if 60 <? Py.len (s_address obj)
  then String.substring 0 60 (s_address obj) +:+ "..."
  else s_address obj.

(** [TenantAdmin.get_tenant_name] *)
Definition get_tenant_name (obj : Tenant) : M string :=
  u <- related (A:=User) (t_user obj);;
  ret (if Py.truthy (get_full_name u) then get_full_name u else u_email u).

(** [MaintenanceBillAdmin.get_owner] *)
Definition bill_get_owner (obj : MaintenanceBill) : M string :=
  flat <- related (A:=Flat) (b_flat obj);;
  match f_owner flat with
  | Some o =>
      owner <- related (A:=User) o;;
      ret (if Py.truthy (get_full_name owner)
           then get_full_name owner else u_email owner)
  | None => ret "-"
  end.

(** [queryset.update(status=...)] on the selected bills: the number of
    rows of the queryset. *)
Definition update_status (status : string) (selected : Z -> bool) : M Z :=
  db_write (fun s =>
    Ok (Z.of_nat (size (filter (fun kv => selected (fst kv) = true) (bills s))),
        mark_bills status selected s)).

(** [MaintenanceBillAdmin.mark_paid] and [mark_unpaid] *)
Definition mark_paid (selected : Z -> bool) : M unit :=
  count <- update_status "PAID" selected;;
  message SUCCESS (pretty count +:+ " bill(s) marked as paid").

Definition mark_unpaid (selected : Z -> bool) : M unit :=
  count <- update_status "UNPAID" selected;;
  message WARNING (pretty count +:+ " bill(s) marked as unpaid").

(** ** Mail *)

(** The handlers that create an account. *)
Definition creates_account (h : Handler) : bool :=
  match h with
  | create_owner | create_tenant => true
  | _ => false
  end.

(** The address of the account a creation form asks for, as
    [User.clean] leaves it. *)
Definition form_email (env : Env) (request : Request) : string :=
  let email := normalize_email env (Py.strip (post_get request "email")) in
  if Py.truthy email then Py.strip (Py.lower email) else email.

(** What a request may add to the outbox: nothing when the handler
    creates no account; at most one mail, to the address of the form. *)
Definition mailed (env : Env) (h : Handler) (request : Request) (w w' : World)
  : Prop :=
  (creates_account h = false -> outbox w' = outbox w)
  /\ (outbox w' = outbox w
      \/ exists m, outbox w' = outbox w ++ [m]
                   /\ m_to m = form_email env request).

(** The user [create_tenant] builds from its form. *)
Definition tenant_account (env : Env) (request : Request) : User :=
  set_password env (Py.strip (post_get request "password"))
    (mkUser None (Py.strip (post_get request "username"))
            (Py.strip (post_get request "email"))
            (Py.strip (post_get request "first_name"))
            (Py.strip (post_get request "last_name"))
            (phone_or_none (Py.strip (post_get request "phone")))
            "TENANT" true false EmptyString None).

(** What a request of the owner [u] leaves alone: societies and bills,
    and every tenant row of a flat that is not [u]'s, with its user. *)
Definition isolated (u : User) (w w' : World) : Prop :=
  societies (store w') = societies (store w)
  /\ bills (store w') = bills (store w)
  /\ forall i t, tenants (store w) !! i = Some t ->
       flat_owned_by u (store w) t = false ->
       tenants (store w') !! i = Some t
       /\ users (store w') !! t_user t = users (store w) !! t_user t.


(** More requests and rows for the examples. *)
Module Visits.
Import Example Cases.

Definition get (u : User) : Request := mkRequest "GET" ∅ ∅ (Some u).

(** A new flat of society 1 for the owner, its number in lower case. *)
Definition flat_b7 : Flat := mkFlat None 1 "b-7" (Some 2).

(** A new owner, the address in mixed case. *)
Definition nina : User :=
  mkUser None "nina" "Nina@Example.com" "Nina" "New" None "OWNER" true false
         "pbkdf2$n" None.

(** The tenant of the store, with a later start date from a form. *)
Definition tenant1_moved : Tenant :=
  mkTenant (Some 1) 3 1 (DecFin 1200000 (-2)) (DStr "2024-05-01") None true.

Definition bill_march : MaintenanceBill :=
  mkBill None 1 "MARCH" 2026 (DecFin 10050 (-2)) "UNPAID".

Definition society_form : Request :=
  post admin [("name", "Blue Hills"); ("address", "7 Short Lane, Pune")].

(** The tenant the runs of [Cases] end with. *)
Definition tom : User :=
  mkUser (Some 2) "tom" "tom@example.com" "Tom" "Tenant" None "TENANT" true
         false "pbkdf2$pw" None.

Definition update_owner_route : UrlPattern :=
  path [Lit "admin/owner/"; IntConverter "pk"; Lit "/update/"]
       (gated_pk update_owner) "update_owner".

Definition first_bill (k : Z) : bool := k =? 1.

(** Blanks beyond the ASCII blank: the unit separator, the next line
    and the no-break space. *)
Definition US : string := String (ascii_of_nat 31) EmptyString.
Definition NEL : string := String (ascii_of_nat 133) EmptyString.
Definition NBSP : string := String (ascii_of_nat 160) EmptyString.

Definition bill_padded_year : Request :=
  post admin [("flat", "2"); ("month", "MARCH"); ("year", US +:+ "2026");
              ("amount", "100.50")].

Definition tenant_blank_name : Request :=
  post owner [("email", "New@Example.com"); ("username", "newt");
              ("first_name", NEL); ("last_name", "Tenant");
              ("password", "pw"); ("flat", "1"); ("rent_amount", "900");
              ("start_date", "1999-01-01")].

Definition owner_padded_email : Request :=
  post admin [("email", "Nel@Example.com" +:+ NEL); ("username", "nel");
              ("first_name", "Nel"); ("last_name", "Owner");
              ("password", "pw")].

End Visits.

(** * Properties *)

(** ** The store's queries *)

Lemma exists_other_false {A} (k : option Z) (p : A -> bool) (m : gmap Z A) :
  exists_other k p m = false <->
  forall i r, m !! i = Some r -> p r = true -> k = Some i.
Proof.
  unfold exists_other. split.
  - intros H i r Hi Hp.
    destruct (decide (k = Some i)) as [|Hne]; [done|].
    assert (existsb (fun kv : Z * A =>
              p kv.2 && negb (bool_decide (k = Some kv.1)))
              (map_to_list m) = true) as Hex; [|congruence].
    apply existsb_exists. exists (i, r). split.
    + apply list_elem_of_In, elem_of_map_to_list. exact Hi.
    + simpl. rewrite Hp. rewrite bool_decide_eq_false_2; done.
  - intros H. apply not_true_is_false. intros Hex.
    apply existsb_exists in Hex as [[i r] [Hin Hp]].
    apply list_elem_of_In, elem_of_map_to_list in Hin. simpl in Hp.
    apply andb_true_iff in Hp as [Hp Hk].
    specialize (H i r Hin Hp). subst k.
    rewrite bool_decide_eq_true_2 in Hk; done.
Qed.

Lemma exists_row_false {A} (p : A -> bool) (m : gmap Z A) :
  exists_row p m = false <-> forall i r, m !! i = Some r -> p r = false.
Proof.
  unfold exists_row. split.
  - intros H i r Hi. apply not_true_is_false. intros Hp.
    assert (existsb (fun kv : Z * A => p kv.2) (map_to_list m) = true) as Hex;
      [|congruence].
    apply existsb_exists. exists (i, r). split; [|done].
    apply list_elem_of_In, elem_of_map_to_list. exact Hi.
  - intros H. apply not_true_is_false. intros Hex.
    apply existsb_exists in Hex as [[i r] [Hin Hp]].
    apply list_elem_of_In, elem_of_map_to_list in Hin. simpl in Hp.
    rewrite (H i r Hin) in Hp. done.
Qed.

Lemma next_pk_above {A} (m : gmap Z A) i r :
  m !! i = Some r -> i < next_pk m.
Proof.
  intros Hi. unfold next_pk.
  assert (i ∈ (fst <$> map_to_list m)) as Hin.
  { apply list_elem_of_fmap. exists (i, r). split; [done|].
    by apply elem_of_map_to_list. }
  revert Hin. generalize (fst <$> map_to_list m). intros l.
  induction l as [|x l IH]; intros Hin.
  - by apply elem_of_nil in Hin.
  - apply elem_of_cons in Hin as [->|Hin]; simpl.
    + lia.
    + specialize (IH Hin). lia.
Qed.

Lemma next_pk_fresh {A} (m : gmap Z A) : m !! next_pk m = None.
Proof.
  destruct (m !! next_pk m) as [r|] eqn:E; [|done].
  apply next_pk_above in E. lia.
Qed.

(** ** Weakest preconditions

    One rule per construct of the monad lets a proof walk through a
    handler the way the handler runs. *)

Section WpRules.
Context {A B : Type}.

Lemma wp_ret (a : A) Q w : Q (Ok a) w -> wp (ret a) Q w.
Proof. done. Qed.

Lemma wp_raise (e : Exc) (Q : Result A -> World -> Prop) w :
  Q (Raise e) w -> wp (raise e) Q w.
Proof. done. Qed.

Lemma wp_bind (m : M A) (k : A -> M B) Q w :
  wp m (fun r w' => match r with
                    | Ok a => wp (k a) Q w'
                    | Raise e => Q (Raise e) w'
                    end) w ->
  wp (bind m k) Q w.
Proof. unfold wp, bind. by destruct (m w) as [[a|e] w']. Qed.

Lemma wp_try_except (m : M A) (h : Exc -> M A) Q w :
  wp m (fun r w' => match r with
                    | Ok a => Q (Ok a) w'
                    | Raise e => wp (h e) Q w'
                    end) w ->
  wp (try_except m h) Q w.
Proof. unfold wp, try_except. by destruct (m w) as [[a|e] w']. Qed.

Lemma wp_atomic (m : M A) Q w :
  wp m (fun r w' => match r with
                    | Ok a => Q (Ok a) w'
                    | Raise e => Q (Raise e) (set_store (store w) w')
                    end) w ->
  wp (atomic m) Q w.
Proof. unfold wp, atomic. by destruct (m w) as [[a|e] w']. Qed.

Lemma wp_query (f : Store -> Result A) Q w :
  Q (f (store w)) w -> wp (query f) Q w.
Proof. done. Qed.

Lemma wp_db_write (f : Store -> Result (A * Store)) Q w :
  (forall e, refusal w = Some e -> Q (Raise e) (tick w)) ->
  (refusal w = None ->
   match f (store w) with
   | Ok (a, s') => Q (Ok a) (set_store s' (tick w))
   | Raise e => Q (Raise e) (tick w)
   end) ->
  wp (db_write f) Q w.
Proof.
  unfold wp, db_write. intros H1 H2.
  destruct (refusal w) as [e|]; [by apply H1|].
  specialize (H2 eq_refl). by destruct (f (store w)) as [[a s']|e].
Qed.

Lemma wp_mono (m : M A) (Q Q' : Result A -> World -> Prop) w :
  (forall r w', Q r w' -> Q' r w') -> wp m Q w -> wp m Q' w.
Proof. unfold wp. auto. Qed.

End WpRules.

Lemma wp_message (l : Level) (text : string) Q w :
  Q (Ok tt) (add_notice (mkNotice l text) w) -> wp (message l text) Q w.
Proof. done. Qed.

Lemma wp_send_mail (m : Mail) Q w :
  Q (Ok tt) (add_mail m w) -> wp (send_mail m) Q w.
Proof. done. Qed.

Ltac wp_unfold :=
  unfold or_else, returning, redirect, render, related, objects_get,
    get_object_or_404, request_user, py_int, py_Decimal, check_strptime,
    saved_pk, User_full_clean, Society_full_clean, Flat_full_clean,
    Tenant_full_clean, Bill_full_clean, User_save, Society_save, Flat_save,
    Tenant_save, Bill_save, User_delete, Society_delete, Flat_delete,
    Tenant_delete, Bill_delete, send_credentials_on_create.

Ltac wp_step :=
  cbv beta zeta;
  lazymatch goal with
  | |- wp (bind _ _) _ _ => apply wp_bind
  | |- wp (try_except _ _) _ _ => apply wp_try_except
  | |- wp (atomic _) _ _ => apply wp_atomic
  | |- wp (query _) _ _ => apply wp_query
  | |- wp (db_write _) _ _ => apply wp_db_write; [intros ? ?|intros ?]
  | |- wp (message _ _) _ _ => apply wp_message
  | |- wp (send_mail _) _ _ => apply wp_send_mail
  | |- wp (ret _) _ _ => apply wp_ret
  | |- wp (raise _) _ _ => apply wp_raise
  | |- wp (match ?x with _ => _ end) _ _ => destruct x eqn:?
  | |- match ?x with _ => _ end => destruct x eqn:?
  end.

(** Read a goal about [fst (m w)] and [snd (m w)] as a [wp]. *)
Ltac wp_start m w :=
  pattern (fst (m w)), (snd (m w));
  lazymatch goal with |- ?Q _ _ => change (wp m Q w) end.

(** Walk through the whole computation; what is left are the ends of its
    paths, each with the equations of the tests made on the way. *)
Ltac wp_run := wp_unfold; repeat wp_step.

(** ** The authorization gate *)

Lemma gate_pass (env : Env) (h : Handler) (request : Request) (u : User) :
  user request = Some u -> u_role u = required_role h ->
  handle env h request = view env h request.
Proof.
  intros Hu Hr. unfold handle.
  destruct h; simpl in *;
    unfold admin_required, owner_required, tenant_required;
    rewrite Hu, Hr; reflexivity.
Qed.

(** The gate either hands the request to the view or answers it itself
    with a redirect, leaving the store alone and queueing at most its
    access-denied notice. *)
Lemma handle_either (env : Env) (h : Handler) (request : Request) (w : World) :
  handle env h request w = view env h request w
  \/ (store (snd (handle env h request w)) = store w
      /\ (notices (snd (handle env h request w)) = notices w
          \/ exists text, notices (snd (handle env h request w))
                          = notices w ++ [mkNotice ERROR text])
      /\ (exists name, fst (handle env h request w) = Ok (RedirectTo name))
      /\ (forall u, user request = Some u -> u_role u <> required_role h)).
Proof.
  unfold handle.
  destruct h; simpl decorator; simpl required_role;
    unfold admin_required, owner_required, tenant_required;
    (destruct (user request) as [u|];
     [|right; split; [done|]; split; [by left|]; split; [by eexists|];
       intros ?; discriminate]);
    (destruct (String.eqb (u_role u) _) eqn:E; simpl; [by left|]);
    right; (split; [done|]); (split; [right; by eexists|]);
    (split; [by eexists|]); intros u' [= <-];
    apply String.eqb_neq in E; exact E.
Qed.

(** C8. Every role-gated handler follows the decision table of its
    decorator: an anonymous request is redirected to the login page and
    nothing else happens; a logged-in user whose role is not the required
    one is redirected to the index page with an access-denied error
    notice; a logged-in user with the required role gets exactly what the
    wrapped view does. *)
Theorem gate_decision_table (env : Env) (h : Handler) (request : Request)
        (w : World) :
  handle env h request w =
    match user request with
    | None => (Ok (RedirectTo "core:login"), w)
    | Some u =>
        if String.eqb (u_role u) (required_role h)
        then view env h request w
        else (Ok (RedirectTo "core:index"),
              add_notice (mkNotice ERROR (access_denied (required_role h))) w)
    end.
Proof.
  unfold handle.
  destruct h; simpl decorator; simpl required_role;
    unfold admin_required, owner_required, tenant_required;
    destruct (user request) as [u|]; try reflexivity;
    destruct (String.eqb (u_role u) _); reflexivity.
Qed.

(** ** [User.save] *)

Lemma send_credentials_run (u : User) (created : bool) (w : World) :
  exists w', send_credentials_on_create u created w = (Ok tt, w')
             /\ store w' = store w /\ notices w' = notices w
             /\ faults w' = faults w.
Proof.
  unfold send_credentials_on_create.
  destruct created; [|by eexists].
  destruct (u_plain_password u); by eexists.
Qed.

(** C4. Whatever role the record carries before, when [save] completes
    the instance and the row written for it have role ADMIN if the user
    is a superuser. *)
Theorem superuser_saved_as_admin (u u' : User) (w w' : World) :
  User_save u w = (Ok u', w') ->
  u_is_superuser u' = u_is_superuser u /\
  (u_is_superuser u' = true -> u_role u' = ADMIN) /\
  exists k, u_pk u' = Some k /\
    users (store w') !! k = Some (u_set_plain_password None u').
Proof.
  unfold User_save, bind, db_write, User_db_save.
  set (u1 := if u_is_superuser u then u_set_role ADMIN u else u).
  assert (u_is_superuser u1 = u_is_superuser u) as Hsup.
  { subst u1. destruct (u_is_superuser u) eqn:E; simpl; done. }
  assert (u_is_superuser u1 = true -> u_role u1 = ADMIN) as Hrole.
  { subst u1. destruct (u_is_superuser u) eqn:E; simpl; [done|congruence]. }
  clearbody u1.
  destruct (refusal w); [intros H; discriminate H|].
  destruct (exists_other _ _ _ || exists_other _ _ _);
    [intros H; discriminate H|].
  set (k := match u_pk u1 with Some k => k | None => next_pk (users (store w)) end).
  cbn [fst snd].
  match goal with
  | |- context [send_credentials_on_create ?a ?b ?c] =>
      destruct (send_credentials_run a b c) as (w1 & -> & Hst & _)
  end.
  unfold ret. intros [= <- <-].
  split; [done|]. split; [done|]. exists k. split; [done|].
  rewrite Hst. simpl. by rewrite lookup_insert_eq.
Qed.

(** ** [toggle_bill_status] *)

Lemma toggled_status_flip (st : string) :
  st = PAID \/ st = UNPAID ->
  toggled_status st <> st /\ toggled_status (toggled_status st) = st
  /\ (toggled_status st = PAID \/ toggled_status st = UNPAID).
Proof. intros [->| ->]; vm_compute; repeat split; auto; discriminate. Qed.

(** The store after one toggle of an existing bill whose key no other
    bill shares, when the store does not refuse the write. *)
Lemma toggle_bill_status_run (k : Z) (request : Request) (w : World)
      (bill : MaintenanceBill) :
  bills (store w) !! k = Some bill ->
  (forall i r, bills (store w) !! i = Some r ->
     same_bill_key bill r = true -> i = k) ->
  refusal w = None ->
  store (snd (toggle_bill_status_view k request w)) =
    with_bills (<[k := b_set_status (toggled_status (b_status bill))
                          (b_set_pk (Some k) bill)]> (bills (store w)))
               (store w)
  /\ faults (snd (toggle_bill_status_view k request w)) = tail (faults w).
Proof.
  intros Hb Huniq Hf.
  unfold toggle_bill_status_view, get_object_or_404, related, objects_get,
    Bill_save, redirect, bind, try_except, query, db_write, message, ret.
  unfold load. simpl. rewrite Hb. simpl.
  rewrite Hf. unfold Bill_db_save. simpl.
  assert (exists_other (Some k)
            (same_bill_key
               (b_set_status (toggled_status (b_status bill))
                  (b_set_pk (Some k) bill))) (bills (store w)) = false) as ->.
  { apply exists_other_false. intros i r Hi Hk. f_equal. symmetry.
    apply (Huniq i r Hi).
    unfold same_bill_key in *. simpl in Hk.
    rewrite !andb_true_iff in *. destruct Hk as [[H1 H2] H3].
    apply Z.eqb_eq in H1, H3. apply String.eqb_eq in H2.
    rewrite Z.eqb_eq, String.eqb_eq, Z.eqb_eq. auto. }
  unfold fk_ok. rewrite Hb. simpl.
  rewrite bool_decide_eq_true_2 by done. simpl.
  destruct (flats (store w) !! b_flat bill) as [f|]; simpl; done.
Qed.

(** C10. For an existing bill (whose status is PAID or UNPAID, and whose
    flat, month and year no other bill has, as the schema demands),
    [toggle_bill_status], called by an administrator on a store that does
    not refuse the write, flips the status and leaves the flat, the
    month, the year and the amount of the bill, and every other row, as
    they were; a second call restores the original status. *)
Theorem toggle_bill_status_involution (env : Env) (k : Z) (request : Request)
        (w : World) (bill : MaintenanceBill) (adm : User) :
  user request = Some adm -> u_role adm = "ADMIN" ->
  bills (store w) !! k = Some bill ->
  b_status bill = PAID \/ b_status bill = UNPAID ->
  (forall i r, bills (store w) !! i = Some r ->
     same_bill_key bill r = true -> i = k) ->
  faults w = [] ->
  let w1 := snd (handle env (toggle_bill_status k) request w) in
  let w2 := snd (handle env (toggle_bill_status k) request w1) in
  (exists b1, bills (store w1) !! k = Some b1
     /\ b_status b1 = toggled_status (b_status bill)
     /\ b_status b1 <> b_status bill
     /\ (b_status b1 = PAID \/ b_status b1 = UNPAID)
     /\ b_flat b1 = b_flat bill /\ b_month b1 = b_month bill
     /\ b_year b1 = b_year bill /\ b_amount b1 = b_amount bill)
  /\ (forall i, i <> k -> bills (store w1) !! i = bills (store w) !! i)
  /\ users (store w1) = users (store w)
  /\ societies (store w1) = societies (store w)
  /\ flats (store w1) = flats (store w)
  /\ tenants (store w1) = tenants (store w)
  /\ (exists b2, bills (store w2) !! k = Some b2
     /\ b_status b2 = b_status bill
     /\ b_flat b2 = b_flat bill /\ b_month b2 = b_month bill
     /\ b_year b2 = b_year bill /\ b_amount b2 = b_amount bill)
  /\ (forall i, i <> k -> bills (store w2) !! i = bills (store w) !! i).
Proof.
  intros Hu Hr Hb Hst Huniq Hf w1 w2.
  assert (refusal w = None) as Hrf by (unfold refusal; by rewrite Hf).
  assert (handle env (toggle_bill_status k) request
          = toggle_bill_status_view k request) as Hgate
    by (apply (gate_pass env (toggle_bill_status k) _ adm); done).
  subst w1 w2. rewrite !Hgate.
  destruct (toggle_bill_status_run k request w bill Hb Huniq Hrf) as [E1 F1].
  set (b1 := b_set_status (toggled_status (b_status bill))
               (b_set_pk (Some k) bill)) in *.
  set (w1 := snd (toggle_bill_status_view k request w)) in *.
  assert (bills (store w1) !! k = Some b1) as Hb1.
  { rewrite E1. simpl. apply lookup_insert_eq. }
  assert (forall i, i <> k -> bills (store w1) !! i = bills (store w) !! i)
    as Hother.
  { intros i Hi. rewrite E1. simpl. by apply lookup_insert_ne. }
  assert (refusal w1 = None) as Hrf1.
  { unfold refusal. rewrite F1, Hf. done. }
  assert (forall i r, bills (store w1) !! i = Some r ->
            same_bill_key b1 r = true -> i = k) as Huniq1.
  { intros i r Hi Hk. destruct (decide (i = k)) as [|Hne]; [done|].
    rewrite Hother in Hi by done. apply (Huniq i r Hi). exact Hk. }
  destruct (toggle_bill_status_run k request w1 b1 Hb1 Huniq1 Hrf1) as [E2 _].
  destruct (toggled_status_flip _ Hst) as (Hne & Hinv & Hval).
  split; [exists b1; repeat split; done|].
  split; [done|].
  rewrite E1. simpl. repeat (split; [done|]).
  split.
  - eexists. split; [rewrite E2; simpl; apply lookup_insert_eq|].
    simpl. repeat split; done.
  - intros i Hi. rewrite E2. simpl. rewrite lookup_insert_ne by done.
    by apply Hother.
Qed.

(** ** Error dictionaries and [full_clean] *)

Lemma extend_field_keys (f : string) (ms : list string) (d : ErrorDict) (g : string) :
  g ∈ error_keys (extend_field f ms d) <-> g ∈ error_keys d \/ g = f.
Proof.
  induction d as [|[f0 ms0] d IH]; simpl.
  - rewrite list_elem_of_singleton. split; [auto|].
    intros [H|H]; [by apply elem_of_nil in H|done].
  - destruct (String.eqb f0 f) eqn:E; simpl.
    + apply String.eqb_eq in E. subst f0.
      rewrite !elem_of_cons. intuition congruence.
    + unfold error_keys in IH. rewrite !elem_of_cons, IH. tauto.
Qed.

Lemma extend_field_not_nil (f : string) (ms : list string) (d : ErrorDict) :
  extend_field f ms d <> [].
Proof.
  destruct d as [|[f0 ms0] d]; simpl; [done|].
  destruct (String.eqb f0 f); done.
Qed.

Lemma update_error_dict_keys (e d : ErrorDict) (g : string) :
  g ∈ error_keys (update_error_dict e d)
  <-> g ∈ error_keys d \/ g ∈ error_keys e.
Proof.
  unfold update_error_dict. revert d.
  induction e as [|[f ms] e IH]; intros d; simpl.
  - split; [auto|]. intros [H|H]; [done|by apply elem_of_nil in H].
  - rewrite IH, extend_field_keys, elem_of_cons. tauto.
Qed.

Lemma update_error_dict_nil (e d : ErrorDict) :
  update_error_dict e d = [] -> e = [] /\ d = [].
Proof.
  unfold update_error_dict. revert d.
  induction e as [|[f ms] e IH]; intros d; simpl; [done|].
  intros H. apply IH in H as [_ H]. by apply extend_field_not_nil in H.
Qed.

Lemma entry_nil (name : string) (msgs : list string) :
  Field.entry name msgs = [] -> msgs = [].
Proof. destruct msgs; [done|discriminate]. Qed.

Lemma entry_keys (name : string) (msgs : list string) (g : string) :
  g ∈ error_keys (Field.entry name msgs) -> g = name.
Proof.
  destruct msgs; simpl; intros H.
  - by apply elem_of_nil in H.
  - by apply list_elem_of_singleton in H.
Qed.

Lemma entry_key_in (name : string) (msgs : list string) :
  msgs <> [] -> name ∈ error_keys (Field.entry name msgs).
Proof. destruct msgs; [done|]. intros _. simpl. apply elem_of_cons; auto. Qed.

Lemma unique_keys (exclude fields : list string) (key : string) (taken : bool)
      (msg : string) (g : string) :
  g ∈ error_keys (Field.unique exclude fields key taken msg) -> g = key.
Proof.
  unfold Field.unique. destruct (existsb _ _); simpl.
  - intros H. by apply elem_of_nil in H.
  - destruct taken; simpl; intros H.
    + by apply list_elem_of_singleton in H.
    + by apply elem_of_nil in H.
Qed.

(** [full_clean] succeeds only when no field has an error and [clean]
    raised nothing. *)
Lemma full_clean_of_Ok {A} (fe : ErrorDict) (cleaned : Result (A * ErrorDict))
      (vu : A -> list string -> ErrorDict) (a : A) :
  full_clean_of fe cleaned vu = Ok a -> fe = [] /\ cleaned = Ok (a, []).
Proof.
  unfold full_clean_of. destruct cleaned as [[a' ce]|e]; [|discriminate].
  destruct (update_error_dict (vu a' _) _) eqn:E; [|discriminate].
  intros [= ->]. apply update_error_dict_nil in E as [_ E].
  apply update_error_dict_nil in E as [-> ->]. done.
Qed.

(** When [clean] raised no exception of another kind, [full_clean] either
    succeeds or raises a [ValidationError] whose keys are those of the
    three stages. *)
Lemma full_clean_of_cases {A} (fe : ErrorDict) (a : A) (ce : ErrorDict)
      (vu : A -> list string -> ErrorDict) :
  (full_clean_of fe (Ok (a, ce)) vu = Ok a /\ fe = [] /\ ce = [])
  \/ exists errs ex,
       full_clean_of fe (Ok (a, ce)) vu = Raise (ValidationError errs)
       /\ errs <> []
       /\ forall g, g ∈ error_keys errs <->
            g ∈ error_keys fe \/ g ∈ error_keys ce
            \/ g ∈ error_keys (vu a ex).
Proof.
  unfold full_clean_of.
  set (ex := List.filter _ _).
  destruct (update_error_dict (vu a ex) (update_error_dict ce fe)) eqn:E.
  - left. apply update_error_dict_nil in E as [_ E].
    apply update_error_dict_nil in E as [-> ->]. done.
  - right. eexists _, ex. split; [done|]. split; [done|].
    intros g. rewrite <- E, !update_error_dict_keys. tauto.
Qed.

Lemma create_bill_view_store (env : Env) (request : Request) (w : World) :
  store (snd (create_bill_view env request w)) = store w
  \/ exists flat_id month year amount fid y a bill',
       post_opt request "flat" = Some flat_id
       /\ post_opt request "month" = Some month
       /\ post_opt request "year" = Some year
       /\ post_opt request "amount" = Some amount
       /\ Py.int flat_id = Some fid /\ Py.int year = Some y
       /\ parse_Decimal env amount = Some a
       /\ is_Some (flats (store w) !! fid)
       /\ fst (Bill_full_clean env
                 (mkBill None fid month y a
                         (default "UNPAID" (post_opt request "status"))) w)
          = Ok bill'.
Proof.
  wp_start (create_bill_view env request) w.
  unfold create_bill_view. wp_run; try (left; reflexivity).
  right. unfold load in *. simpl in *.
  destruct (flats (store w) !! _) eqn:Hfl; [|discriminate].
  simplify_eq.
  do 8 eexists. repeat (split; [eassumption || reflexivity|]).
  split; [by rewrite Hfl|]. eassumption.
Qed.

(** ** The year of a bill *)

Lemma error_keys_app (a b : ErrorDict) (g : string) :
  g ∈ error_keys (a ++ b) <-> g ∈ error_keys a \/ g ∈ error_keys b.
Proof. unfold error_keys. rewrite map_app. apply elem_of_app. Qed.

Lemma year_validators_nil (y : Z) : year_validators y = [] <-> 2000 <= y.
Proof.
  unfold year_validators, Field.min_int, Field.check.
  destruct (Z.ltb_spec y 2000); destruct (Z.ltb_spec y 1900); simpl;
    split; intros; try done; lia.
Qed.

Lemma Bill_clean_fields_year (s : Store) (x : MaintenanceBill) :
  "year" ∈ error_keys (Bill_clean_fields s x) <-> b_year x < 2000.
Proof.
  unfold Bill_clean_fields. rewrite !error_keys_app. split.
  - intros H.
    destruct (Z.lt_ge_cases (b_year x) 2000) as [|Hge]; [done|].
    apply year_validators_nil in Hge. rewrite Hge in H. simpl in H.
    destruct H as [H|[H|[H|[H|H]]]];
      first [by apply elem_of_nil in H
            |apply entry_keys in H; discriminate H].
  - intros H. right. right. left. apply entry_key_in.
    rewrite year_validators_nil. lia.
Qed.

(** What [MaintenanceBill.clean] does when the flat of the bill and the
    owner of that flat, if it has one, are rows of the store. *)
Lemma Bill_clean_year (env : Env) (s : Store) (x : MaintenanceBill) (f : Flat) :
  flats s !! b_flat x = Some f ->
  (forall o, f_owner f = Some o -> is_Some (users s !! o)) ->
  exists ce, Bill_clean env s x = Ok (x, ce)
    /\ ("year" ∈ error_keys ce <-> b_year x <> 0 /\ today_year env + 1 < b_year x)
    /\ (f_owner f = None -> ce <> []).
Proof.
  intros Hf Ho. unfold Bill_clean. rewrite Hf.
  assert (forall key msg, key <> "year" ->
            ~ (b_year x <> 0 /\ today_year env + 1 < b_year x) ->
            "year" ∈ error_keys [(key, [msg])]
            <-> b_year x <> 0 /\ today_year env + 1 < b_year x) as Hother.
  { intros key msg Hk Hn. simpl. rewrite list_elem_of_singleton.
    split; [intros E; by destruct Hk|tauto]. }
  assert ("year" ∈ error_keys []
          <-> False) as Hnil by (split; [apply not_elem_of_nil|tauto]).
  destruct (Z.eqb_spec (b_year x) 0) as [E0|E0];
    destruct (Z.ltb_spec (today_year env + 1) (b_year x)) as [E1|E1]; simpl.
  4: { destruct (f_owner f) as [o|] eqn:Eo.
       - destruct (Ho o eq_refl) as [u ->].
         destruct (bool_decide _ && exists_row _ _);
           (eexists; split; [reflexivity|]; split; [|done]).
         + apply Hother; [discriminate|lia].
         + rewrite Hnil. lia.
       - eexists; split; [reflexivity|]; split; [|done].
         apply Hother; [discriminate|lia]. }
  3: { eexists; split; [reflexivity|]; split; [|done]. simpl.
       rewrite list_elem_of_singleton. tauto. }
  all: destruct (f_owner f) as [o|] eqn:Eo;
    [destruct (Ho o eq_refl) as [u ->];
     destruct (bool_decide _ && exists_row _ _)|];
    (eexists; split; [reflexivity|]; split; [|done]);
    first [apply Hother; [discriminate|lia] | rewrite Hnil; lia].
Qed.

(** C6. The validation of a bill refuses the year (a [ValidationError]
    with an entry for [year]) exactly when the year is outside
    2000..current_year+1; with such a year validation never succeeds and
    [create_bill] leaves the store as it was, whatever else the request
    holds; so does a request for the year 3000, as long as 3000 exceeds
    current_year+1. *)
Theorem bill_year_validation (env : Env) :
  (forall (w : World) (x : MaintenanceBill) (f : Flat),
     flats (store w) !! b_flat x = Some f ->
     (forall o, f_owner f = Some o -> is_Some (users (store w) !! o)) ->
     ((exists errs, fst (Bill_full_clean env x w) = Raise (ValidationError errs)
                    /\ "year" ∈ error_keys errs)
      <-> ~ year_in_range env (b_year x)))
  /\ (forall (w : World) (x : MaintenanceBill) (a : MaintenanceBill),
        ~ year_in_range env (b_year x) ->
        fst (Bill_full_clean env x w) <> Ok a)
  /\ (forall (request : Request) (w : World) (year : string) (y : Z),
        post_opt request "year" = Some year -> Py.int year = Some y ->
        ~ year_in_range env y ->
        store (snd (handle env create_bill request w)) = store w)
  /\ (today_year env + 1 < 3000 ->
      forall (request : Request) (w : World),
        post_opt request "year" = Some "3000" ->
        store (snd (handle env create_bill request w)) = store w).
Proof.
  assert (forall (w : World) (x a : MaintenanceBill),
            ~ year_in_range env (b_year x) ->
            fst (Bill_full_clean env x w) <> Ok a) as Hnever.
  { intros w x a Hout Hok. unfold Bill_full_clean, query, Bill_full_clean_in in Hok. simpl in Hok.
    apply full_clean_of_Ok in Hok as [Hfe Hce].
    assert (~ b_year x < 2000) as Hge.
    { rewrite <- (Bill_clean_fields_year (store w)), Hfe.
      intros H. by apply elem_of_nil in H. }
    unfold Bill_clean in Hce.
    destruct (Z.eqb_spec (b_year x) 0) as [E0|E0]; [lia|].
    destruct (Z.ltb_spec (today_year env + 1) (b_year x)) as [E1|E1];
      simpl in Hce; [discriminate Hce|].
    apply Hout. unfold year_in_range. lia. }
  assert (forall (request : Request) (w : World) (year : string) (y : Z),
            post_opt request "year" = Some year -> Py.int year = Some y ->
            ~ year_in_range env y ->
            store (snd (handle env create_bill request w)) = store w) as Hview.
  { intros request w year y Hy Hint Hout.
    destruct (handle_either env create_bill request w) as [Hs|[Hs _]];
      [simpl view in Hs; rewrite Hs|done].
    destruct (create_bill_view_store env request w)
      as [|(fl & mo & ye & am & fid & y' & a & b' & _ & _ & Hy' & _ & _ & Hint'
            & _ & _ & Hok)]; [done|].
    exfalso. rewrite Hy in Hy'. injection Hy' as <-.
    rewrite Hint in Hint'. injection Hint' as <-.
    eapply Hnever; [|exact Hok]. simpl. exact Hout. }
  split; [|split; [exact Hnever|split; [exact Hview|]]].
  - intros w x f Hf Ho.
    destruct (Bill_clean_year env (store w) x f Hf Ho) as (ce & Hc & Hcy & _).
    unfold Bill_full_clean, query, Bill_full_clean_in. simpl. rewrite Hc.
    destruct (full_clean_of_cases (Bill_clean_fields (store w) x) x ce
                (Bill_validate_unique (store w)))
      as [(Hok & Hfe & Hce)|(errs & ex & Hr & _ & Hkeys)].
    + rewrite Hok. split; [intros (errs & H & _); discriminate H|].
      intros Hout. exfalso. apply Hout. unfold year_in_range.
      assert (~ b_year x < 2000) as Hge.
      { rewrite <- (Bill_clean_fields_year (store w)), Hfe.
        intros H. by apply elem_of_nil in H. }
      assert (~ (b_year x <> 0 /\ today_year env + 1 < b_year x)) as Hnf.
      { rewrite <- Hcy, Hce. intros H. by apply elem_of_nil in H. }
      lia.
    + rewrite Hr. split.
      * intros (errs' & [= <-] & Hin). apply Hkeys in Hin.
        unfold year_in_range.
        destruct Hin as [Hin|[Hin|Hin]].
        -- apply Bill_clean_fields_year in Hin. lia.
        -- apply Hcy in Hin. lia.
        -- apply unique_keys in Hin. discriminate Hin.
      * intros Hout. exists errs. split; [done|]. apply Hkeys.
        destruct (Z.lt_ge_cases (b_year x) 2000) as [Hlt|Hge].
        -- left. by apply Bill_clean_fields_year.
        -- right. left. apply Hcy. unfold year_in_range in Hout. lia.
  - intros Hcy request w Hy.
    apply (Hview request w "3000" 3000 Hy); [reflexivity|].
    unfold year_in_range. lia.
Qed.

(** ** Bills need an owner *)

Lemma Bill_clean_ownerless (env : Env) (s : Store) (x : MaintenanceBill)
      (f : Flat) :
  flats s !! b_flat x = Some f -> f_owner f = None ->
  exists ce, Bill_clean env s x = Ok (x, ce) /\ ce <> []
    /\ (~ (b_year x <> 0 /\ today_year env + 1 < b_year x) ->
        ce = [("flat", ["Cannot create bill for flat without an owner"])]).
Proof.
  intros Hf Ho. unfold Bill_clean. rewrite Hf, Ho.
  destruct (Z.eqb_spec (b_year x) 0) as [E0|E0];
    destruct (Z.ltb_spec (today_year env + 1) (b_year x)) as [E1|E1]; simpl;
    (eexists; split; [reflexivity|]; split; [done|]);
    intros H; try reflexivity; lia.
Qed.

Lemma Bill_full_clean_ownerless (env : Env) (w : World) (x : MaintenanceBill)
      (f : Flat) :
  flats (store w) !! b_flat x = Some f -> f_owner f = None ->
  exists errs, Bill_full_clean env x w = (Raise (ValidationError errs), w)
    /\ errs <> []
    /\ (~ (b_year x <> 0 /\ today_year env + 1 < b_year x) ->
        "flat" ∈ error_keys errs).
Proof.
  intros Hf Ho.
  destruct (Bill_clean_ownerless env (store w) x f Hf Ho) as (ce & Hc & Hne & Hfl).
  unfold Bill_full_clean, query, Bill_full_clean_in. rewrite Hc.
  destruct (full_clean_of_cases (Bill_clean_fields (store w) x) x ce
              (Bill_validate_unique (store w)))
    as [(_ & _ & Hce)|(errs & ex & Hr & Hnn & Hkeys)]; [done|].
  exists errs. rewrite Hr. split; [done|]. split; [done|].
  intros Hy. apply Hkeys. right. left. rewrite (Hfl Hy). simpl.
  apply elem_of_cons. by left.
Qed.

(** C7. A bill for a flat without an owner does not pass validation
    ([full_clean] raises a [ValidationError], with an entry for [flat]
    unless the year check of [clean] fired first); [create_bill] for such
    a flat leaves the store as it was, and when the form is complete and
    well-formed an administrator gets the page back with the validation
    error as the notice. *)
Theorem bill_for_ownerless_flat_rejected (env : Env) :
  (forall (w : World) (x : MaintenanceBill) (f : Flat),
     flats (store w) !! b_flat x = Some f -> f_owner f = None ->
     exists errs, Bill_full_clean env x w = (Raise (ValidationError errs), w)
       /\ errs <> []
       /\ (~ (b_year x <> 0 /\ today_year env + 1 < b_year x) ->
           "flat" ∈ error_keys errs))
  /\ (forall (request : Request) (w : World) (flat_id : string) (fid : Z)
             (f : Flat),
        post_opt request "flat" = Some flat_id -> Py.int flat_id = Some fid ->
        flats (store w) !! fid = Some f -> f_owner f = None ->
        store (snd (handle env create_bill request w)) = store w)
  /\ (forall (request : Request) (w : World) (adm : User)
             (flat_id month year amount : string) (fid y : Z) (a : Decimal)
             (f : Flat),
        user request = Some adm -> u_role adm = "ADMIN" ->
        is_post request = true ->
        post_opt request "flat" = Some flat_id ->
        post_opt request "month" = Some month ->
        post_opt request "year" = Some year ->
        post_opt request "amount" = Some amount ->
        all_truthy [flat_id; month; year; amount] = true ->
        Py.isdigit flat_id = true -> Py.int flat_id = Some fid ->
        Py.int year = Some y -> parse_Decimal env amount = Some a ->
        flats (store w) !! fid = Some f -> f_owner f = None ->
        exists errs, errs <> [] /\
          handle env create_bill request w =
            (Ok (RenderPage "admin/bill_list.html"),
             add_notice (mkNotice ERROR (validation_notice errs)) w)).
Proof.
  split; [exact (Bill_full_clean_ownerless env)|]. split.
  - intros request w flat_id fid f Hfl Hint Hf Ho.
    destruct (handle_either env create_bill request w) as [Hs|[Hs _]];
      [simpl view in Hs; rewrite Hs|done].
    destruct (create_bill_view_store env request w)
      as [|(fl & mo & ye & am & fid' & y' & a & b' & Hfl' & _ & _ & _ & Hint'
            & _ & _ & _ & Hok)]; [done|].
    exfalso. rewrite Hfl in Hfl'. injection Hfl' as <-.
    rewrite Hint in Hint'. injection Hint' as <-.
    match type of Hok with
    | fst (Bill_full_clean _ ?x _) = _ =>
        destruct (Bill_full_clean_ownerless env w x f Hf Ho) as (errs & E & _)
    end.
    rewrite E in Hok. discriminate Hok.
  - intros request w adm flat_id month year amount fid y a f
           Hu Hr Hp Hfl Hmo Hye Ham Hall Hdig Hint Hy Ha Hf Ho.
    set (x := mkBill None fid month y a
                     (default "UNPAID" (post_opt request "status"))).
    destruct (Bill_full_clean_ownerless env w x f Hf Ho) as (errs & E & Hne & _).
    exists errs. split; [done|].
    rewrite (gate_pass env create_bill request adm Hu Hr). simpl view.
    unfold create_bill_view. rewrite Hp, Hfl, Hmo, Hye, Ham, Hall, Hdig.
    simpl negb. cbv iota.
    unfold or_else, try_except, bind, py_int, py_Decimal.
    rewrite Hy, Ha, Hint. simpl.
    unfold get_object_or_404, query, load. simpl. rewrite Hf. simpl.
    unfold Bill_full_clean, query in E. injection E as E.
    fold x. unfold Bill_full_clean, query. rewrite E. reflexivity.
Qed.

(** ** Creating a tenant *)

Lemma User_full_clean_in_Ok (env : Env) (s : Store) (u a : User) :
  User_full_clean_in env s u = Ok a ->
  u_pk a = u_pk u /\ u_is_superuser a = u_is_superuser u
  /\ u_role a = u_role u /\ u_plain_password a = u_plain_password u.
Proof.
  unfold User_full_clean_in. intros H.
  apply full_clean_of_Ok in H as [_ H]. injection H as H.
  unfold User_clean in H.
  destruct (Py.truthy _); destruct (_ && _); simplify_eq; done.
Qed.

Lemma User_db_save_Ok (u u2 : User) (created : bool) (s s' : Store) :
  User_db_save u s = Ok ((u2, created), s') ->
  exists k, u2 = u_set_pk (Some k) u
    /\ (u_pk u = Some k \/ (u_pk u = None /\ users s !! k = None))
    /\ s' = with_users (<[k := u_set_plain_password None u2]> (users s)) s.
Proof.
  unfold User_db_save. destruct (_ || _); [discriminate|].
  intros [= <- _ <-].
  destruct (u_pk u) as [k|] eqn:E.
  - exists k. auto.
  - exists (next_pk (users s)). split; [done|]. split; [|done].
    right. split; [done|]. apply next_pk_fresh.
Qed.

Lemma Tenant_db_save_Ok (x t2 : Tenant) (s s' : Store) :
  Tenant_db_save x s = Ok (t2, s') ->
  exists k, t_pk t2 = Some k /\ t_user t2 = t_user x /\ t_flat t2 = t_flat x
    /\ t_is_active t2 = t_is_active x
    /\ (t_pk x = Some k \/ (t_pk x = None /\ tenants s !! k = None))
    /\ (forall i r, tenants s !! i = Some r -> t_user r = t_user x -> i = k)
    /\ (tenants s !! k = None -> is_Some (users s !! t_user x))
    /\ s' = with_tenants (<[k := t2]> (tenants s)) s.
Proof.
  unfold Tenant_db_save. destruct (Field.date_to_python _); [|discriminate].
  destruct (exists_other _ _ _) eqn:Eo; [discriminate|]. simpl.
  destruct (fk_ok _ _ (users s)) eqn:Eu; [|discriminate]. simpl.
  destruct (fk_ok _ _ (flats s)); [|discriminate]. simpl.
  intros [= <- <-].
  rewrite exists_other_false in Eo.
  set (k := match t_pk x with Some k => k | None => next_pk (tenants s) end) in *.
  exists k. repeat (split; [done|]).
  assert (t_pk x = Some k \/ (t_pk x = None /\ tenants s !! k = None)) as Hk.
  { subst k. destruct (t_pk x); [by left|right]. split; [done|].
    apply next_pk_fresh. }
  split; [done|]. split; [|split; [|done]].
  - intros i r Hi Hu.
    assert (t_pk x = Some i) as Hpk.
    { apply (Eo i r Hi). by apply Z.eqb_eq. }
    destruct Hk as [Hk|[Hk _]]; congruence.
  - intros Hnone. unfold fk_ok in Eu. rewrite Hnone in Eu.
    apply orb_true_iff in Eu as [Eu|Eu]; apply bool_decide_eq_true_1 in Eu;
      [discriminate Eu|exact Eu].
Qed.

(** A tenant whose start date reads as a day before 2000-01-01 does not
    pass [full_clean]. *)
Lemma Tenant_full_clean_in_early (s : Store) (x : Tenant) (d : Py.date) :
  Field.date_to_python (t_start_date x) = inl d ->
  Py.date_ltb d year_2000 = true ->
  (forall a, Tenant_full_clean_in s x <> Ok a)
  /\ (forall u, users s !! t_user x = Some u -> u_role u = "TENANT" ->
      exists errs, Tenant_full_clean_in s x = Raise (ValidationError errs)
                   /\ "start_date" ∈ error_keys errs).
Proof.
  intros Hd Hlt. unfold Tenant_full_clean_in, Tenant_clean_fields.
  rewrite Hd.
  set (x1 := t_set_start_date (DDate d) x).
  set (fe := _ ++ _).
  assert (forall u, users s !! t_user x = Some u -> u_role u = "TENANT" ->
            Tenant_clean s x1
            = Ok (x1, [("start_date", ["Start date cannot be before year 2000"])]))
    as Hclean.
  { intros u Hu Hr. unfold Tenant_clean. simpl. rewrite Hu, Hr, Hlt. done. }
  split.
  - intros a H. apply full_clean_of_Ok in H as [_ H].
    unfold Tenant_clean in H. simpl in H.
    destruct (users s !! t_user x) as [u|] eqn:Hu; [|discriminate].
    destruct (negb _); [discriminate|]. rewrite Hlt in H. discriminate.
  - intros u Hu Hr. rewrite (Hclean u Hu Hr).
    destruct (full_clean_of_cases fe x1
                [("start_date", ["Start date cannot be before year 2000"])]
                (Tenant_validate_unique s))
      as [(_ & _ & Hce)|(errs & ex & Hr' & _ & Hkeys)]; [discriminate|].
    exists errs. split; [done|]. apply Hkeys. right. left. simpl.
    apply elem_of_cons. by left.
Qed.

Ltac no_success_leaf :=
  left; split; [reflexivity|]; unfold no_success;
  cbn [notices add_notice add_mail set_store tick set_faults];
  first [left; reflexivity | right; eexists; reflexivity].

(** Either [create_tenant] leaves the store as it was and reports no
    success, or both writes of its transaction went through. *)
Lemma create_tenant_view_store (env : Env) (request : Request) (w : World) :
  (store (snd (create_tenant_view env request w)) = store w
   /\ no_success w (snd (create_tenant_view env request w)))
  \/ exists start_date fid rent u0 u1 pw u2 created s1 uid t1 t2,
       post_opt request "start_date" = Some start_date
       /\ u_role u0 = "TENANT" /\ u_pk u0 = None /\ u_is_superuser u0 = false
       /\ User_full_clean_in env (store w) u0 = Ok u1
       /\ User_db_save (u_set_plain_password (Some pw) u1) (store w)
          = Ok ((u2, created), s1)
       /\ u_pk u2 = Some uid
       /\ Tenant_full_clean_in s1
            (mkTenant None uid fid rent (DStr start_date) None true) = Ok t1
       /\ Tenant_db_save t1 s1
          = Ok (t2, store (snd (create_tenant_view env request w)))
       /\ fst (create_tenant_view env request w)
          = Ok (RedirectTo "core:tenant_list")
       /\ one_success w (snd (create_tenant_view env request w)).
Proof.
  wp_start (create_tenant_view env request) w.
  unfold create_tenant_view. wp_run; try no_success_leaf.
  all: right; repeat match goal with p : (_ * _)%type |- _ => destruct p end;
       simpl in *.
  all: match goal with
       | H : User_full_clean_in _ _ ?u0 = Ok ?a0 |- _ =>
           destruct (User_full_clean_in_Ok _ _ _ _ H) as (Hpk & Hsup & Hrole & _);
           simpl in Hpk, Hsup, Hrole
       end.
  all: match goal with
       | H : User_db_save _ _ = Ok _ |- _ => rewrite Hsup in H
       end.
  all: do 12 eexists; split; [reflexivity|];
       split; [|split; [|split; [|split; [eassumption|]]]];
       [reflexivity|reflexivity|reflexivity|];
       split; [eassumption|]; split; [eassumption|];
       split; [eassumption|]; split; [eassumption|];
       split; [reflexivity|]; eexists; reflexivity.
Qed.

Lemma Tenant_clean_Ok (s : Store) (x a : Tenant) (ce : ErrorDict) :
  Tenant_clean s x = Ok (a, ce) -> a = x.
Proof.
  unfold Tenant_clean.
  destruct (users s !! t_user x); [|discriminate].
  destruct (negb _); [by intros [= <- _]|].
  destruct (t_start_date x) as [str|d].
  - destruct (Py.truthy str); [discriminate|].
    destruct (t_end_date x); [discriminate|].
    destruct (_ && _); by intros [= <- _].
  - destruct (Py.date_ltb d year_2000); [by intros [= <- _]|].
    destruct (t_end_date x) as [e|].
    + destruct (Py.date_leb e d); [by intros [= <- _]|].
      destruct (_ && _); by intros [= <- _].
    + destruct (_ && _); by intros [= <- _].
Qed.

Lemma Tenant_full_clean_in_Ok (s : Store) (x a : Tenant) :
  Tenant_full_clean_in s x = Ok a ->
  t_pk a = t_pk x /\ t_user a = t_user x.
Proof.
  unfold Tenant_full_clean_in, Tenant_clean_fields. intros H.
  apply full_clean_of_Ok in H as [_ H]. apply Tenant_clean_Ok in H as ->.
  destruct (Field.date_to_python _); done.
Qed.

(** C9. A tenant whose start date is before 2000-01-01 does not pass
    validation: [full_clean] never succeeds, and when the tenant's user
    is a TENANT it raises a [ValidationError] with an entry for
    [start_date]. [create_tenant] with such a start date leaves the store
    as it was: neither the tenant nor the user of the request is
    persisted. This holds for the start date 1999-01-01. *)
Theorem early_start_date_rejected (env : Env) :
  (forall (s : Store) (x : Tenant) (d : Py.date),
     Field.date_to_python (t_start_date x) = inl d ->
     Py.date_ltb d year_2000 = true ->
     (forall a, Tenant_full_clean_in s x <> Ok a)
     /\ (forall u, users s !! t_user x = Some u -> u_role u = "TENANT" ->
         exists errs, Tenant_full_clean_in s x = Raise (ValidationError errs)
                      /\ "start_date" ∈ error_keys errs))
  /\ (forall (request : Request) (w : World) (str : string) (d : Py.date),
        post_opt request "start_date" = Some str ->
        Field.parse_date str = Some (Some d) ->
        Py.date_ltb d year_2000 = true ->
        store (snd (handle env create_tenant request w)) = store w)
  /\ (forall (request : Request) (w : World),
        post_opt request "start_date" = Some "1999-01-01" ->
        store (snd (handle env create_tenant request w)) = store w).
Proof.
  assert (forall (request : Request) (w : World) (str : string) (d : Py.date),
            post_opt request "start_date" = Some str ->
            Field.parse_date str = Some (Some d) ->
            Py.date_ltb d year_2000 = true ->
            store (snd (handle env create_tenant request w)) = store w) as Hview.
  { intros request w str d Hs Hd Hlt.
    destruct (handle_either env create_tenant request w) as [Hst|[Hst _]];
      [simpl view in Hst; rewrite Hst|done].
    destruct (create_tenant_view_store env request w)
      as [[Hsame _]|(sd & fid & rent & u0 & u1 & pw & u2 & cr & s1 & uid & t1
            & t2 & Hsd & _ & _ & _ & _ & _ & _ & Hfc & _)]; [done|].
    exfalso. rewrite Hs in Hsd. injection Hsd as <-.
    eapply (Tenant_full_clean_in_early s1 _ d); [| exact Hlt | exact Hfc].
    simpl. unfold Field.date_to_python. by rewrite Hd. }
  split; [exact Tenant_full_clean_in_early|]. split; [exact Hview|].
  intros request w Hs.
  apply (Hview request w "1999-01-01" (Py.Date 1999 1 1) Hs); reflexivity.
Qed.

(** ** Deleting a tenant *)

Lemma delete_tenant_view_store (k : Z) (request : Request) (w : World) :
  (store (snd (delete_tenant_view k request w)) = store w
   /\ no_success w (snd (delete_tenant_view k request w)))
  \/ exists t s1,
       tenants (store w) !! k = Some t
       /\ Tenant_db_delete k (store w) = Ok (tt, s1)
       /\ User_db_delete (t_user t) s1
          = Ok (tt, store (snd (delete_tenant_view k request w)))
       /\ fst (delete_tenant_view k request w)
          = Ok (RedirectTo "core:tenant_list")
       /\ one_success w (snd (delete_tenant_view k request w)).
Proof.
  wp_start (delete_tenant_view k request) w.
  unfold delete_tenant_view. wp_run; try no_success_leaf.
  all: right; repeat match goal with p : (_ * _)%type |- _ => destruct p end;
       repeat match goal with u : unit |- _ => destruct u end;
       unfold load in *; simpl in *.
  all: destruct (tenants (store w) !! k) as [t0|] eqn:Ht; [|discriminate].
  all: destruct (users (store w) !! t_user t0) as [u0|] eqn:Hu;
       simpl in *; simplify_eq.
  all: simpl in *; simplify_eq.
  all: destruct (flat_owned_by _ _ _); simplify_eq; simpl in *.
  all: rewrite Hu in *; simpl in *; simplify_eq; simpl in *; simplify_eq.
  all: eexists _, _; split; [reflexivity|]; split; [eassumption|];
       split; [eassumption|]; split; [reflexivity|]; eexists; reflexivity.
Qed.

(** C5. Creating a tenant and deleting a tenant are all-or-nothing.
    After [create_tenant] either the store is what it was and no success
    is reported, or the store has one new user and one new tenant of
    that user, is otherwise what it was, and the success is reported;
    after [delete_tenant] either the store is what it was and no success
    is reported, or the tenant and its user are both gone. Whatever fails
    on the way (the validation of the tenant after the user was saved, a
    refusal of the store at either write), the first case applies. *)
Theorem tenant_writes_are_atomic (env : Env) :
  (forall (request : Request) (w : World),
     let w' := snd (handle env create_tenant request w) in
     (store w' = store w /\ no_success w w')
     \/ exists uid kt urow trow,
          users (store w) !! uid = None /\ tenants (store w) !! kt = None
          /\ store w' =
               mkStore (<[uid := urow]> (users (store w)))
                       (societies (store w)) (flats (store w))
                       (<[kt := trow]> (tenants (store w)))
                       (bills (store w))
          /\ u_pk urow = Some uid /\ u_role urow = "TENANT"
          /\ t_pk trow = Some kt /\ t_user trow = uid
          /\ fst (handle env create_tenant request w)
             = Ok (RedirectTo "core:tenant_list")
          /\ one_success w w')
  /\ (forall (k : Z) (request : Request) (w : World),
        let w' := snd (handle env (delete_tenant k) request w) in
        (store w' = store w /\ no_success w w')
        \/ exists t,
             tenants (store w) !! k = Some t
             /\ tenants (store w') !! k = None
             /\ users (store w') !! t_user t = None
             /\ (forall i r, tenants (store w') !! i = Some r ->
                   tenants (store w) !! i = Some r /\ t_user r <> t_user t)
             /\ (forall i, i <> t_user t ->
                   users (store w') !! i = users (store w) !! i)
             /\ fst (handle env (delete_tenant k) request w)
                = Ok (RedirectTo "core:tenant_list")
             /\ one_success w w').
Proof.
  split.
  - intros request w w'. subst w'.
    destruct (handle_either env create_tenant request w)
      as [Hst|(Hst & Hn & _)]; [simpl view in Hst; rewrite Hst|by left].
    destruct (create_tenant_view_store env request w)
      as [|(sd & fid & rent & u0 & u1 & pw & u2 & cr & s1 & uid & t1 & t2
            & _ & Hrole & Hpk & Hsup & Hfc & Hsave & Huid & Htfc & Htsave
            & Hr & Hnote)];
      [by left|].
    right.
    destruct (User_full_clean_in_Ok _ _ _ _ Hfc) as (Hpk1 & _ & Hrole1 & _).
    apply User_db_save_Ok in Hsave as (ku & -> & Hku & ->).
    simpl in Huid. injection Huid as ->.
    destruct Hku as [Hku|[_ Hfresh]];
      [simpl in Hku; rewrite Hpk1, Hpk in Hku; discriminate Hku|].
    simpl in Hfresh.
    apply Tenant_full_clean_in_Ok in Htfc as (Htpk & Htu).
    apply Tenant_db_save_Ok in Htsave
      as (kt & Hkt & Hu2 & _ & _ & Hktf & _ & _ & Hs2).
    destruct Hktf as [Hktf|[_ Hktf]];
      [rewrite Htpk in Hktf; discriminate Hktf|].
    simpl in Hktf.
    eexists uid, kt, _, t2. split; [exact Hfresh|]. split; [exact Hktf|].
    split; [rewrite Hs2; reflexivity|].
    split; [reflexivity|]. split; [simpl; congruence|].
    split; [exact Hkt|]. simpl in Htu.
    split; [congruence|]. split; [exact Hr|exact Hnote].
  - intros k request w w'. subst w'.
    destruct (handle_either env (delete_tenant k) request w)
      as [Hst|(Hst & Hn & _)]; [simpl view in Hst; rewrite Hst|by left].
    destruct (delete_tenant_view_store k request w)
      as [|(t & s1 & Ht & Hd1 & Hd2 & Hr & Hnote)]; [by left|].
    right. exists t. split; [exact Ht|].
    unfold Tenant_db_delete in Hd1. injection Hd1 as <-.
    unfold User_db_delete in Hd2. injection Hd2 as Hd2. rewrite <- Hd2.
    simpl. split; [|split; [|split; [|split; [|split; [exact Hr|exact Hnote]]]]].
    + apply map_lookup_filter_None. left. apply lookup_delete_eq.
    + apply lookup_delete_eq.
    + intros i r Hi. apply map_lookup_filter_Some in Hi as [Hi Hne].
      simpl in Hne. split; [|done].
      rewrite lookup_delete_Some in Hi. tauto.
    + intros i Hi. by apply lookup_delete_ne.
Qed.

(** ** What every reachable store satisfies *)

Lemma consistent_empty : consistent empty_store.
Proof. repeat split; intros i; intros; simpl in *; simplify_map_eq. Qed.

Lemma same_bill_key_sym (x r : MaintenanceBill) :
  same_bill_key x r = same_bill_key r x.
Proof.
  unfold same_bill_key.
  rewrite (Z.eqb_sym (b_flat r)), (Z.eqb_sym (b_year r)),
    (String.eqb_sym (b_month r)). reflexivity.
Qed.

(** A store whose tenants and bills are among those of a consistent
    store (the bills up to their status), and which has the users its
    tenants need, is consistent. *)
Lemma consistent_shrink (s s' : Store) :
  consistent s ->
  (forall i t, tenants s' !! i = Some t ->
     tenants s !! i = Some t
     /\ (is_Some (users s !! t_user t) -> is_Some (users s' !! t_user t))) ->
  (forall i b, bills s' !! i = Some b ->
     exists b0, bills s !! i = Some b0 /\ b_flat b0 = b_flat b
                /\ b_month b0 = b_month b /\ b_year b0 = b_year b) ->
  consistent s'.
Proof.
  intros (Hu & He & Hb) Hsub Hbills. repeat split.
  - intros i j t1 t2 H1 H2 Heq.
    apply Hsub in H1 as [H1 _]. apply Hsub in H2 as [H2 _]. eauto.
  - intros i t Hi. destruct (Hsub i t Hi) as [Hi' Hk]. eauto.
  - intros i j b1 b2 H1 H2 Hk.
    destruct (Hbills i b1 H1) as (c1 & G1 & F1 & M1 & Y1).
    destruct (Hbills j b2 H2) as (c2 & G2 & F2 & M2 & Y2).
    apply (Hb i j c1 c2 G1 G2). unfold same_bill_key in *.
    rewrite F1, M1, Y1, F2, M2, Y2. exact Hk.
Qed.

Ltac same_tenants := intros i t Hi; split; [exact Hi|]; intros Hs; exact Hs.
Ltac same_bills := intros i b Hb; exists b; split; [exact Hb|]; done.
Ltac fewer_bills :=
  let Hb := fresh "Hb" in
  intros i b Hb; simpl in Hb;
  first [apply map_lookup_filter_Some in Hb as [Hb _]
        |apply lookup_delete_Some in Hb as [_ Hb]];
  exists b; split; [exact Hb|]; done.

Lemma User_db_save_consistent (u : User) (r : User * bool) (s s' : Store) :
  User_db_save u s = Ok (r, s') -> consistent s -> consistent s'.
Proof.
  destruct r as [u2 c]. intros H Hc.
  apply User_db_save_Ok in H as (k & _ & _ & ->).
  apply (consistent_shrink s); [done| |same_bills].
  simpl. intros i t Hi. split; [done|].
  intros Hs. destruct (decide (k = t_user t)) as [->|Hne].
  - rewrite lookup_insert_eq. by eexists.
  - by rewrite lookup_insert_ne.
Qed.

Lemma User_db_delete_consistent (k : Z) (r : unit) (s s' : Store) :
  User_db_delete k s = Ok (r, s') -> consistent s -> consistent s'.
Proof.
  unfold User_db_delete. intros [= _ <-] Hc.
  apply (consistent_shrink s); [done| |same_bills].
  simpl. intros i t Hi.
  apply map_lookup_filter_Some in Hi as [Hi Hne]. simpl in Hne.
  split; [done|]. by rewrite lookup_delete_ne.
Qed.

Lemma Society_db_save_consistent (x r : Society) (s s' : Store) :
  Society_db_save x s = Ok (r, s') -> consistent s -> consistent s'.
Proof.
  unfold Society_db_save. intros [= _ <-] Hc.
  apply (consistent_shrink s); [done|same_tenants|same_bills].
Qed.

Lemma Society_db_delete_consistent (k : Z) (r : unit) (s s' : Store) :
  Society_db_delete k s = Ok (r, s') -> consistent s -> consistent s'.
Proof.
  unfold Society_db_delete. intros [= _ <-] Hc.
  apply (consistent_shrink s); [done| |fewer_bills].
  simpl. intros i t Hi.
  by apply map_lookup_filter_Some in Hi as [Hi _].
Qed.

Lemma Flat_db_save_consistent (x r : Flat) (s s' : Store) :
  Flat_db_save x s = Ok (r, s') -> consistent s -> consistent s'.
Proof.
  unfold Flat_db_save. destruct (_ || _); [discriminate|].
  intros [= _ <-] Hc.
  apply (consistent_shrink s); [done|same_tenants|same_bills].
Qed.

Lemma Flat_db_delete_consistent (k : Z) (r : unit) (s s' : Store) :
  Flat_db_delete k s = Ok (r, s') -> consistent s -> consistent s'.
Proof.
  unfold Flat_db_delete. intros [= _ <-] Hc.
  apply (consistent_shrink s); [done| |fewer_bills].
  simpl. intros i t Hi.
  by apply map_lookup_filter_Some in Hi as [Hi _].
Qed.

Lemma Tenant_db_save_consistent (x r : Tenant) (s s' : Store) :
  Tenant_db_save x s = Ok (r, s') -> consistent s -> consistent s'.
Proof.
  intros H (Hu & He & Hb).
  assert (is_Some (users s !! t_user x)) as Huser.
  { unfold Tenant_db_save in H.
    destruct (Field.date_to_python _); [|discriminate].
    destruct (exists_other _ _ _); [discriminate|]. simpl in H.
    destruct (fk_ok _ _ (users s)) eqn:Eu; [|discriminate].
    unfold fk_ok in Eu.
    apply orb_true_iff in Eu as [Eu|Eu]; apply bool_decide_eq_true_1 in Eu;
      [|done].
    destruct (tenants s !! _) as [old|] eqn:Eold; [|discriminate].
    injection Eu as <-. eauto. }
  apply Tenant_db_save_Ok in H as (k & _ & Hux & _ & _ & _ & Huniq & _ & ->).
  split; [|split; [|exact Hb]].
  - intros i j t1 t2 H1 H2 Heq. simpl in H1, H2.
    destruct (decide (i = k)) as [->|Hi]; destruct (decide (j = k)) as [->|Hj];
      [done| | |].
    + rewrite lookup_insert_eq in H1. rewrite lookup_insert_ne in H2 by done.
      injection H1 as <-. symmetry. apply (Huniq j t2 H2). congruence.
    + rewrite lookup_insert_eq in H2. rewrite lookup_insert_ne in H1 by done.
      injection H2 as <-. apply (Huniq i t1 H1). congruence.
    + rewrite lookup_insert_ne in H1, H2 by done. eauto.
  - intros i t Hi. simpl in Hi |- *.
    destruct (decide (i = k)) as [->|Hne].
    + rewrite lookup_insert_eq in Hi. injection Hi as <-. by rewrite Hux.
    + rewrite lookup_insert_ne in Hi by done. eauto.
Qed.

Lemma Tenant_db_delete_consistent (k : Z) (r : unit) (s s' : Store) :
  Tenant_db_delete k s = Ok (r, s') -> consistent s -> consistent s'.
Proof.
  unfold Tenant_db_delete. intros [= _ <-] Hc.
  apply (consistent_shrink s); [done| |same_bills].
  simpl. intros i t Hi.
  apply lookup_delete_Some in Hi as [_ Hi]. done.
Qed.

Lemma Bill_db_save_consistent (x r : MaintenanceBill) (s s' : Store) :
  Bill_db_save x s = Ok (r, s') -> consistent s -> consistent s'.
Proof.
  unfold Bill_db_save. intros H (Hu & He & Hb).
  destruct (exists_other _ _ _) eqn:Eo; [discriminate|]. simpl in H.
  destruct (negb _); [discriminate|]. injection H as _ <-.
  rewrite exists_other_false in Eo.
  set (k := match b_pk x with Some k => k | None => next_pk (bills s) end).
  assert (forall i b, bills s !! i = Some b ->
            same_bill_key x b = true -> i = k) as Huniq.
  { intros i b Hi Hk. specialize (Eo i b Hi Hk). subst k.
    by rewrite Eo. }
  split; [exact Hu|]. split; [exact He|].
  intros i j b1 b2 H1 H2 Hk. simpl in H1, H2.
  destruct (decide (i = k)) as [->|Hi]; destruct (decide (j = k)) as [->|Hj];
    [done| | |].
  - rewrite lookup_insert_eq in H1. rewrite lookup_insert_ne in H2 by done.
    injection H1 as <-. symmetry. apply (Huniq j b2 H2). exact Hk.
  - rewrite lookup_insert_eq in H2. rewrite lookup_insert_ne in H1 by done.
    injection H2 as <-. apply (Huniq i b1 H1).
    rewrite same_bill_key_sym. exact Hk.
  - rewrite lookup_insert_ne in H1, H2 by done. eauto.
Qed.

Lemma Bill_db_delete_consistent (k : Z) (r : unit) (s s' : Store) :
  Bill_db_delete k s = Ok (r, s') -> consistent s -> consistent s'.
Proof.
  unfold Bill_db_delete. intros [= _ <-] Hc.
  apply (consistent_shrink s); [done|same_tenants|fewer_bills].
Qed.

Lemma mark_bills_consistent (status : string) (selected : Z -> bool)
      (s : Store) :
  consistent s -> consistent (mark_bills status selected s).
Proof.
  intros Hc. apply (consistent_shrink s); [done|same_tenants|].
  intros i b Hb. simpl in Hb. rewrite map_lookup_imap in Hb.
  destruct (bills s !! i) as [b0|]; [|discriminate]. simpl in Hb.
  injection Hb as <-. exists b0. split; [done|].
  destruct (selected i); done.
Qed.

Create HintDb consistency.
#[export] Hint Resolve User_db_save_consistent User_db_delete_consistent
  Society_db_save_consistent Society_db_delete_consistent
  Flat_db_save_consistent Flat_db_delete_consistent
  Tenant_db_save_consistent Tenant_db_delete_consistent
  Bill_db_save_consistent Bill_db_delete_consistent : consistency.

Ltac keep_consistent :=
  wp_run; simpl in *; eauto 6 with consistency.

Lemma view_consistent (env : Env) (h : Handler) (request : Request)
      (w : World) :
  consistent (store w) -> consistent (store (snd (view env h request w))).
Proof.
  intros Hc.
  wp_start (view env h request) w.
  destruct h; simpl view.
  all: unfold admin_dashboard_view, owner_list_view, create_owner_view,
    update_owner_view, delete_owner_view, toggle_owner_status_view,
    create_society_view, update_society_view, delete_society_view,
    society_list_view, flat_list_view, create_flat_view, update_flat_view,
    delete_flat_view, bill_list_view, create_bill_view,
    toggle_bill_status_view, update_bill_view, delete_bill_view,
    owner_dashboard_view, owner_flats_view, owner_bills_view,
    create_tenant_view, tenant_list_view, toggle_tenant_status_view,
    update_tenant_view, delete_tenant_view, tenant_dashboard_view,
    tenant_flat_view.
  all: keep_consistent.
Qed.

Lemma handle_consistent (env : Env) (h : Handler) (request : Request)
      (w : World) :
  consistent (store w) -> consistent (store (snd (handle env h request w))).
Proof.
  intros Hc. destruct (handle_either env h request w) as [->|[-> _]];
    [by apply view_consistent|done].
Qed.

Lemma admin_site_write_consistent (s s' : Store) :
  admin_site_write s s' -> consistent s -> consistent s'.
Proof.
  intros [] Hc; eauto with consistency.
  subst s'. by apply mark_bills_consistent.
Qed.

Lemma reachable_consistent (s : Store) : reachable s -> consistent s.
Proof.
  induction 1 as [|env h request w _ IH|s s' _ IH Hw];
    [apply consistent_empty|by apply handle_consistent
    |by apply (admin_site_write_consistent s)].
Qed.

(** In a reachable store a bill is the only one of its flat, month and
    year, and every tenant's user exists. *)
Lemma reachable_bill_alone (s : Store) (k : Z) (bill : MaintenanceBill) :
  reachable s -> bills s !! k = Some bill ->
  forall i r, bills s !! i = Some r -> same_bill_key bill r = true -> i = k.
Proof.
  intros Hr Hb i r Hi Hk.
  destruct (reachable_consistent s Hr) as (_ & _ & Hbills).
  symmetry. exact (Hbills k i bill r Hb Hi Hk).
Qed.

Lemma reachable_tenant_users_exist (s : Store) :
  reachable s -> tenant_users_exist s.
Proof. intros Hr. by destruct (reachable_consistent s Hr) as (_ & He & _). Qed.

(** C3. In every reachable store a user has at most one active tenant
    record: two active tenant rows of the same user are the same row.
    (The store holds more: a user has at most one tenant row at all.) *)
Theorem at_most_one_active_tenant (s : Store) (uid i j : Z) (t1 t2 : Tenant) :
  reachable s ->
  tenants s !! i = Some t1 -> tenants s !! j = Some t2 ->
  t_user t1 = uid -> t_user t2 = uid ->
  t_is_active t1 = true -> t_is_active t2 = true ->
  i = j.
Proof.
  intros Hr H1 H2 Hu1 Hu2 _ _.
  destruct (reachable_consistent s Hr) as (Huniq & _ & _).
  apply (Huniq i j t1 t2 H1 H2). congruence.
Qed.

(** ** How a handler answers *)

Lemma wp_get_object_or_404 {A} `{Model A} (k : Z) (cond : Store -> A -> bool)
      (Q : Result A -> World -> Prop) (w : World) :
  (forall row, table (store w) !! k = Some row ->
     cond (store w) (set_pk (Some k) row) = true ->
     Q (Ok (set_pk (Some k) row)) w) ->
  (table (store w) !! k = None
   \/ (exists row, table (store w) !! k = Some row
         /\ cond (store w) (set_pk (Some k) row) = false) ->
   Q (Raise Http404) w) ->
  wp (get_object_or_404 k cond) Q w.
Proof.
  intros Hok Hmiss. unfold wp, get_object_or_404, query, load. simpl.
  destruct (table (store w) !! k) as [row|] eqn:E; simpl.
  - destruct (cond _ _) eqn:Ec; [by apply Hok|].
    apply Hmiss. right. by exists row.
  - apply Hmiss. by left.
Qed.

Ltac answer_ok :=
  unfold answer; cbn [submits may_render];
  repeat match goal with H : is_post _ = _ |- _ => rewrite H end;
  eexists; (split; [reflexivity|]); split;
  [first [intros _; exact I | intros Hmr; discriminate Hmr]
  |cbn [notices add_notice add_mail set_store tick set_faults];
   first [reflexivity | eexists; reflexivity]].

Lemma answered_found (h : Handler) (request : Request) (w : World) r w' :
  found h request (store w) = true -> answer h request w r w' ->
  answered h request w r w'.
Proof. unfold answered. by intros ->. Qed.

Lemma answered_missed (h : Handler) (request : Request) (w : World) :
  found h request (store w) = false ->
  answered h request w (Raise Http404) w.
Proof. unfold answered. by intros ->. Qed.

Lemma view_answered (env : Env) (h : Handler) (request : Request) (w : World)
      (u : User) :
  user request = Some u -> tenant_users_exist (store w) ->
  wp (view env h request) (answered h request w) w.
Proof.
  intros Hu Hex.
  destruct h; simpl view.
  all: unfold admin_dashboard_view, owner_list_view, create_owner_view,
    update_owner_view, delete_owner_view, toggle_owner_status_view,
    create_society_view, update_society_view, delete_society_view,
    society_list_view, flat_list_view, create_flat_view, update_flat_view,
    delete_flat_view, bill_list_view, create_bill_view,
    toggle_bill_status_view, update_bill_view, delete_bill_view,
    owner_dashboard_view, owner_flats_view, owner_bills_view,
    create_tenant_view, tenant_list_view, toggle_tenant_status_view,
    update_tenant_view, delete_tenant_view, tenant_dashboard_view,
    tenant_flat_view.
  (* the pages and the creation forms look nothing up first *)
  all: try (eapply wp_mono; [intros r w'; apply answered_found; reflexivity|];
            wp_run; answer_ok).
  (* owners: the row must be an OWNER *)
  1-3: apply wp_bind, wp_get_object_or_404;
    [intros row Hrow Hcond; unfold is_owner_role in Hcond;
     simpl in Hrow, Hcond;
     eapply wp_mono;
     [intros r w'; apply answered_found; unfold found; rewrite Hrow;
      exact Hcond|];
     wp_run; answer_ok
    |intros Hmiss; apply answered_missed; unfold found;
     destruct Hmiss as [E|(row & E & Ec)]; simpl in E; rewrite E;
     [reflexivity|exact Ec]].
  (* societies, flats, bills: any row *)
  1-7: apply wp_bind, wp_get_object_or_404;
    [intros row Hrow _; simpl in Hrow;
     eapply wp_mono;
     [intros r w'; apply answered_found; unfold found; rewrite Hrow;
      apply bool_decide_eq_true_2; by eexists|];
     wp_run; answer_ok
    |intros Hmiss; apply answered_missed; unfold found;
     destruct Hmiss as [E|(row & E & Ec)]; simpl in E;
     [rewrite E; apply bool_decide_eq_false_2; by intros [? ?]
     |discriminate Ec]].
  (* tenants of the owner who asks *)
  1-2: unfold request_user; rewrite Hu;
    apply wp_bind, wp_ret, wp_bind, wp_get_object_or_404;
    [intros row Hrow Hcond; simpl in Hrow; unfold flat_owned_by in Hcond;
     simpl in Hcond;
     eapply wp_mono;
     [intros r w'; apply answered_found; unfold found, tenant_found;
      rewrite Hu, Hrow; exact Hcond|];
     wp_run; answer_ok
    |intros Hmiss; apply answered_missed; unfold found, tenant_found;
     rewrite Hu;
     destruct Hmiss as [E|(row & E & Ec)]; simpl in E; rewrite E;
     [reflexivity|exact Ec]].
  (* delete_tenant: the lookup is made on a POST only, and the user of
     the tenant is fetched before the guarded block *)
  destruct (is_post request) eqn:Hpost.
  - assert (forall row, tenants (store w) !! pk0 = Some row ->
              flat_owned_by u (store w) (t_set_pk (Some pk0) row)
              = tenant_found request (store w) pk0) as Hsame.
    { intros row Hrow. unfold tenant_found. by rewrite Hu, Hrow. }
    destruct (tenant_found request (store w) pk0) eqn:Hf.
    + eapply wp_mono;
        [intros r w'; apply answered_found; unfold found;
         by rewrite Hpost, Hf|].
      apply wp_bind. unfold request_user. rewrite Hu.
      apply wp_bind, wp_ret, wp_bind, wp_get_object_or_404.
      * intros row Hrow _. simpl in Hrow.
        destruct (Hex pk0 row Hrow) as [urow Hurow].
        apply wp_bind. unfold related, objects_get. apply wp_query.
        unfold load. simpl. rewrite Hurow. simpl.
        wp_run; answer_ok.
      * intros Hmiss. exfalso.
        destruct Hmiss as [E|(row & E & Ec)]; simpl in E.
        -- unfold tenant_found in Hf. rewrite Hu, E in Hf. discriminate Hf.
        -- specialize (Hsame row E). unfold flat_owned_by in Ec, Hsame.
           simpl in Ec, Hsame. congruence.
    + apply wp_bind. unfold request_user. rewrite Hu.
      apply wp_bind, wp_ret, wp_bind, wp_get_object_or_404.
      * intros row Hrow Hcond. simpl in Hrow.
        specialize (Hsame row Hrow). unfold flat_owned_by in Hcond, Hsame.
        simpl in Hcond, Hsame. congruence.
      * intros _. apply answered_missed. unfold found.
        by rewrite Hpost, Hf.
  - eapply wp_mono;
      [intros r w'; apply answered_found; unfold found; by rewrite Hpost|].
    wp_run; answer_ok.
Qed.

(** C2 (amended). An authorized request to a role-gated handler, on a
    store whose tenants all have their user, is answered in one of two
    ways. When the record named by the URL is not found by the handler's
    leading [get_object_or_404], the handler raises [Http404] and nothing
    else happens. Otherwise the handler returns a response, whatever
    fails on the way (a missing field, malformed input, an inner lookup,
    validation, an integrity conflict, any refusal of the store): a
    redirect, or for the pages and the four creation forms possibly a
    rendered page; and exactly one notice is queued when the request
    makes the handler act, none when it does not. *)
Theorem handlers_answer_every_failure (env : Env) (h : Handler)
        (request : Request) (w : World) (u : User) :
  user request = Some u -> u_role u = required_role h ->
  tenant_users_exist (store w) ->
  answered h request w (fst (handle env h request w))
                       (snd (handle env h request w)).
Proof.
  intros Hu Hr Hex. rewrite (gate_pass env h request u Hu Hr).
  exact (view_answered env h request w u Hu Hex).
Qed.

(** ** Every handler keeps what the store's writes keep *)

Section Preserved.

Context (P : Store -> Prop).
Hypothesis user_saved : forall u r s s',
  User_db_save u s = Ok (r, s') -> P s -> P s'.
Hypothesis user_deleted : forall k r s s',
  User_db_delete k s = Ok (r, s') -> P s -> P s'.
Hypothesis society_saved : forall x r s s',
  Society_db_save x s = Ok (r, s') -> P s -> P s'.
Hypothesis society_deleted : forall k r s s',
  Society_db_delete k s = Ok (r, s') -> P s -> P s'.
Hypothesis flat_saved : forall x r s s',
  Flat_db_save x s = Ok (r, s') -> P s -> P s'.
Hypothesis flat_deleted : forall k r s s',
  Flat_db_delete k s = Ok (r, s') -> P s -> P s'.
Hypothesis tenant_saved : forall x r s s',
  Tenant_db_save x s = Ok (r, s') -> P s -> P s'.
Hypothesis tenant_deleted : forall k r s s',
  Tenant_db_delete k s = Ok (r, s') -> P s -> P s'.
Hypothesis bill_saved : forall x r s s',
  Bill_db_save x s = Ok (r, s') -> P s -> P s'.
Hypothesis bill_deleted : forall k r s s',
  Bill_db_delete k s = Ok (r, s') -> P s -> P s'.

Lemma view_preserves (env : Env) (h : Handler) (request : Request)
      (w : World) :
  P (store w) -> P (store (snd (view env h request w))).
Proof.
  intros Hc.
  wp_start (view env h request) w.
  destruct h; simpl view.
  all: unfold admin_dashboard_view, owner_list_view, create_owner_view,
    update_owner_view, delete_owner_view, toggle_owner_status_view,
    create_society_view, update_society_view, delete_society_view,
    society_list_view, flat_list_view, create_flat_view, update_flat_view,
    delete_flat_view, bill_list_view, create_bill_view,
    toggle_bill_status_view, update_bill_view, delete_bill_view,
    owner_dashboard_view, owner_flats_view, owner_bills_view,
    create_tenant_view, tenant_list_view, toggle_tenant_status_view,
    update_tenant_view, delete_tenant_view, tenant_dashboard_view,
    tenant_flat_view.
  all: wp_run; simpl in *; eauto 6.
Qed.

Lemma handle_preserves (env : Env) (h : Handler) (request : Request)
      (w : World) :
  P (store w) -> P (store (snd (handle env h request w))).
Proof.
  intros Hc. destruct (handle_either env h request w) as [->|[-> _]];
    [by apply view_preserves|done].
Qed.

Hypothesis empty_holds : P empty_store.
Hypothesis bills_marked : forall status selected s,
  P s -> P (mark_bills status selected s).

Lemma reachable_preserved (s : Store) : reachable s -> P s.
Proof.
  induction 1 as [|env h request w _ IH|s s' _ IH Hw].
  - exact empty_holds.
  - by apply handle_preserves.
  - destruct Hw; eauto. subst s'. by apply bills_marked.
Qed.

End Preserved.

(** ** The schema holds in every reachable store *)

Lemma schema_holds_empty : schema_holds empty_store.
Proof.
  split; [apply consistent_empty|].
  repeat split; intros i; intros; simpl in *; simplify_map_eq.
Qed.

Lemma fk_ok_exists {A} (old : option Z) (k : Z) (m : gmap Z A) :
  fk_ok old k m = true -> (old = Some k -> is_Some (m !! k)) ->
  is_Some (m !! k).
Proof.
  unfold fk_ok. intros H Hold.
  apply orb_true_iff in H as [H|H]; apply bool_decide_eq_true_1 in H; auto.
Qed.

Lemma is_Some_insert {A} (m : gmap Z A) (k i : Z) (v : A) :
  is_Some (m !! i) -> is_Some (<[k := v]> m !! i).
Proof.
  intros H. destruct (decide (k = i)) as [->|Hne].
  - rewrite lookup_insert_eq. by eexists.
  - by rewrite lookup_insert_ne.
Qed.

Lemma User_db_save_schema (u : User) (r : User * bool) (s s' : Store) :
  User_db_save u s = Ok (r, s') -> schema_holds s -> schema_holds s'.
Proof.
  intros H (Hc & Hfs & Hfo & Htf & Hbf & Hun & Hfk).
  split; [by eapply User_db_save_consistent|].
  unfold User_db_save in H.
  destruct (exists_other _ _ _) eqn:E1; [discriminate|].
  destruct (exists_other _ _ (users s)) eqn:E2 in H; [discriminate|].
  simpl in H. injection H as _ <-.
  rewrite exists_other_false in E1, E2.
  set (k := match u_pk u with Some k => k | None => next_pk (users s) end).
  assert (forall j v, users s !! j = Some v ->
            u_username v = u_username u \/ u_email v = u_email u -> j = k)
    as Hk.
  { intros j v Hj [Hn|Hn].
    - specialize (E1 j v Hj). rewrite Hn, String.eqb_refl in E1.
      specialize (E1 eq_refl). subst k. by rewrite E1.
    - specialize (E2 j v Hj). rewrite Hn, String.eqb_refl in E2.
      specialize (E2 eq_refl). subst k. by rewrite E2. }
  repeat split; try done; red; simpl.
  - intros i f o Hi Ho. apply is_Some_insert. eauto.
  - intros i j u1 u2 H1 H2 Heq.
    destruct (decide (i = k)) as [->|Hi]; destruct (decide (j = k)) as [->|Hj];
      [done| | |].
    + rewrite lookup_insert_eq in H1. rewrite lookup_insert_ne in H2 by done.
      injection H1 as <-. simpl in Heq. symmetry. apply (Hk j u2 H2).
      destruct Heq; auto.
    + rewrite lookup_insert_eq in H2. rewrite lookup_insert_ne in H1 by done.
      injection H2 as <-. simpl in Heq. apply (Hk i u1 H1). exact Heq.
    + rewrite lookup_insert_ne in H1, H2 by done. eauto.
Qed.

Lemma User_db_delete_schema (k : Z) (r : unit) (s s' : Store) :
  User_db_delete k s = Ok (r, s') -> schema_holds s -> schema_holds s'.
Proof.
  intros H (Hc & Hfs & Hfo & Htf & Hbf & Hun & Hfk).
  split; [by eapply User_db_delete_consistent|].
  unfold User_db_delete in H. injection H as _ <-.
  assert (forall i f', ((fun f => if bool_decide (f_owner f = Some k)
                                  then f_set_owner None f else f)
                        <$> flats s) !! i = Some f' ->
            exists f, flats s !! i = Some f
              /\ f_society f' = f_society f
              /\ f_flat_number f' = f_flat_number f
              /\ (forall o, f_owner f' = Some o -> f_owner f = Some o /\ o <> k))
    as Hflat.
  { intros i f' Hi. apply lookup_fmap_Some in Hi as (f & <- & Hi).
    exists f. split; [done|].
    destruct (bool_decide (f_owner f = Some k)) eqn:E; simpl.
    - repeat split; discriminate.
    - apply bool_decide_eq_false_1 in E. repeat split; [done|].
      congruence. }
  repeat split; red; simpl.
  - intros i f' Hi. destruct (Hflat i f' Hi) as (f & Hf & -> & _). eauto.
  - intros i f' o Hi Ho. destruct (Hflat i f' Hi) as (f & Hf & _ & _ & Hown).
    destruct (Hown o Ho) as [Ho' Hne].
    rewrite lookup_delete_ne by done. eauto.
  - intros i t Hi. apply map_lookup_filter_Some in Hi as [Hi _].
    rewrite lookup_fmap. destruct (Htf i t Hi) as [f ->]. by eexists.
  - intros i b Hi.
    rewrite lookup_fmap. destruct (Hbf i b Hi) as [f ->]. by eexists.
  - intros i j u1 u2 H1 H2. apply lookup_delete_Some in H1 as [_ H1].
    apply lookup_delete_Some in H2 as [_ H2]. eauto.
  - intros i j f1 f2 H1 H2.
    destruct (Hflat i f1 H1) as (g1 & G1 & -> & -> & _).
    destruct (Hflat j f2 H2) as (g2 & G2 & -> & -> & _). eauto.
Qed.

Lemma Society_db_save_schema (x r : Society) (s s' : Store) :
  Society_db_save x s = Ok (r, s') -> schema_holds s -> schema_holds s'.
Proof.
  intros H (Hc & Hfs & Hfo & Htf & Hbf & Hun & Hfk).
  split; [by eapply Society_db_save_consistent|].
  unfold Society_db_save in H. injection H as _ <-.
  repeat split; try done; red; simpl.
  intros i f Hi. apply is_Some_insert. eauto.
Qed.

Lemma Society_db_delete_schema (k : Z) (r : unit) (s s' : Store) :
  Society_db_delete k s = Ok (r, s') -> schema_holds s -> schema_holds s'.
Proof.
  intros H (Hc & Hfs & Hfo & Htf & Hbf & Hun & Hfk).
  split; [by eapply Society_db_delete_consistent|].
  unfold Society_db_delete in H. injection H as _ <-.
  repeat split; red; simpl.
  - intros i f Hi. apply map_lookup_filter_Some in Hi as [Hi Hne].
    simpl in Hne. rewrite lookup_delete_ne by done. eauto.
  - intros i f o Hi. apply map_lookup_filter_Some in Hi as [Hi _]. eauto.
  - intros i t Hi. apply map_lookup_filter_Some in Hi as [Hi Hne].
    simpl in Hne. destruct (Htf i t Hi) as [f Hf]. exists f.
    apply map_lookup_filter_Some. split; [done|]. simpl.
    unfold society_of_flat in Hne. rewrite Hf in Hne. simpl in Hne.
    congruence.
  - intros i b Hi. apply map_lookup_filter_Some in Hi as [Hi Hne].
    simpl in Hne. destruct (Hbf i b Hi) as [f Hf]. exists f.
    apply map_lookup_filter_Some. split; [done|]. simpl.
    unfold society_of_flat in Hne. rewrite Hf in Hne. simpl in Hne.
    congruence.
  - done.
  - intros i j f1 f2 H1 H2. apply map_lookup_filter_Some in H1 as [H1 _].
    apply map_lookup_filter_Some in H2 as [H2 _]. eauto.
Qed.

Lemma same_flat_key_true (x r : Flat) :
  same_flat_key x r = true
  <-> f_society r = f_society x /\ f_flat_number r = f_flat_number x.
Proof.
  unfold same_flat_key. rewrite andb_true_iff, Z.eqb_eq, String.eqb_eq. done.
Qed.

Lemma Flat_db_save_schema (x r : Flat) (s s' : Store) :
  Flat_db_save x s = Ok (r, s') -> schema_holds s -> schema_holds s'.
Proof.
  intros H (Hc & Hfs & Hfo & Htf & Hbf & Hun & Hfk).
  split; [by eapply Flat_db_save_consistent|].
  unfold Flat_db_save in H.
  set (k := match f_pk x with Some k => k | None => next_pk (flats s) end) in *.
  destruct (exists_other _ _ _) eqn:E1; [discriminate|]. simpl in H.
  destruct (fk_ok _ _ (societies s)) eqn:E2; [|discriminate]. simpl in H.
  destruct (match f_owner x with Some o => _ | None => true end) eqn:E3;
    [|discriminate].
  simpl in H. injection H as _ <-.
  rewrite exists_other_false in E1.
  assert (forall j g, flats s !! j = Some g ->
            f_society g = f_society x -> f_flat_number g = f_flat_number x ->
            j = k) as Hk.
  { intros j g Hj Hso Hnu.
    assert (f_pk x = Some j) as Hpk
      by (apply (E1 j g Hj); by apply same_flat_key_true).
    subst k. by rewrite Hpk. }
  repeat split; red; simpl.
  - intros i f Hi. destruct (decide (i = k)) as [->|Hne].
    + rewrite lookup_insert_eq in Hi. injection Hi as <-. simpl.
      apply (fk_ok_exists _ _ _ E2).
      destruct (flats s !! k) as [old|] eqn:Hold; [|discriminate].
      simpl. intros [= <-]. eauto.
    + rewrite lookup_insert_ne in Hi by done. eauto.
  - intros i f o Hi Ho. destruct (decide (i = k)) as [->|Hne].
    + rewrite lookup_insert_eq in Hi. injection Hi as <-. simpl in Ho.
      rewrite Ho in E3. apply (fk_ok_exists _ _ _ E3).
      destruct (flats s !! k) as [old|] eqn:Hold; [|discriminate].
      simpl. intros Hoo. eauto.
    + rewrite lookup_insert_ne in Hi by done. eauto.
  - intros i t Hi. apply is_Some_insert. eauto.
  - intros i b Hi. apply is_Some_insert. eauto.
  - done.
  - intros i j f1 f2 H1 H2 Hso Hnu.
    destruct (decide (i = k)) as [->|Hi]; destruct (decide (j = k)) as [->|Hj];
      [done| | |].
    + rewrite lookup_insert_eq in H1. rewrite lookup_insert_ne in H2 by done.
      injection H1 as <-. simpl in *. symmetry. by apply (Hk j f2 H2).
    + rewrite lookup_insert_eq in H2. rewrite lookup_insert_ne in H1 by done.
      injection H2 as <-. simpl in *. by apply (Hk i f1 H1).
    + rewrite lookup_insert_ne in H1, H2 by done. eauto.
Qed.

Lemma Flat_db_delete_schema (k : Z) (r : unit) (s s' : Store) :
  Flat_db_delete k s = Ok (r, s') -> schema_holds s -> schema_holds s'.
Proof.
  intros H (Hc & Hfs & Hfo & Htf & Hbf & Hun & Hfk).
  split; [by eapply Flat_db_delete_consistent|].
  unfold Flat_db_delete in H. injection H as _ <-.
  repeat split; red; simpl.
  - intros i f Hi. apply lookup_delete_Some in Hi as [_ Hi]. eauto.
  - intros i f o Hi. apply lookup_delete_Some in Hi as [_ Hi]. eauto.
  - intros i t Hi. apply map_lookup_filter_Some in Hi as [Hi Hne].
    simpl in Hne. rewrite lookup_delete_ne by done. eauto.
  - intros i b Hi. apply map_lookup_filter_Some in Hi as [Hi Hne].
    simpl in Hne. rewrite lookup_delete_ne by done. eauto.
  - done.
  - intros i j f1 f2 H1 H2. apply lookup_delete_Some in H1 as [_ H1].
    apply lookup_delete_Some in H2 as [_ H2]. eauto.
Qed.

Lemma Tenant_db_save_schema (x r : Tenant) (s s' : Store) :
  Tenant_db_save x s = Ok (r, s') -> schema_holds s -> schema_holds s'.
Proof.
  intros H (Hc & Hfs & Hfo & Htf & Hbf & Hun & Hfk).
  split; [by eapply Tenant_db_save_consistent|].
  unfold Tenant_db_save in H.
  destruct (Field.date_to_python _) as [d|]; [|discriminate].
  set (k := match t_pk x with Some k => k | None => next_pk (tenants s) end) in *.
  destruct (exists_other _ _ _); [discriminate|]. simpl in H.
  destruct (fk_ok _ _ (users s)); [|discriminate]. simpl in H.
  destruct (fk_ok _ _ (flats s)) eqn:E3; [|discriminate]. simpl in H.
  injection H as _ <-.
  repeat split; try done; red; simpl.
  intros i t Hi. destruct (decide (i = k)) as [->|Hne].
  - rewrite lookup_insert_eq in Hi. injection Hi as <-. simpl.
    apply (fk_ok_exists _ _ _ E3).
    destruct (tenants s !! k) as [old|] eqn:Hold; [|discriminate].
    simpl. intros [= <-]. eauto.
  - rewrite lookup_insert_ne in Hi by done. eauto.
Qed.

Lemma Tenant_db_delete_schema (k : Z) (r : unit) (s s' : Store) :
  Tenant_db_delete k s = Ok (r, s') -> schema_holds s -> schema_holds s'.
Proof.
  intros H (Hc & Hfs & Hfo & Htf & Hbf & Hun & Hfk).
  split; [by eapply Tenant_db_delete_consistent|].
  unfold Tenant_db_delete in H. injection H as _ <-.
  repeat split; try done; red; simpl.
  intros i t Hi. apply lookup_delete_Some in Hi as [_ Hi]. eauto.
Qed.

Lemma Bill_db_save_schema (x r : MaintenanceBill) (s s' : Store) :
  Bill_db_save x s = Ok (r, s') -> schema_holds s -> schema_holds s'.
Proof.
  intros H (Hc & Hfs & Hfo & Htf & Hbf & Hun & Hfk).
  split; [by eapply Bill_db_save_consistent|].
  unfold Bill_db_save in H.
  set (k := match b_pk x with Some k => k | None => next_pk (bills s) end) in *.
  destruct (exists_other _ _ _); [discriminate|]. simpl in H.
  destruct (fk_ok _ _ (flats s)) eqn:E3; [|discriminate]. simpl in H.
  injection H as _ <-.
  repeat split; try done; red; simpl.
  intros i b Hi. destruct (decide (i = k)) as [->|Hne].
  - rewrite lookup_insert_eq in Hi. injection Hi as <-. simpl.
    apply (fk_ok_exists _ _ _ E3).
    destruct (bills s !! k) as [old|] eqn:Hold; [|discriminate].
    simpl. intros [= <-]. eauto.
  - rewrite lookup_insert_ne in Hi by done. eauto.
Qed.

Lemma Bill_db_delete_schema (k : Z) (r : unit) (s s' : Store) :
  Bill_db_delete k s = Ok (r, s') -> schema_holds s -> schema_holds s'.
Proof.
  intros H (Hc & Hfs & Hfo & Htf & Hbf & Hun & Hfk).
  split; [by eapply Bill_db_delete_consistent|].
  unfold Bill_db_delete in H. injection H as _ <-.
  repeat split; try done; red; simpl.
  intros i b Hi. apply lookup_delete_Some in Hi as [_ Hi]. eauto.
Qed.

Lemma mark_bills_schema (status : string) (selected : Z -> bool) (s : Store) :
  schema_holds s -> schema_holds (mark_bills status selected s).
Proof.
  intros (Hc & Hfs & Hfo & Htf & Hbf & Hun & Hfk).
  split; [by apply mark_bills_consistent|].
  repeat split; try done; red; simpl.
  intros i b Hi. rewrite map_lookup_imap in Hi.
  destruct (bills s !! i) as [b0|] eqn:Hb; [|discriminate]. simpl in Hi.
  injection Hi as <-.
  destruct (selected i); simpl; eauto.
Qed.

Lemma reachable_schema (s : Store) : reachable s -> schema_holds s.
Proof.
  apply (reachable_preserved schema_holds).
  - exact User_db_save_schema.
  - exact User_db_delete_schema.
  - exact Society_db_save_schema.
  - exact Society_db_delete_schema.
  - exact Flat_db_save_schema.
  - exact Flat_db_delete_schema.
  - exact Tenant_db_save_schema.
  - exact Tenant_db_delete_schema.
  - exact Bill_db_save_schema.
  - exact Bill_db_delete_schema.
  - exact schema_holds_empty.
  - exact mark_bills_schema.
Qed.

(** ** Python's [strip] *)

Lemma rev_onto_length (s acc : string) :
  String.length (Py.rev_onto s acc) = (String.length s + String.length acc)%nat.
Proof.
  revert acc. induction s as [|c s IH]; intros acc; simpl; [done|].
  rewrite IH. simpl. lia.
Qed.

Lemma lstrip_length (s : string) :
  (String.length (Py.lstrip s) <= String.length s)%nat.
Proof.
  induction s as [|c s IH]; simpl; [done|].
  destruct (Py.is_space c); simpl; lia.
Qed.

Lemma strip_len (s : string) : Py.len (Py.strip s) <= Py.len s.
Proof.
  unfold Py.len, Py.strip, Py.reverse.
  rewrite rev_onto_length. simpl.
  pose proof (lstrip_length (Py.rev_onto (Py.lstrip s) "")) as H1.
  rewrite rev_onto_length in H1. simpl in H1.
  pose proof (lstrip_length s). lia.
Qed.

Lemma all_chars_rev_onto (p : ascii -> bool) (s acc : string) :
  Py.all_chars p (Py.rev_onto s acc) = Py.all_chars p s && Py.all_chars p acc.
Proof.
  revert acc. induction s as [|c s IH]; intros acc; simpl; [done|].
  rewrite IH. simpl. destruct (p c), (Py.all_chars p s); simpl; done.
Qed.

Lemma all_chars_lstrip (p : ascii -> bool) (s : string) :
  Py.all_chars p s = true -> Py.all_chars p (Py.lstrip s) = true.
Proof.
  induction s as [|c s IH]; simpl; [done|].
  intros H. apply andb_true_iff in H as [Hc Hs].
  destruct (Py.is_space c); [auto|]. simpl. by rewrite Hc, Hs.
Qed.

Lemma all_chars_strip (p : ascii -> bool) (s : string) :
  Py.all_chars p s = true -> Py.all_chars p (Py.strip s) = true.
Proof.
  intros H. unfold Py.strip, Py.reverse.
  rewrite all_chars_rev_onto, andb_true_r.
  apply all_chars_lstrip. rewrite all_chars_rev_onto, andb_true_r.
  by apply all_chars_lstrip.
Qed.

Lemma len_truthy (s : string) : 0 < Py.len s -> Py.truthy s = true.
Proof. destruct s; [unfold Py.len; simpl; lia|done]. Qed.

Lemma strip_truthy (s : string) :
  Py.truthy (Py.strip s) = true -> Py.truthy s = true.
Proof. destruct s; [discriminate|done]. Qed.

(** ** What [full_clean] lets through *)

Lemma full_clean_of_Ok_iff {A} (fe : ErrorDict) (a a' : A) (ce : ErrorDict)
      (vu : A -> list string -> ErrorDict) :
  full_clean_of fe (Ok (a, ce)) vu = Ok a'
  <-> a' = a /\ fe = [] /\ ce = [] /\ vu a [] = [].
Proof.
  unfold full_clean_of. split.
  - destruct (update_error_dict (vu a _) _) eqn:E; [|discriminate].
    intros [= ->]. apply update_error_dict_nil in E as [Hvu E].
    apply update_error_dict_nil in E as [-> ->]. done.
  - intros (-> & -> & -> & Hvu). simpl. by rewrite Hvu.
Qed.

Lemma check_nil (ok : bool) (msg : string) :
  Field.check ok msg = [] <-> ok = true.
Proof. destruct ok; simpl; split; done. Qed.

Lemma max_length_nil (n : Z) (v : string) :
  Field.max_length n v = [] <-> Py.len v <= n.
Proof.
  unfold Field.max_length. destruct (Z.ltb_spec n (Py.len v)); split;
    intros; try done; lia.
Qed.

Lemma entry_nil_iff (name : string) (msgs : list string) :
  Field.entry name msgs = [] <-> msgs = [].
Proof. destruct msgs; simpl; split; done. Qed.

Lemma app_nil_iff {A} (l1 l2 : list A) :
  l1 ++ l2 = [] <-> l1 = [] /\ l2 = [].
Proof.
  split; [apply app_eq_nil|]. by intros [-> ->].
Qed.

Lemma text_required_nil (v : string) (validators : list string) :
  Field.text false v validators = [] <-> Py.truthy v = true /\ validators = [].
Proof.
  unfold Field.text. destruct (Py.truthy v); split; try done.
  - by intros [_ ->].
  - by intros [? _].
Qed.

Lemma text_optional_nil (v : string) (validators : list string) :
  Field.text true v validators = []
  <-> (Py.truthy v = true -> validators = []).
Proof.
  unfold Field.text. destruct (Py.truthy v); split; try done; auto.
Qed.

Lemma choice_nil (choices : list string) (v : string)
      (validators : list string) :
  Field.choice choices v validators = []
  <-> Py.truthy v = true /\ in_choices v choices = true /\ validators = [].
Proof.
  unfold Field.choice. destruct (Py.truthy v); [|split; [done|by intros [? _]]].
  destruct (in_choices v choices); split; try done.
  - by intros (_ & _ & ->).
  - by intros (_ & ? & _).
Qed.

Lemma foreign_key_nil {A} (model : string) (k : Z) (m : gmap Z A)
      (limit : A -> bool) :
  Field.foreign_key model k m limit = []
  <-> exists r, m !! k = Some r /\ limit r = true.
Proof.
  unfold Field.foreign_key. destruct (m !! k) as [r|]; split.
  - intros H. apply check_nil in H. eauto.
  - intros (r' & [= <-] & H). by apply check_nil.
  - done.
  - by intros (r & H & _).
Qed.

Lemma unique_nil (fields : list string) (key : string) (taken : bool)
      (msg : string) :
  Field.unique [] fields key taken msg = [] <-> taken = false.
Proof.
  unfold Field.unique.
  assert (existsb (fun f => in_choices f []) fields = false) as ->.
  { induction fields; simpl; done. }
  destruct taken; split; done.
Qed.

(** X1. [Society.full_clean] lets a society through exactly when its name
    is made of the allowed characters and has at most 200 of them, and
    the name and the address, once stripped, have at least 3 and at least
    10 characters; what comes out carries the stripped name and address.
    So a society that passed has a name of 3 to 200 allowed characters. *)
Theorem society_full_clean_characterised (s : Store) (x a : Society) :
  (Society_full_clean_in s x = Ok a
   <-> Regex.society_name (s_name x) = true
       /\ Py.len (s_name x) <= 200
       /\ 3 <= Py.len (Py.strip (s_name x))
       /\ 10 <= Py.len (Py.strip (s_address x))
       /\ a = mkSociety (s_pk x) (Py.strip (s_name x))
                        (Py.strip (s_address x)))
  /\ (Society_full_clean_in s x = Ok a ->
      3 <= Py.len (s_name a) <= 200 /\ 10 <= Py.len (s_address a)
      /\ Py.all_chars Regex.society_name_char (s_name a) = true).
Proof.
  assert (Society_full_clean_in s x = Ok a
   <-> Regex.society_name (s_name x) = true
       /\ Py.len (s_name x) <= 200
       /\ 3 <= Py.len (Py.strip (s_name x))
       /\ 10 <= Py.len (Py.strip (s_address x))
       /\ a = mkSociety (s_pk x) (Py.strip (s_name x))
                        (Py.strip (s_address x))) as Hiff.
  { unfold Society_full_clean_in.
    destruct (Society_clean x) as [a0 ce] eqn:Ec.
    rewrite full_clean_of_Ok_iff. unfold Society_clean_fields, ErrorDict.
    rewrite app_nil_iff, !entry_nil_iff, !text_required_nil, app_nil_iff,
      check_nil, max_length_nil.
    unfold Society_clean in Ec. split.
    - intros (-> & ((Htn & Hre & Hlen) & (Hta & _)) & -> & _).
      rewrite Htn in Ec. simpl in Ec.
      destruct (Z.ltb_spec (Py.len (Py.strip (s_name x))) 3);
        [discriminate Ec|].
      rewrite Hta in Ec. simpl in Ec.
      destruct (Z.ltb_spec (Py.len (Py.strip (s_address x))) 10);
        [discriminate Ec|].
      injection Ec as <-. done.
    - intros (Hre & Hlen & Hn & Ha & ->).
      assert (Py.truthy (s_name x) = true) as Htn.
      { apply strip_truthy, len_truthy. lia. }
      assert (Py.truthy (s_address x) = true) as Hta.
      { apply strip_truthy, len_truthy. lia. }
      rewrite Htn in Ec. simpl in Ec.
      destruct (Z.ltb_spec (Py.len (Py.strip (s_name x))) 3); [lia|].
      rewrite Hta in Ec. simpl in Ec.
      destruct (Z.ltb_spec (Py.len (Py.strip (s_address x))) 10); [lia|].
      injection Ec as <- <-. done. }
  split; [exact Hiff|].
  intros H. apply Hiff in H as (Hre & Hlen & Hn & Ha & ->). simpl.
  pose proof (strip_len (s_name x)).
  split; [lia|]. split; [done|].
  apply all_chars_strip. unfold Regex.society_name in Hre.
  by apply andb_true_iff in Hre as [_ Hre].
Qed.

Lemma full_clean_of_Raise {A} (fe : ErrorDict) (e : Exc)
      (vu : A -> list string -> ErrorDict) (a : A) :
  full_clean_of fe (Raise e) vu <> Ok a.
Proof. done. Qed.

(** X2. A flat that passes [Flat.full_clean] comes out with its number in
    upper case and stripped; its society exists, its owner, if it has
    one, is a user with the role OWNER, and no other flat of the society
    has the number it comes out with: the uniqueness of a flat number is
    checked after the number was put in upper case. *)
Theorem flat_full_clean_normalises (s : Store) (x a : Flat) :
  Flat_full_clean_in s x = Ok a ->
  a = f_set_flat_number (Py.strip (Py.upper (f_flat_number x))) x
  /\ Regex.flat_number (f_flat_number x) = true
  /\ Py.len (f_flat_number x) <= 50
  /\ is_Some (societies s !! f_society x)
  /\ (forall o, f_owner x = Some o ->
        exists u, users s !! o = Some u /\ u_role u = "OWNER")
  /\ (forall i r, flats s !! i = Some r -> f_society r = f_society x ->
        f_flat_number r = Py.strip (Py.upper (f_flat_number x)) ->
        f_pk x = Some i).
Proof.
  unfold Flat_full_clean_in. intros H.
  destruct (Flat_clean s x) as [[a0 ce]|e] eqn:Ec;
    [|by apply full_clean_of_Raise in H].
  apply full_clean_of_Ok_iff in H as (-> & Hfe & -> & Hvu).
  unfold Flat_clean_fields, ErrorDict in Hfe.
  rewrite !app_nil_iff, !entry_nil_iff, foreign_key_nil, text_required_nil,
    app_nil_iff, check_nil, max_length_nil in Hfe.
  destruct Hfe as ((so & Hso & _) & (Htr & Hre & Hlen) & Hown).
  unfold Flat_validate_unique in Hvu. apply unique_nil in Hvu.
  rewrite exists_other_false in Hvu.
  unfold Flat_clean in Ec. rewrite Htr in Ec.
  assert (a0 = f_set_flat_number (Py.strip (Py.upper (f_flat_number x))) x)
    as ->.
  { simpl in Ec. destruct (f_owner x) as [o|]; [|by injection Ec as <-].
    destruct (users s !! o) as [u|]; [|discriminate Ec].
    destruct (negb _); by injection Ec as <-. }
  split; [done|]. split; [done|]. split; [done|]. split; [by eexists|].
  split.
  - intros o Ho. rewrite Ho in Hown. apply foreign_key_nil in Hown.
    destruct Hown as (u & Hu & Hr). exists u. split; [done|].
    by apply String.eqb_eq.
  - intros i r Hi Hs Hn. apply (Hvu i r Hi).
    apply same_flat_key_true. simpl. done.
Qed.

Lemma User_clean_eq (env : Env) (u : User) :
  User_clean env u =
    (u_set_email
       (if Py.truthy (normalize_email env (u_email u))
        then Py.strip (Py.lower (normalize_email env (u_email u)))
        else normalize_email env (u_email u)) u,
     if in_choices (u_role u) [OWNER; TENANT]
        && (negb (Py.truthy (u_first_name u))
            || negb (Py.truthy (u_last_name u)))
     then [(NON_FIELD_ERRORS,
            ["First name and last name are required for Owners and Tenants"])]
     else []).
Proof.
  unfold User_clean.
  destruct (Py.truthy (normalize_email env (u_email u))) eqn:E;
    cbn -[in_choices Py.strip Py.lower]; rewrite ?E;
    cbn -[in_choices Py.strip Py.lower];
    destruct (in_choices _ _ && _); reflexivity.
Qed.

(** X3. A user who passes [User.full_clean] comes out with the email
    normalised, in lower case and stripped, and otherwise unchanged. The
    role is one of the three; an OWNER or a TENANT has a first and a last
    name; the username and the email are well-formed; a phone number, if
    given, has the form asked for; and no other user has the username, or
    the email as it comes out. *)
Theorem user_full_clean_normalises (env : Env) (s : Store) (u a : User) :
  User_full_clean_in env s u = Ok a ->
  a = u_set_email (u_email a) u
  /\ u_email a =
       (if Py.truthy (normalize_email env (u_email u))
        then Py.strip (Py.lower (normalize_email env (u_email u)))
        else normalize_email env (u_email u))
  /\ in_choices (u_role u) ROLE_CHOICES = true
  /\ (u_role u = OWNER \/ u_role u = TENANT ->
      Py.truthy (u_first_name u) = true /\ Py.truthy (u_last_name u) = true)
  /\ username_validator env (u_username u) = true
  /\ email_validator env (u_email u) = true
  /\ (forall p, u_phone u = Some p -> Py.truthy p = true ->
        Regex.phone p = true /\ Py.len p <= 15)
  /\ (forall i r, users s !! i = Some r ->
        u_username r = u_username u \/ u_email r = u_email a ->
        u_pk u = Some i).
Proof.
  unfold User_full_clean_in. intros H.
  destruct (User_clean env u) as [a0 ce] eqn:Ec.
  apply full_clean_of_Ok_iff in H as (-> & Hfe & -> & Hvu).
  unfold User_clean_fields, ErrorDict in Hfe.
  rewrite !app_nil_iff, !entry_nil_iff, !text_required_nil,
    !text_optional_nil, choice_nil, !app_nil_iff, !check_nil,
    !max_length_nil in Hfe.
  destruct Hfe as (_ & (_ & Hun & _) & _ & _ & (_ & Hem & _) & (_ & Hrole & _)
                   & Hphone).
  unfold User_validate_unique, ErrorDict in Hvu.
  rewrite app_nil_iff, !unique_nil, !exists_other_false in Hvu.
  destruct Hvu as [Hu1 Hu2].
  rewrite User_clean_eq in Ec.
  set (e1 := if Py.truthy (normalize_email env (u_email u))
             then Py.strip (Py.lower (normalize_email env (u_email u)))
             else normalize_email env (u_email u)) in *.
  assert (u_role u = OWNER \/ u_role u = TENANT ->
          Py.truthy (u_first_name u) = true
          /\ Py.truthy (u_last_name u) = true) as Hnames.
  { intros Hr.
    assert (in_choices (u_role u) [OWNER; TENANT] = true) as Hin.
    { destruct Hr as [-> | ->]; reflexivity. }
    rewrite Hin in Ec.
    destruct (Py.truthy (u_first_name u)), (Py.truthy (u_last_name u));
      simpl in Ec; try discriminate Ec; done. }
  assert (a0 = u_set_email e1 u) as ->.
  { destruct (_ && _); by injection Ec as <-. }
  simpl in *.
  split; [done|]. split; [done|]. split; [done|].
  split; [exact Hnames|]. split; [done|]. split; [done|]. split.
  - intros p Hp Htp. rewrite Hp in Hphone.
    rewrite text_optional_nil, app_nil_iff, check_nil, max_length_nil
      in Hphone. auto.
  - intros i r Hi [Hn|Hn].
    + apply (Hu1 i r Hi). by apply String.eqb_eq.
    + apply (Hu2 i r Hi). by apply String.eqb_eq.
Qed.

(** ** Amounts *)

(** The amount in hundredths, for a decimal of at most two places. *)
Lemma hundredths_split (c e : Z) :
  -2 <= e ->
  (e = -2 /\ c * 10 ^ (e + 2) = c)
  \/ (e = -1 /\ c * 10 ^ (e + 2) = c * 10)
  \/ (0 <= e /\ c * 10 ^ (e + 2) = c * 10 ^ e * 100 /\ 0 < 10 ^ e).
Proof.
  intros He.
  destruct (Z.eq_dec e (-2)) as [->|]; [left; split; [done|]; simpl; lia|].
  destruct (Z.eq_dec e (-1)) as [->|]; [right; left; split; [done|]; simpl; lia|].
  right. right. split; [lia|]. split.
  - rewrite Z.pow_add_r by lia. change (10 ^ 2) with 100. lia.
  - apply Z.pow_pos_nonneg; lia.
Qed.

Lemma decimal_nil (v : Decimal) (validators : list string)
      (max_digits decimal_places : Z) :
  Field.decimal v validators max_digits decimal_places = [] ->
  exists c e, v = DecFin c e /\ validators = [] /\ - decimal_places <= e.
Proof.
  destruct v as [c e|]; [|discriminate]. simpl.
  unfold ErrorDict. intros H. apply app_nil_iff in H as [Hv Hd].
  exists c, e. split; [done|]. split; [done|].
  destruct (Z.leb_spec 0 e) as [|Hneg].
  - destruct (max_digits <? _); [discriminate|].
    destruct (Z.ltb_spec decimal_places 0); [discriminate|]. lia.
  - destruct (max_digits <? _); [discriminate|].
    destruct (Z.ltb_spec decimal_places (- e)); [discriminate|]. lia.
Qed.

Lemma rent_of_hundredths (c e : Z) :
  -2 <= e -> rent_min (DecFin c e) = [] -> 2 <= c * 10 ^ (e + 2).
Proof.
  intros He. unfold rent_min, Field.min_dec. rewrite check_nil.
  rewrite negb_true_iff. unfold Dec.lt_frac.
  destruct (hundredths_split c e He) as [[-> ->]|[[-> ->]|(H0 & -> & Hp)]].
  - simpl. rewrite Z.ltb_ge. lia.
  - simpl. rewrite Z.ltb_ge. lia.
  - destruct (Z.leb_spec 0 e); [|lia]. rewrite Z.ltb_ge. nia.
Qed.

(** X4. [MinValueValidator(0.01)] compares the rent with the float 0.01,
    which is a little more than one hundredth: of the amounts with at
    most two decimal places, the validator lets through those of two
    hundredths and more. A rent of exactly 0.01 is refused, and a tenant
    with that rent never passes [full_clean]. *)
Theorem rent_of_one_hundredth_refused :
  (forall c e, -2 <= e ->
     (rent_min (DecFin c e) = [] <-> 2 <= c * 10 ^ (e + 2)))
  /\ rent_min (DecFin 1 (-2)) = ["Rent amount must be greater than 0"]
  /\ (forall s x a, t_rent_amount x = DecFin 1 (-2) ->
        Tenant_full_clean_in s x <> Ok a).
Proof.
  split; [|split; [reflexivity|]].
  - intros c e He. unfold rent_min, Field.min_dec. rewrite check_nil.
    rewrite negb_true_iff. unfold Dec.lt_frac.
    destruct (hundredths_split c e He) as [[-> ->]|[[-> ->]|(H0 & -> & Hp)]].
    + simpl. rewrite Z.ltb_ge. lia.
    + simpl. rewrite Z.ltb_ge. lia.
    + destruct (Z.leb_spec 0 e); [|lia]. rewrite Z.ltb_ge. nia.
  - intros s x a Hr H. unfold Tenant_full_clean_in in H.
    destruct (Tenant_clean_fields s x) as [x1 fe] eqn:Ef.
    destruct (Tenant_clean s x1) as [[a0 ce]|e] eqn:Ec;
      [|by apply full_clean_of_Raise in H].
    apply full_clean_of_Ok_iff in H as (_ & -> & _).
    unfold Tenant_clean_fields in Ef. injection Ef as _ Ef.
    unfold ErrorDict in Ef. rewrite !app_nil_iff, !entry_nil_iff in Ef.
    destruct Ef as (_ & _ & Hrent & _). rewrite Hr in Hrent.
    discriminate Hrent.
Qed.

(** X5. A tenant who passes [Tenant.full_clean] comes out with the start
    date as a date, not before 2000-01-01, and an end date, if any, after
    it; the user exists and has the role TENANT, the flat exists, the
    rent has at most two decimal places and is at least two hundredths,
    and no other tenant row has the same user. *)
Theorem tenant_full_clean_guarantees (s : Store) (x a : Tenant) :
  Tenant_full_clean_in s x = Ok a ->
  exists d,
    Field.date_to_python (t_start_date x) = inl d
    /\ a = t_set_start_date (DDate d) x
    /\ Py.date_ltb d year_2000 = false
    /\ (forall e, t_end_date x = Some e -> Py.date_leb e d = false)
    /\ (exists u, users s !! t_user x = Some u /\ u_role u = "TENANT")
    /\ is_Some (flats s !! t_flat x)
    /\ (exists c e, t_rent_amount x = DecFin c e /\ -2 <= e
                    /\ 2 <= c * 10 ^ (e + 2))
    /\ (forall i r, tenants s !! i = Some r -> t_user r = t_user x ->
          t_pk x = Some i).
Proof.
  unfold Tenant_full_clean_in. intros H.
  destruct (Tenant_clean_fields s x) as [x1 fe] eqn:Ef.
  destruct (Tenant_clean s x1) as [[a0 ce]|e] eqn:Ec;
    [|by apply full_clean_of_Raise in H].
  apply full_clean_of_Ok_iff in H as (-> & -> & -> & Hvu).
  apply Tenant_clean_Ok in Ec as Ea. subst a0.
  unfold Tenant_clean_fields in Ef. injection Ef as Ex Ef.
  unfold ErrorDict in Ef. rewrite !app_nil_iff, !entry_nil_iff in Ef.
  destruct Ef as (Hu & Hf & Hrent & Hstart).
  apply foreign_key_nil in Hu as (u & Hu & Hrole).
  apply foreign_key_nil in Hf as (f & Hf & _).
  apply decimal_nil in Hrent as (c & e & Hc & Hmin & He).
  destruct (Field.date_to_python (t_start_date x)) as [d|msgs] eqn:Ed;
    [|subst msgs; unfold Field.date_to_python in Ed;
      destruct (t_start_date x) as [str|d0];
      [destruct (Field.parse_date str) as [[?|]|]|]; discriminate Ed].
  exists d. subst x1. split; [done|]. split; [done|].
  unfold Tenant_validate_unique in Hvu. apply unique_nil in Hvu.
  rewrite exists_other_false in Hvu. simpl in Hvu.
  unfold Tenant_clean in Ec. simpl in Ec. rewrite Hu in Ec.
  apply String.eqb_eq in Hrole. rewrite Hrole in Ec. simpl in Ec.
  destruct (Py.date_ltb d year_2000) eqn:Elt; [discriminate Ec|].
  split; [done|]. split.
  { intros e' He'. rewrite He' in Ec.
    destruct (Py.date_leb e' d); [discriminate Ec|done]. }
  split; [by exists u|]. split; [by exists f|]. split.
  { exists c, e. split; [done|]. split; [done|].
    rewrite Hc in Hmin. by apply rent_of_hundredths. }
  intros i r Hi Hr. apply (Hvu i r Hi). by apply Z.eqb_eq.
Qed.

Lemma same_bill_key_true (x r : MaintenanceBill) :
  same_bill_key x r = true
  <-> b_flat r = b_flat x /\ b_month r = b_month x /\ b_year r = b_year x.
Proof.
  unfold same_bill_key.
  rewrite !andb_true_iff, !Z.eqb_eq, String.eqb_eq. tauto.
Qed.

(** X6. A bill that passes [MaintenanceBill.full_clean] is left as it
    was; its month is one of the twelve and its status PAID or UNPAID,
    its year is between 2000 and next year, its flat exists and has an
    owner, its amount has at most two decimal places and is at least 1,
    and no other bill has its flat, month and year. *)
Theorem bill_full_clean_guarantees (env : Env) (s : Store)
        (x a : MaintenanceBill) :
  Bill_full_clean_in env s x = Ok a ->
  a = x
  /\ in_choices (b_month x) MONTH_CHOICES = true
  /\ in_choices (b_status x) STATUS_CHOICES = true
  /\ 2000 <= b_year x <= today_year env + 1
  /\ (exists f o, flats s !! b_flat x = Some f /\ f_owner f = Some o
                  /\ is_Some (users s !! o))
  /\ (exists c e, b_amount x = DecFin c e /\ -2 <= e
                  /\ 100 <= c * 10 ^ (e + 2))
  /\ (forall i r, bills s !! i = Some r -> b_flat r = b_flat x ->
        b_month r = b_month x -> b_year r = b_year x -> b_pk x = Some i).
Proof.
  unfold Bill_full_clean_in. intros H.
  destruct (Bill_clean env s x) as [[a0 ce]|e] eqn:Ec;
    [|by apply full_clean_of_Raise in H].
  apply full_clean_of_Ok_iff in H as (-> & Hfe & -> & Hvu).
  unfold Bill_clean_fields, ErrorDict in Hfe.
  rewrite !app_nil_iff, !entry_nil_iff, !choice_nil in Hfe.
  destruct Hfe as (_ & (_ & Hmonth & _) & Hyear & Hamount & (_ & Hstatus & _)).
  apply year_validators_nil in Hyear.
  apply decimal_nil in Hamount as (c & e & Hc & Hmin & He).
  unfold Bill_validate_unique in Hvu. apply unique_nil in Hvu.
  rewrite exists_other_false in Hvu.
  unfold Bill_clean in Ec.
  destruct (Z.eqb_spec (b_year x) 0) as [|_]; [lia|].
  destruct (Z.ltb_spec (today_year env + 1) (b_year x)) as [|Hy];
    [discriminate Ec|]. simpl in Ec.
  destruct (flats s !! b_flat x) as [f|] eqn:Hf; [|discriminate Ec].
  destruct (f_owner f) as [o|] eqn:Ho; [|discriminate Ec].
  destruct (users s !! o) as [u|] eqn:Hu; [|discriminate Ec].
  destruct (_ && _); [discriminate Ec|]. injection Ec as <-.
  split; [done|]. split; [done|]. split; [done|]. split; [lia|].
  split; [exists f, o; rewrite Hu; eauto|]. split.
  - exists c, e. split; [done|]. split; [done|].
    rewrite Hc in Hmin. unfold Field.min_dec in Hmin.
    rewrite check_nil, negb_true_iff in Hmin. unfold Dec.lt_frac in Hmin.
    destruct (hundredths_split c e He) as [[-> ->]|[[-> ->]|(H0 & -> & Hp)]].
    + simpl in Hmin. rewrite Z.ltb_ge in Hmin. lia.
    + simpl in Hmin. rewrite Z.ltb_ge in Hmin. lia.
    + destruct (Z.leb_spec 0 e); [|lia]. rewrite Z.ltb_ge in Hmin. nia.
  - intros i r Hi H1 H2 H3. apply (Hvu i r Hi).
    by apply same_bill_key_true.
Qed.

(** ** Requests that do nothing, and requests that fail *)

Ltac unfold_views :=
  unfold admin_dashboard_view, owner_list_view, create_owner_view,
    update_owner_view, delete_owner_view, toggle_owner_status_view,
    create_society_view, update_society_view, delete_society_view,
    society_list_view, flat_list_view, create_flat_view, update_flat_view,
    delete_flat_view, bill_list_view, create_bill_view,
    toggle_bill_status_view, update_bill_view, delete_bill_view,
    owner_dashboard_view, owner_flats_view, owner_bills_view,
    create_tenant_view, tenant_list_view, toggle_tenant_status_view,
    update_tenant_view, delete_tenant_view, tenant_dashboard_view,
    tenant_flat_view.

(** X7. A request that does not make the handler act (any request to a
    page, and a request that is not a POST to a form or to
    [delete_tenant]) leaves the whole world as it was: store, notices,
    mail and the schedule of the store. *)
Theorem idle_requests_change_nothing (env : Env) (h : Handler)
        (request : Request) (w : World) (u : User) :
  user request = Some u -> u_role u = required_role h ->
  submits h request = false ->
  snd (handle env h request w) = w.
Proof.
  intros Hu Hr Hs. rewrite (gate_pass env h request u Hu Hr).
  wp_start (view env h request) w.
  destruct h; simpl in Hs; try discriminate Hs; simpl view; unfold_views;
    rewrite ?Hs; wp_run; reflexivity.
Qed.

Ltac settle_leaf :=
  cbn [store notices add_notice add_mail set_store tick set_faults];
  first [left; reflexivity | right; eexists; reflexivity].

Lemma view_no_silent_write (env : Env) (h : Handler) (request : Request)
      (w : World) :
  tenant_users_exist (store w) -> bill_flats_exist (store w) ->
  wp (view env h request)
     (fun _ w' => store w' = store w \/ one_success w w') w.
Proof.
  intros Htu Hbf. unfold one_success.
  destruct h; simpl view; unfold_views.
  all: wp_run; try settle_leaf.
  (* the two toggles look a related row up after their write *)
  - exfalso.
    repeat match goal with
           | H : context [load _ _] |- _ => unfold load in H; simpl in H
           end.
    match goal with
    | H : context [bills (store w) !! ?k] |- _ =>
        destruct (bills (store w) !! k) as [row|] eqn:Hrow; [|discriminate];
        pose proof (Hbf k row Hrow) as [f Hf]
    end.
    simplify_eq/=.
    match goal with
    | H : Bill_db_save _ _ = Ok _ |- _ =>
        unfold Bill_db_save in H; destruct (_ || _); [discriminate H|];
        injection H as <- <-
    end.
    simpl in *.
    match goal with H : context [flats (store w) !! _] |- _ =>
      rewrite Hf in H; discriminate H end.
  - exfalso.
    repeat match goal with
           | H : context [load _ _] |- _ => unfold load in H; simpl in H
           end.
    match goal with
    | H : context [tenants (store w) !! ?k] |- _ =>
        destruct (tenants (store w) !! k) as [row|] eqn:Hrow; [|discriminate];
        pose proof (Htu k row Hrow) as [f Hf]
    end.
    simpl in *.
    match goal with
    | H : (if ?c then Ok _ else _) = Ok _ |- _ =>
        destruct c; [injection H as <-|discriminate H]
    end.
    match goal with
    | H : Tenant_db_save _ _ = Ok _ |- _ =>
        unfold Tenant_db_save in H;
        destruct (Field.date_to_python _); [|discriminate H];
        destruct (_ || _); [discriminate H|];
        injection H as <- <-
    end.
    simpl in *.
    match goal with H : context [users (store w) !! _] |- _ =>
      rewrite Hf in H; discriminate H end.
Qed.

(** X8. No handler changes the store without reporting a success: on a
    store whose tenants have their users and whose bills have their
    flats, a request either leaves the store as it was, or queues exactly
    one success notice. In particular a request answered with an error
    notice, or with [Http404], has written nothing. *)
Theorem no_silent_write (env : Env) (h : Handler) (request : Request)
        (w : World) :
  tenant_users_exist (store w) -> bill_flats_exist (store w) ->
  store (snd (handle env h request w)) = store w
  \/ one_success w (snd (handle env h request w)).
Proof.
  intros Htu Hbf.
  destruct (handle_either env h request w) as [->|[-> _]]; [|by left].
  exact (view_no_silent_write env h request w Htu Hbf).
Qed.

(** What the gate leaves of a request it does not pass on. *)
Lemma gate_outcome (env : Env) (h : Handler) (request : Request) (w : World) :
  handle env h request w = view env h request w
  \/ (exists resp, handle env h request w = (Ok resp, w))
  \/ (exists resp n, handle env h request w = (Ok resp, add_notice n w)).
Proof.
  unfold handle.
  destruct h; simpl decorator;
    unfold admin_required, owner_required, tenant_required;
    (destruct (user request) as [u|]; [|right; left; by eexists]);
    (destruct (String.eqb (u_role u) _); simpl; [by left|]);
    right; right; by eexists _, _.
Qed.

(** ** Mail *)

Ltac no_mail_leaf :=
  unfold mailed;
  cbn [outbox notices add_notice add_mail set_store tick set_faults];
  split; [intros _; reflexivity | left; reflexivity].

Lemma credentials_mail_to (u : User) (plain : string) :
  m_to (credentials_mail u plain) = u_email u.
Proof.
  unfold credentials_mail.
  destruct (String.eqb (u_role u) "OWNER"); [done|].
  destruct (String.eqb (u_role u) "TENANT"); done.
Qed.

(** What [User.save] wrote: the row has the email of the instance, and it
    is a new row only if the instance had no key, or a key of no row. *)
Lemma saved_user_facts (u : User) (s s' : Store) (p : User * bool) :
  User_db_save (if u_is_superuser u then u_set_role ADMIN u else u) s
  = Ok (p, s') ->
  u_email (fst p) = u_email u
  /\ (snd p = true -> forall k, u_pk u = Some k -> users s !! k = None).
Proof.
  set (u1 := if u_is_superuser u then u_set_role ADMIN u else u).
  assert (u_email u1 = u_email u /\ u_pk u1 = u_pk u) as [He Hk]
    by (subst u1; destruct (u_is_superuser u); done).
  clearbody u1. unfold User_db_save. destruct (_ || _); [discriminate|].
  intros [= <-]. simpl. split; [done|].
  intros Hc k Hpk. rewrite Hk, Hpk in Hc.
  by apply bool_decide_eq_true_1 in Hc.
Qed.

Lemma User_full_clean_in_email (env : Env) (s : Store) (u a : User) :
  User_full_clean_in env s u = Ok a ->
  u_email a =
    (if Py.truthy (normalize_email env (u_email u))
     then Py.strip (Py.lower (normalize_email env (u_email u)))
     else normalize_email env (u_email u)).
Proof.
  unfold User_full_clean_in. intros H.
  apply full_clean_of_Ok in H as [_ H]. injection H as H.
  unfold User_clean in H.
  destruct (Py.truthy (normalize_email env (u_email u))) eqn:E; simpl in H;
    rewrite ?E in H; destruct (_ && _); simplify_eq; done.
Qed.

(** An account is created: the mail goes to its address. *)
Ltac mail_to_account Hemail :=
  unfold mailed;
  cbn [outbox notices add_notice add_mail set_store tick set_faults];
  split; [let Hc := fresh in intros Hc; discriminate Hc|];
  right; eexists; split; [reflexivity|];
  rewrite credentials_mail_to, Hemail;
  cbn [u_email u_set_plain_password];
  match goal with
  | H : User_full_clean_in _ _ _ = Ok _ |- _ =>
      apply User_full_clean_in_email in H; rewrite H
  end; reflexivity.

(** A row is updated: it is not new. *)
Ltac no_mail_on_update Hnew :=
  exfalso;
  repeat match goal with
         | H : context [load _ _] |- _ => unfold load in H; simpl in H
         end;
  match goal with
  | Hc : snd _ = true |- _ => specialize (Hnew Hc)
  end;
  match goal with
  | H : context [users (store _) !! ?k] |- _ =>
      let row := fresh "row" in
      let Hrow := fresh "Hrow" in
      destruct (users (store _) !! k) as [row|] eqn:Hrow;
      [|discriminate H];
      simpl in *;
      repeat match goal with
             | G : (if ?c then _ else _) = Ok _ |- _ =>
                 destruct c; [|discriminate G]
             end;
      simplify_eq/=;
      try match goal with
          | H : User_full_clean_in _ _ _ = Ok _ |- _ =>
              apply User_full_clean_in_Ok in H as (Hpk & _);
              repeat match type of Hpk with
                     | context [if ?c then _ else _] => destruct c
                     end;
              simpl in Hpk; specialize (Hnew k Hpk)
          end;
      try specialize (Hnew k eq_refl);
      congruence
  end.

Ltac mail_leaf :=
  let Hemail := fresh "Hemail" in
  let Hnew := fresh "Hnew" in
  match goal with
  | H : User_db_save _ _ = Ok (?p, _) |- _ =>
      destruct (saved_user_facts _ _ _ _ H) as [Hemail Hnew]
  end;
  first [ mail_to_account Hemail | no_mail_on_update Hnew ].

Lemma view_mailed (env : Env) (h : Handler) (request : Request) (w : World) :
  wp (view env h request) (fun _ w' => mailed env h request w w') w.
Proof.
  destruct h; simpl view; unfold_views.
  all: wp_run; try no_mail_leaf.
  all: mail_leaf.
Qed.

(** X9. Mail is sent by the two handlers that create an account, and by
    no other: a request to any other handler leaves the outbox as it
    was. A request to [create_owner] or [create_tenant] sends at most one
    mail, and it goes to the address of the form as [User.clean] leaves
    it (normalised, in lower case, stripped). *)
Theorem credentials_mailed_on_creation_only (env : Env) (h : Handler)
        (request : Request) (w : World) :
  (creates_account h = false ->
   outbox (snd (handle env h request w)) = outbox w)
  /\ (outbox (snd (handle env h request w)) = outbox w
      \/ exists m, outbox (snd (handle env h request w)) = outbox w ++ [m]
                   /\ m_to m = form_email env request).
Proof.
  destruct (gate_outcome env h request w) as [->|[(r & ->)|(r & n & ->)]];
    [exact (view_mailed env h request w)|by split; [|left]..].
Qed.

(** [User.full_clean] has checked what the store checks at the write. *)
Lemma User_db_save_after_full_clean (env : Env) (s : Store) (u a : User)
      (plain : option string) :
  User_full_clean_in env s u = Ok a -> u_pk u = None ->
  u_is_superuser u = false ->
  User_db_save (u_set_plain_password plain a) s
  = Ok ((u_set_pk (Some (next_pk (users s))) (u_set_plain_password plain a),
         true),
        with_users (<[next_pk (users s) :=
                        u_set_plain_password None
                          (u_set_pk (Some (next_pk (users s))) a)]> (users s))
                   s).
Proof.
  intros H Hpk Hsup.
  destruct (User_full_clean_in_Ok _ _ _ _ H) as (Hpk' & _).
  unfold User_full_clean_in in H.
  destruct (User_clean env u) as [a0 ce] eqn:Ec.
  apply full_clean_of_Ok_iff in H as (-> & _ & _ & Hvu).
  unfold User_validate_unique, ErrorDict in Hvu.
  rewrite app_nil_iff, !unique_nil in Hvu. destruct Hvu as [H1 H2].
  unfold User_db_save. simpl. rewrite H1, H2. simpl.
  rewrite Hpk', Hpk. rewrite next_pk_fresh.
  rewrite bool_decide_eq_true_2 by done. reflexivity.
Qed.

(** X10. The credentials are mailed when the user is saved, inside the
    transaction of [create_tenant]; the tenant is validated after that.
    So when the form is complete and well-formed, the flat is the
    owner's, the account passes validation and the store takes the
    write, but the start date is before 2000-01-01, the owner gets the
    page back with an error notice and the store is as it was, with
    neither the tenant nor the account in it; yet one mail has gone out,
    to the address of the account. *)
Theorem credentials_outlive_rollback (env : Env) (request : Request)
        (w : World) (me : User) (flat_id rent_amount start_date : string)
        (fid : Z) (rent : Decimal) (f : Flat) (d0 d : Py.date) (u1 : User) :
  user request = Some me -> u_role me = "OWNER" ->
  is_post request = true ->
  post_opt request "flat" = Some flat_id ->
  post_opt request "rent_amount" = Some rent_amount ->
  post_opt request "start_date" = Some start_date ->
  all_truthy [Py.strip (post_get request "email");
              Py.strip (post_get request "username");
              Py.strip (post_get request "first_name");
              Py.strip (post_get request "last_name");
              Py.strip (post_get request "password");
              flat_id; rent_amount; start_date] = true ->
  Py.isdigit flat_id = true -> Py.int flat_id = Some fid ->
  parse_Decimal env rent_amount = Some rent ->
  Py.strptime_ymd start_date = Some d0 ->
  flats (store w) !! fid = Some f -> f_owner f = u_pk me ->
  User_full_clean_in env (store w) (tenant_account env request) = Ok u1 ->
  refusal w = None ->
  Field.parse_date start_date = Some (Some d) ->
  Py.date_ltb d year_2000 = true ->
  exists m text,
    handle env create_tenant request w
    = (Ok (RenderPage "owner/tenant_list.html"),
       mkWorld (store w) (notices w ++ [mkNotice ERROR text])
               (outbox w ++ [m]) (tail (faults w)))
    /\ m_to m = u_email u1
    /\ users (store w) !! next_pk (users (store w)) = None.
Proof.
  intros Hu Hr Hp Hfl Hre Hsd Hall Hdig Hint Hdec Hstr Hf Hown Hfc Href
         Hpd Hlt.
  rewrite (gate_pass env create_tenant request me Hu Hr). simpl view.
  unfold create_tenant_view. rewrite Hp, Hfl, Hre, Hsd, Hall, Hdig.
  simpl negb. cbv iota.
  destruct (User_full_clean_in_Ok _ _ _ _ Hfc) as (Hpk1 & Hsup1 & Hrole1 & _).
  pose proof (User_db_save_after_full_clean env (store w) _ u1
                (Some (Py.strip (post_get request "password"))) Hfc
                eq_refl eq_refl) as Hsave.
  set (uid := next_pk (users (store w))) in *.
  set (pw := Py.strip (post_get request "password")) in *.
  set (s1 := with_users _ (store w)) in Hsave.
  set (x := mkTenant None uid fid rent (DStr start_date) None true).
  assert (exists errs, Tenant_full_clean_in s1 x
                       = Raise (ValidationError errs)) as (errs & Htc).
  { destruct (Tenant_full_clean_in_early s1 x d) as [_ Hraise].
    - simpl. by rewrite Hpd.
    - exact Hlt.
    - destruct (Hraise (u_set_plain_password None (u_set_pk (Some uid) u1)))
        as (errs & E & _).
      + subst s1. simpl. apply lookup_insert_eq.
      + simpl. rewrite Hrole1. reflexivity.
      + by exists errs. }
  exists (credentials_mail
            (u_set_pk (Some uid) (u_set_plain_password (Some pw) u1)) pw),
         (validation_notice errs).
  split; [|split; [by rewrite credentials_mail_to|apply next_pk_fresh]].
  unfold or_else, try_except, atomic, bind, py_int, py_Decimal,
    check_strptime, request_user, get_object_or_404, query, load, ret,
    raise.
  rewrite Hdec, Hstr, Hint, Hu. simpl. rewrite Hf. simpl.
  unfold owned_by. rewrite bool_decide_eq_true_2 by exact Hown.
  unfold tenant_account in Hfc. fold pw in Hfc. rewrite Hfc.
  unfold User_save, bind, db_write. simpl. rewrite Hsup1.
  change (u_is_superuser (tenant_account env request)) with false.
  cbv iota. rewrite Href, Hsave. simpl.
  fold x. fold s1. rewrite Htc. reflexivity.
Qed.

(** ** Deleting an owner *)

(** X11. [Flat.owner] is [on_delete=SET_NULL]: when an administrator
    deletes an owner and the store takes the write, the user is gone,
    every flat is still there, those of the owner without an owner now;
    societies and bills are untouched. No bill for a flat the owner had
    passes [full_clean] any more, since a bill needs a flat with an
    owner: the bills of these flats can no longer be updated. *)
Theorem deleted_owner_leaves_flats_behind (env : Env) (k : Z)
        (request : Request) (w : World) (adm o : User) :
  user request = Some adm -> u_role adm = "ADMIN" ->
  users (store w) !! k = Some o -> u_role o = "OWNER" ->
  refusal w = None ->
  let w' := snd (handle env (delete_owner k) request w) in
  users (store w') = delete k (users (store w))
  /\ societies (store w') = societies (store w)
  /\ bills (store w') = bills (store w)
  /\ (forall i f, flats (store w) !! i = Some f ->
        flats (store w') !! i
        = Some (if bool_decide (f_owner f = Some k)
                then f_set_owner None f else f))
  /\ (forall i f x a, flats (store w) !! i = Some f -> f_owner f = Some k ->
        b_flat x = i -> Bill_full_clean_in env (store w') x <> Ok a)
  /\ fst (handle env (delete_owner k) request w)
     = Ok (RedirectTo "core:owner_list")
  /\ one_success w w'.
Proof.
  intros Hu Hr Ho Hrole Href w'. subst w'.
  rewrite (gate_pass env (delete_owner k) request adm Hu Hr). simpl view.
  unfold delete_owner_view, get_object_or_404, User_delete, redirect, bind,
    try_except, query, db_write, message, ret, load.
  simpl. rewrite Ho. simpl. unfold is_owner_role. simpl.
  rewrite Hrole. simpl. rewrite Href. simpl.
  split; [done|]. split; [done|]. split; [done|].
  assert (forall i f, flats (store w) !! i = Some f ->
            ((fun f => if bool_decide (f_owner f = Some k)
                       then f_set_owner None f else f) <$> flats (store w))
            !! i
            = Some (if bool_decide (f_owner f = Some k)
                    then f_set_owner None f else f)) as Hflats.
  { intros i f Hi. by rewrite lookup_fmap, Hi. }
  split; [exact Hflats|]. split; [|split; [done|by eexists]].
  intros i f x a Hi Hown Hx Hok.
  unfold Bill_full_clean_in in Hok.
  apply full_clean_of_Ok in Hok as [_ Hc].
  match type of Hc with
  | Bill_clean _ ?s' _ = _ =>
      destruct (Bill_clean_ownerless env s' x (f_set_owner None f))
        as (ce & E & Hne & _)
  end.
  - simpl. rewrite Hx, (Hflats i f Hi).
    by rewrite bool_decide_eq_true_2.
  - done.
  - rewrite E in Hc. injection Hc as _ Hc. done.
Qed.

(** ** One owner's requests and another owner's tenants *)

Ltac untouched_leaf :=
  unfold isolated;
  cbn [store notices add_notice add_mail set_store tick set_faults];
  split; [reflexivity|split; [reflexivity|]];
  let i := fresh in let t := fresh in let H := fresh in
  intros i t H _; split; [exact H|reflexivity].

Lemma superuser_role_pk (u : User) :
  u_pk (if u_is_superuser u then u_set_role ADMIN u else u) = u_pk u.
Proof. by destruct (u_is_superuser u). Qed.

Lemma create_tenant_isolated (env : Env) (request : Request) (w : World)
      (u : User) :
  user request = Some u -> tenant_users_exist (store w) ->
  wp (create_tenant_view env request) (fun _ w' => isolated u w w') w.
Proof.
  intros Hu Hex. unfold create_tenant_view, request_user. rewrite Hu.
  wp_run; try untouched_leaf.
  all: repeat match goal with p : (_ * _)%type |- _ => destruct p end;
       simpl in *; simplify_eq.
  all: match goal with
       | H : User_full_clean_in _ _ _ = Ok _ |- _ =>
           apply User_full_clean_in_Ok in H as (Hpk & _); simpl in Hpk
       end.
  all: match goal with
       | H : User_db_save (if ?c then _ else _) _ = Ok _ |- _ =>
           destruct c;
           apply User_db_save_Ok in H as (ku & -> & Hku & ->);
           simpl in Hku;
           (destruct Hku as [Hku|[_ Hku]]; [congruence|])
       end.
  all: match goal with
       | H : Tenant_full_clean_in _ _ = Ok _ |- _ =>
           apply Tenant_full_clean_in_Ok in H as (Htpk & _); simpl in Htpk
       end.
  all: match goal with
       | H : Tenant_db_save _ _ = Ok _ |- _ =>
           apply Tenant_db_save_Ok in H
             as (kt & _ & _ & _ & _ & Hkt & _ & _ & ->);
           destruct Hkt as [Hkt|[_ Hkt]]; [congruence|]
       end.
  all: unfold isolated; simpl; split; [reflexivity|split; [reflexivity|]];
       intros i row Hi _; simpl in Hkt; split.
  all: try (rewrite lookup_insert_ne; [exact Hi|congruence]).
  all: destruct (Hex i row Hi) as [urow Hurow];
       rewrite lookup_insert_ne; [reflexivity|congruence].
Qed.

(** The tenant an owner's handler works on is one of the owner's, so it
    is none of the rows of other owners' flats. *)
Ltac own_tenant Hrow Hcond :=
  unfold flat_owned_by in Hcond; simpl in Hrow, Hcond;
  wp_run; try untouched_leaf;
  repeat match goal with p : (_ * _)%type |- _ => destruct p end;
  repeat match goal with v : unit |- _ => destruct v end;
  repeat match goal with
         | H : context [load _ _] |- _ => unfold load in H; simpl in H
         end;
  simpl in *; simplify_eq.

Lemma other_row (u : User) (s : Store) (k i : Z) (row t : Tenant) :
  tenants s !! k = Some row ->
  match flats s !! t_flat row with
  | Some f => bool_decide (f_owner f = u_pk u)
  | None => false
  end = true ->
  tenants s !! i = Some t -> flat_owned_by u s t = false -> i <> k.
Proof.
  intros Hrow Hcond Hi Hno ->. rewrite Hrow in Hi. injection Hi as <-.
  unfold flat_owned_by in Hno. congruence.
Qed.

Lemma toggle_tenant_status_isolated (k : Z) (request : Request) (w : World)
      (u : User) :
  user request = Some u ->
  wp (toggle_tenant_status_view k request) (fun _ w' => isolated u w w') w.
Proof.
  intros Hu. unfold toggle_tenant_status_view, request_user. rewrite Hu.
  apply wp_bind, wp_ret, wp_bind, wp_get_object_or_404;
    [intros row Hrow Hcond|intros _; untouched_leaf].
  own_tenant Hrow Hcond.
  all: match goal with
       | H : Tenant_db_save _ _ = Ok _ |- _ =>
           apply Tenant_db_save_Ok in H
             as (kt & _ & _ & _ & _ & Hkt & _ & _ & ->);
           simpl in Hkt; destruct Hkt as [Hkt|[Hkt _]]; [|discriminate Hkt];
           injection Hkt as <-
       end.
  all: unfold isolated; simpl; split; [reflexivity|split; [reflexivity|]];
       intros i other Hi Hno; split; [|reflexivity];
       rewrite lookup_insert_ne; [exact Hi|];
       intros ->; by apply (other_row u (store w) i i row other).
Qed.

Lemma delete_tenant_isolated (k : Z) (request : Request) (w : World)
      (u : User) :
  user request = Some u -> tenant_user_unique (store w) ->
  wp (delete_tenant_view k request) (fun _ w' => isolated u w w') w.
Proof.
  intros Hu Huniq. unfold delete_tenant_view, request_user. rewrite Hu.
  destruct (is_post request); [|wp_run; untouched_leaf].
  apply wp_bind, wp_bind, wp_ret, wp_bind, wp_get_object_or_404;
    [intros row Hrow Hcond|intros _; untouched_leaf].
  own_tenant Hrow Hcond.
  match goal with
  | H : context [users (store w) !! t_user row] |- _ =>
      destruct (users (store w) !! t_user row) as [urow|];
      [|discriminate H]; simpl in H; simplify_eq
  end.
  simpl in *; simplify_eq.
  unfold Tenant_db_delete, User_db_delete in *. simplify_eq.
  all: unfold isolated; simpl; split; [reflexivity|split; [reflexivity|]];
       intros i other Hi Hno;
       pose proof (other_row u (store w) _ i row other Hrow Hcond Hi Hno)
         as Hne;
       assert (t_user other <> t_user row) as Hdiff
         by (intros E; apply Hne; exact (Huniq i _ other row Hi Hrow E));
       split; [|by rewrite lookup_delete_ne].
  all: apply map_lookup_filter_Some; split; [|exact Hdiff];
       by rewrite lookup_delete_ne.
Qed.

Lemma update_tenant_isolated (env : Env) (k : Z) (request : Request)
      (w : World) (u : User) :
  user request = Some u -> tenant_user_unique (store w) ->
  wp (update_tenant_view env k request) (fun _ w' => isolated u w w') w.
Proof.
  intros Hu Huniq. unfold update_tenant_view, request_user. rewrite Hu.
  apply wp_bind, wp_ret, wp_bind, wp_get_object_or_404;
    [intros row Hrow Hcond|intros _; untouched_leaf].
  own_tenant Hrow Hcond.
  all: match goal with
       | H : context [users (store ?w0) !! ?key] |- _ =>
           destruct (users (store w0) !! key) as [urow|];
           [|discriminate H]; simpl in H; simplify_eq
       end.
  all: match goal with
       | H : User_full_clean_in _ _ _ = Ok _ |- _ =>
           apply User_full_clean_in_Ok in H as (Hpk & _); simpl in Hpk
       end.
  all: match goal with
       | H : User_db_save (if ?c then _ else _) _ = Ok _ |- _ =>
           destruct c;
           apply User_db_save_Ok in H as (ku & -> & Hku & ->);
           simpl in Hku;
           (destruct Hku as [Hku|[Hku _]]; [|congruence]);
           rewrite Hpk in Hku; injection Hku as <-
       end.
  all: match goal with
       | H : Tenant_full_clean_in _ _ = Ok _ |- _ =>
           apply Tenant_full_clean_in_Ok in H as (Htpk & _); simpl in Htpk
       end.
  all: match goal with
       | H : Tenant_db_save _ _ = Ok _ |- _ =>
           apply Tenant_db_save_Ok in H
             as (kt & _ & _ & _ & _ & Hkt & _ & _ & ->);
           (destruct Hkt as [Hkt|[Hkt _]]; [|congruence]);
           rewrite Htpk in Hkt; injection Hkt as <-
       end.
  all: unfold isolated; simpl; split; [reflexivity|split; [reflexivity|]];
       intros i other Hi Hno;
       match goal with
       | Hrow : tenants (store ?w0) !! ?k = Some ?row |- _ =>
           pose proof (other_row u (store w0) k i row other Hrow Hcond Hi Hno)
             as Hne;
           assert (t_user other <> t_user row) as Hdiff
             by (intros E; apply Hne; exact (Huniq i k other row Hi Hrow E))
       end;
       split; [by rewrite lookup_insert_ne|by rewrite lookup_insert_ne].
Qed.

Lemma view_isolated (env : Env) (h : Handler) (request : Request)
      (w : World) (u : User) :
  required_role h = "OWNER" -> user request = Some u ->
  tenant_user_unique (store w) -> tenant_users_exist (store w) ->
  wp (view env h request) (fun _ w' => isolated u w w') w.
Proof.
  intros Hrole Hu Huniq Hex.
  destruct h; simpl in Hrole; try discriminate Hrole; simpl view.
  - unfold owner_dashboard_view. wp_run. untouched_leaf.
  - unfold owner_flats_view. wp_run. untouched_leaf.
  - unfold owner_bills_view. wp_run. untouched_leaf.
  - by apply create_tenant_isolated.
  - unfold tenant_list_view. wp_run. untouched_leaf.
  - by apply toggle_tenant_status_isolated.
  - by apply update_tenant_isolated.
  - by apply delete_tenant_isolated.
Qed.

(** X12. An owner's requests stay with the owner's tenants. Whatever an
    owner sends to a handler of the owner pages, on a store that keeps
    the uniqueness and the existence of the tenants' users, the
    societies and the bills are as they were, and so is every tenant row
    of a flat that is not the owner's, together with the row of its
    user. *)
Theorem owners_write_only_their_tenants (env : Env) (h : Handler)
        (request : Request) (w : World) (u : User) :
  required_role h = "OWNER" -> user request = Some u ->
  tenant_user_unique (store w) -> tenant_users_exist (store w) ->
  isolated u w (snd (handle env h request w)).
Proof.
  intros Hrole Hu Huniq Hex.
  destruct (gate_outcome env h request w) as [->|[(r & ->)|(r & n & ->)]].
  - exact (view_isolated env h request w u Hrole Hu Huniq Hex).
  - simpl. untouched_leaf.
  - simpl. untouched_leaf.
Qed.

(** ** Where the redirects lead *)






(** ** Numerals *)

Lemma pretty_N_char_digit (d : N) :
  (d < 10)%N ->
  Py.is_digit (pretty_N_char d) = true
  /\ Py.digit_val (pretty_N_char d) = Z.of_N d.
Proof.
  intros Hd.
  assert (d = 0 \/ d = 1 \/ d = 2 \/ d = 3 \/ d = 4 \/ d = 5 \/ d = 6
          \/ d = 7 \/ d = 8 \/ d = 9)%N as H by lia.
  repeat (destruct H as [->|H]; [by vm_compute|]). subst d. by vm_compute.
Qed.

Lemma pretty_N_go_digits (x : N) (s : string) :
  Py.all_chars Py.is_digit (pretty_N_go x s) = Py.all_chars Py.is_digit s.
Proof.
  revert s. induction (N.lt_wf_0 x) as [x _ IH]; intros s.
  destruct (decide (x = 0)%N) as [->|Hx]; [done|].
  rewrite pretty_N_go_step by lia.
  rewrite IH by (apply N.div_lt; lia). simpl.
  destruct (pretty_N_char_digit (x mod 10)) as [-> _]; [|done].
  apply N.mod_lt. lia.
Qed.

Lemma pretty_N_go_value (x : N) :
  (0 < x)%N ->
  exists m, forall s acc prev,
    Py.int_digits (pretty_N_go x s) acc prev
    = Py.int_digits s (acc * m + Z.of_N x) true.
Proof.
  induction (N.lt_wf_0 x) as [x _ IH]; intros Hx.
  destruct (pretty_N_char_digit (x mod 10)) as [Hd Hv];
    [apply N.mod_lt; lia|].
  assert (Z.of_N x = 10 * Z.of_N (x / 10) + Z.of_N (x mod 10)) as Hdiv.
  { rewrite (N.div_mod x 10) at 1 by lia. lia. }
  destruct (decide (x / 10 = 0)%N) as [E|E].
  - exists 10. intros s acc prev. rewrite pretty_N_go_step by done.
    rewrite E, pretty_N_go_0. simpl. rewrite Hd, Hv.
    f_equal. rewrite Hdiv, E. lia.
  - destruct (IH (x / 10)%N) as [m Hm];
      [apply N.div_lt; lia|by apply N.neq_0_lt_0|].
    exists (10 * m). intros s acc prev. rewrite pretty_N_go_step by done.
    rewrite Hm. simpl. rewrite Hd, Hv. f_equal. rewrite Hdiv. lia.
Qed.

Lemma pretty_head (k : Z) :
  0 <= k ->
  exists c r, pretty k = String c r /\ Py.is_digit c = true.
Proof.
  intros Hk. destruct k as [|p|p]; [by exists "0"%char, ""| |lia].
  change (pretty (Z.pos p)) with (pretty_N_go (N.pos p) "").
  pose proof (pretty_N_go_digits (N.pos p) "") as Hall.
  destruct (pretty_N_go (N.pos p) "") as [|c r] eqn:E.
  - exfalso. destruct (pretty_N_go_value (N.pos p)) as [m Hm]; [lia|].
    specialize (Hm "" 0 false). rewrite E in Hm. simpl in Hm. discriminate.
  - exists c, r. split; [done|]. simpl in Hall.
    by apply andb_true_iff in Hall as [? _].
Qed.

Lemma pretty_all_digits (k : Z) :
  0 <= k -> Py.all_chars Py.is_digit (pretty k) = true.
Proof.
  intros Hk. destruct k as [|p|p]; [done| |lia].
  change (pretty (Z.pos p)) with (pretty_N_go (N.pos p) "").
  by rewrite pretty_N_go_digits.
Qed.

Lemma digit_not_int_space (c : ascii) :
  Py.is_digit c = true -> Py.is_int_space c = false.
Proof.
  unfold Py.is_digit, Py.is_int_space. generalize (Py.code c). intros n H.
  apply andb_true_iff in H as [H1 H2].
  apply Z.leb_le in H1, H2.
  destruct (Z.leb_spec 9 n), (Z.leb_spec n 13), (Z.eqb_spec n 32),
    (Z.eqb_spec n 133), (Z.eqb_spec n 160); simpl; try done; lia.
Qed.

Lemma int_lstrip_digits (s : string) :
  Py.all_chars Py.is_digit s = true -> Py.int_lstrip s = s.
Proof.
  destruct s as [|c r]; [done|]. simpl. intros H.
  apply andb_true_iff in H as [H _]. by rewrite (digit_not_int_space c H).
Qed.

Lemma rev_onto_rev_onto (s acc acc' : string) :
  Py.rev_onto (Py.rev_onto s acc) acc' = Py.rev_onto acc (s +:+ acc').
Proof.
  revert acc acc'. induction s as [|c s IH]; intros acc acc'; [done|].
  simpl. rewrite IH. done.
Qed.

Lemma append_cons (c : ascii) (s t : string) :
  String c s +:+ t = String c (s +:+ t).
Proof. reflexivity. Qed.

Lemma append_nil (t : string) : "" +:+ t = t.
Proof. reflexivity. Qed.

Lemma append_empty (s : string) : s +:+ "" = s.
Proof.
  induction s as [|c s IH]; [done|]. rewrite append_cons. by rewrite IH.
Qed.

Lemma int_strip_digits (s : string) :
  Py.all_chars Py.is_digit s = true ->
  Py.reverse (Py.int_lstrip (Py.reverse (Py.int_lstrip s))) = s.
Proof.
  intros H. unfold Py.reverse.
  rewrite (int_lstrip_digits s H).
  rewrite int_lstrip_digits by (by rewrite all_chars_rev_onto, H).
  rewrite rev_onto_rev_onto. simpl. apply append_empty.
Qed.

Lemma count_chars_le_len (p : ascii -> bool) (s : string) :
  Py.count_chars p s <= Py.len s.
Proof.
  unfold Py.len. induction s as [|c s IH]; simpl; [done|].
  destruct (p c); lia.
Qed.

Lemma pretty_N_go_length (n : nat) (x : N) (s : string) :
  (x < 10 ^ N.of_nat n)%N ->
  (String.length (pretty_N_go x s) <= n + String.length s)%nat.
Proof.
  revert x s. induction n as [|n IH]; intros x s Hx.
  - assert (x = 0%N) as -> by (simpl in Hx; lia).
    by rewrite pretty_N_go_0.
  - destruct (decide (x = 0%N)) as [->|Hne].
    + rewrite pretty_N_go_0. lia.
    + rewrite pretty_N_go_step by lia.
      etrans; [apply IH|simpl; lia].
      rewrite Nat2N.inj_succ, N.pow_succ_r' in Hx.
      apply N.Div0.div_lt_upper_bound. lia.
Qed.

(** A key of 64 bits has at most 19 digits. *)
Lemma pretty_len (k : Z) : 0 <= k < 2 ^ 63 -> Py.len (pretty k) <= 19.
Proof.
  intros [Hk Hlt]. unfold Py.len.
  destruct k as [|p|p]; [done| |lia].
  change (pretty (Z.pos p)) with (pretty_N_go (N.pos p) "").
  pose proof (pretty_N_go_length 19 (N.pos p) "") as H.
  simpl String.length in H.
  assert (N.pos p < 10 ^ N.of_nat 19)%N as Hb.
  { change (10 ^ N.of_nat 19)%N with 10000000000000000000%N. lia. }
  specialize (H Hb). lia.
Qed.

(** [int(str(k)) == k] for a key. *)
Lemma int_pretty (k : Z) : 0 <= k < 2 ^ 63 -> Py.int (pretty k) = Some k.
Proof.
  intros Hk. unfold Py.int. cbv zeta.
  rewrite int_strip_digits by (apply pretty_all_digits; lia).
  assert ((Py.max_str_digits <? Py.count_chars Py.is_digit (pretty k))
          = false) as ->.
  { apply Z.ltb_ge. etrans; [apply count_chars_le_len|].
    etrans; [by apply pretty_len|]. done. }
  destruct Hk as [Hk _].
  destruct k as [|p|p]; [done| |lia].
  change (pretty (Z.pos p)) with (pretty_N_go (N.pos p) "").
  destruct (pretty_N_go_value (N.pos p)) as [m Hm]; [lia|].
  destruct (pretty_head (Z.pos p)) as (c & r & E & Hc); [lia|].
  change (pretty (Z.pos p)) with (pretty_N_go (N.pos p) "") in E.
  transitivity (Py.int_digits (pretty_N_go (N.pos p) "") 0 false).
  - rewrite E. clear E Hm.
    destruct c as [[] [] [] [] [] [] [] []];
      first [reflexivity | discriminate Hc].
  - rewrite Hm. simpl. f_equal; lia.
Qed.

Lemma span_digits_pretty (k : Z) (rest : string) :
  0 <= k ->
  match rest with String c _ => Py.is_digit c = false | _ => True end ->
  span_digits (pretty k +:+ rest) = (pretty k, rest).
Proof.
  intros Hk Hrest. pose proof (pretty_all_digits k Hk) as Hall.
  revert Hall. generalize (pretty k). intros d.
  induction d as [|c d IH]; intros Hall.
  - rewrite append_nil. destruct rest as [|c r]; [done|]. simpl.
    by rewrite Hrest.
  - simpl in Hall. apply andb_true_iff in Hall as [Hc Hd].
    rewrite append_cons. simpl. rewrite Hc, (IH Hd). done.
Qed.

(** The [int] converter on the numeral of a key, followed by a literal
    that starts with a slash. *)
Lemma match_route_int (n : string) (rest : list Segment) (k : Z)
      (after : string) :
  0 <= k < 2 ^ 63 ->
  match_route (IntConverter n :: rest) (pretty k +:+ String "/" after)
  = match match_route rest (String "/" after) with
    | Some args => Some (k :: args)
    | None => None
    end.
Proof.
  intros Hk. cbn [match_route].
  rewrite span_digits_pretty by (done || lia). cbn [fst snd].
  rewrite int_pretty by done.
  assert (Py.truthy (pretty k) = true) as ->
    by (destruct (pretty_head k (proj1 Hk)) as (c & r & -> & _); done).
  reflexivity.
Qed.

(** ** Routes *)

Lemma match_route_lit (text : string) (rest : list Segment) (p : string) :
  match_route (Lit text :: rest) p
  = match strip_prefix text p with
    | Some p' => match_route rest p'
    | None => None
    end.
Proof. reflexivity. Qed.

Lemma match_route_end (p : string) :
  match_route [] p = if Py.truthy p then None else Some [].
Proof. reflexivity. Qed.

Lemma resolve_in_cons (pat : UrlPattern) (rest : list UrlPattern)
      (p : string) :
  resolve_in (pat :: rest) p
  = match match_route (p_route pat) p with
    | Some args => Some (pat, args)
    | None => resolve_in rest p
    end.
Proof. reflexivity. Qed.

Lemma truthy_pretty (k : Z) : 0 <= k -> Py.truthy (pretty k) = true.
Proof. intros Hk. by destruct (pretty_head k Hk) as (c & r & -> & _). Qed.

(** X15. The routes of [urls.py] do not shadow one another: the path a
    route gives for its arguments (none, or one key of the store, a
    number from 0 up to what 64 bits hold) resolves to that very route,
    with the same arguments. So every link built from a route name
    reaches the view the name stands for. *)
Theorem routes_round_trip (pat : UrlPattern) (args : list Z) (p : string) :
  pat ∈ urlpatterns -> Forall (fun k => k < 2 ^ 63) args ->
  fill (p_route pat) args = Some p ->
  resolve p = Some (pat, args).
Proof.
  unfold urlpatterns. intros Hin Hkeys Hfill.
  repeat (apply elem_of_cons in Hin as [->|Hin]);
    [..|by apply elem_of_nil in Hin].
  all: cbn -[String.append pretty Z.ltb] in Hfill.
  all: destruct args as [|k [|k' args]];
       cbn -[String.append pretty Z.ltb] in Hfill; try discriminate Hfill.
  all: try (injection Hfill as <-; vm_compute; reflexivity).
  all: destruct (Z.ltb_spec k 0) as [|Hk];
       cbn -[String.append pretty Z.ltb] in Hfill; try discriminate Hfill;
       injection Hfill as <-.
  all: apply Forall_cons in Hkeys as [Hkey _].
  all: rewrite !append_cons, !append_nil.
  all: unfold resolve, urlpatterns;
       cbn -[String.append pretty span_digits Py.int].
  all: rewrite !span_digits_pretty by done; cbn [fst snd];
       rewrite !int_pretty by (split; assumption);
       rewrite !truthy_pretty by done.
  all: reflexivity.
Qed.

(** ** The pages of a tenant *)

(** With [Tenant.user] unique, the tenants of a user are none or one. *)
Lemma tenants_of_user (s : Store) (k : Z) :
  tenant_user_unique s ->
  let found := map_to_list
                 (filter (fun kv : Z * Tenant => Some (t_user (snd kv)) = Some k)
                         (tenants s)) in
  (found = [] /\ forall i t, tenants s !! i = Some t -> t_user t <> k)
  \/ exists i t, found = [(i, t)] /\ tenants s !! i = Some t /\ t_user t = k.
Proof.
  intros Huniq found.
  assert (forall i t, (i, t) ∈ found <-> tenants s !! i = Some t /\ t_user t = k)
    as Hin.
  { intros i t. subst found. rewrite elem_of_map_to_list.
    rewrite map_lookup_filter_Some. simpl. split.
    - intros [H1 H2]. split; [done|congruence].
    - intros [H1 H2]. split; [done|congruence]. }
  assert (NoDup found) as Hnd by apply NoDup_map_to_list.
  destruct found as [|[i t] rest] eqn:E.
  - left. split; [done|]. intros i t Hi Hk.
    assert ((i, t) ∈ ([] : list (Z * Tenant))) as Hbad by (apply Hin; done).
    by apply elem_of_nil in Hbad.
  - right. exists i, t.
    assert (tenants s !! i = Some t /\ t_user t = k) as [Hi Hk].
    { apply Hin. apply elem_of_cons. by left. }
    split; [|done]. f_equal.
    destruct rest as [|[j t'] rest']; [done|]. exfalso.
    assert (tenants s !! j = Some t' /\ t_user t' = k) as [Hj Hk'].
    { apply Hin. apply elem_of_cons. right. apply elem_of_cons. by left. }
    assert (i = j) as <- by (apply (Huniq i j t t' Hi Hj); congruence).
    assert (t' = t) as -> by congruence.
    apply NoDup_cons in Hnd as [Hnot _]. apply Hnot.
    apply elem_of_cons. by left.
Qed.

(** X16. In a reachable store the two pages of a tenant never fail. A
    visitor who is the user of no tenant row gets the context without a
    tenant. A visitor who is the user of a tenant row is the user of
    that row only, and gets that tenant with its flat and the society of
    the flat, and on [tenant_flat] the owner of the flat when it has
    one. The store is only read. *)
Theorem tenant_pages_show_the_tenancy (request : Request) (w : World)
        (u : User) (k : Z) :
  reachable (store w) -> user request = Some u -> u_pk u = Some k ->
  ((forall i t, tenants (store w) !! i = Some t -> t_user t <> k)
   /\ tenant_dashboard_context request w = (Ok None, w)
   /\ tenant_flat_context request w = (Ok None, w))
  \/ exists i t f so,
       tenants (store w) !! i = Some t /\ t_user t = k
       /\ (forall j t', tenants (store w) !! j = Some t' -> t_user t' = k ->
             j = i)
       /\ flats (store w) !! t_flat t = Some f
       /\ societies (store w) !! f_society f = Some so
       /\ tenant_dashboard_context request w
          = (Ok (Some (t_set_pk (Some i) t, f_set_pk (Some (t_flat t)) f,
                       s_set_pk (Some (f_society f)) so)), w)
       /\ exists owner,
            tenant_flat_context request w
            = (Ok (Some (t_set_pk (Some i) t, f_set_pk (Some (t_flat t)) f,
                         s_set_pk (Some (f_society f)) so, owner)), w)
            /\ match f_owner f with
               | None => owner = None
               | Some o => exists row, users (store w) !! o = Some row
                                       /\ owner = Some (u_set_pk (Some o) row)
               end.
Proof.
  intros Hreach Hu Hpk.
  destruct (reachable_schema _ Hreach)
    as ((Huniq & _ & _) & Hfs & Hfo & Htf & _).
  unfold tenant_dashboard_context, tenant_flat_context, tenant_or_none,
    request_user, tenant_of_user, bind, try_except, query, ret, raise.
  rewrite Hu, Hpk.
  destruct (tenants_of_user (store w) k Huniq) as [[E Hnone]|(i & t & E & Hi & Hk)];
    simpl in E; rewrite E.
  - left. done.
  - right. destruct (Htf i t Hi) as [f Hf].
    destruct (Hfs _ f Hf) as [so Hso].
    exists i, t, f, so.
    split; [done|]. split; [done|]. split.
    { intros j t' Hj Hk'. apply (Huniq j i t' t Hj Hi). congruence. }
    split; [done|]. split; [done|].
    unfold related, objects_get, query, load. simpl.
    rewrite Hf. simpl. rewrite Hso. simpl. split; [done|].
    destruct (f_owner f) as [o|] eqn:Ho.
    + destruct (Hfo _ f o Hf Ho) as [row Hrow].
      exists (Some (u_set_pk (Some o) row)). simpl. rewrite Hrow. simpl.
      split; [done|]. by exists row.
    + by exists None.
Qed.

(** ** The two readings of a date *)

(** The characters the directives tell apart. *)
Lemma char_cases (a : ascii) :
  a = "0"%char \/ a = "1"%char \/ a = "2"%char \/ a = "3"%char
  \/ a = " "%char \/ a = "-"%char
  \/ (Ascii.eqb a "0" = false /\ Ascii.eqb a "1" = false
      /\ Ascii.eqb a "2" = false /\ Ascii.eqb a "3" = false
      /\ Ascii.eqb a " " = false /\ Ascii.eqb a "-" = false).
Proof.
  destruct a as [[] [] [] [] [] [] [] []];
    first [ by left
          | by (right; left)
          | by (right; right; left)
          | by (right; right; right; left)
          | by (right; right; right; right; left)
          | by (right; right; right; right; right; left)
          | by (right; right; right; right; right; right) ].
Qed.

Lemma digit_not_blank (c : ascii) :
  Py.is_digit c = true -> Ascii.eqb c " " = false /\ Ascii.eqb c "-" = false.
Proof.
  destruct (char_cases c) as [->|[->|[->|[->|[->|[->|H]]]]]]; try done.
  tauto.
Qed.

(** The tests on the characters that are known. *)
Ltac known_chars :=
  repeat match goal with
         | |- context [Py.is_digit (Ascii ?a ?b ?c ?d ?e ?f ?g ?h)] =>
             let v := eval vm_compute in (Py.is_digit (Ascii a b c d e f g h)) in
             change (Py.is_digit (Ascii a b c d e f g h)) with v
         | |- context [Py.digit_val (Ascii ?a ?b ?c ?d ?e ?f ?g ?h)] =>
             let v := eval vm_compute in (Py.digit_val (Ascii a b c d e f g h)) in
             change (Py.digit_val (Ascii a b c d e f g h)) with v
         | H : context [Py.is_digit (Ascii ?a ?b ?c ?d ?e ?f ?g ?h)] |- _ =>
             let v := eval vm_compute in (Py.is_digit (Ascii a b c d e f g h)) in
             change (Py.is_digit (Ascii a b c d e f g h)) with v in H
         | H : context [Py.digit_val (Ascii ?a ?b ?c ?d ?e ?f ?g ?h)] |- _ =>
             let v := eval vm_compute in (Py.digit_val (Ascii a b c d e f g h)) in
             change (Py.digit_val (Ascii a b c d e f g h)) with v in H
         end.

Ltac by_char c :=
  let H := fresh "Hc" in
  destruct (char_cases c) as [->|[->|[->|[->|[->|[->|H]]]]]];
  [..|destruct H as (?&?&?&?&?&?)].

Ltac char_tests :=
  repeat match goal with
         | E : Ascii.eqb ?c ?k = false |- context [Ascii.eqb ?c ?k] =>
             rewrite E
         | E : Ascii.eqb ?c ?k = false, H : context [Ascii.eqb ?c ?k] |- _ =>
             rewrite E in H
         | E : Py.is_digit ?c = _ |- context [Py.is_digit ?c] => rewrite E
         | E : Py.is_digit ?c = _, H : context [Py.is_digit ?c] |- _ =>
             rewrite E in H
         end.

(** The day of [%d] against the day of [\d{1,2}]. *)
Lemma strptime_d_day (r : string) (d : Z) :
  Py.strptime_d r = Some (d, EmptyString) ->
  Field.one_or_two_digits r
  = if Py.all_chars (fun c => negb (Ascii.eqb c " ")) r
    then Some (d, EmptyString) else None.
Proof.
  destruct r as [|a [|b [|c r]]]; [done| | |].
  - unfold Py.strptime_d, Field.one_or_two_digits, Py.all_chars.
    destruct (Py.is_digit a) eqn:Ea; [|done].
    destruct (digit_not_blank a Ea) as [-> _]. simpl.
    by destruct (Ascii.eqb a "0").
  - unfold Py.strptime_d, Field.one_or_two_digits, Py.all_chars.
    intros H.
    destruct (Py.is_digit b) eqn:Eb.
    + destruct (digit_not_blank b Eb) as [Hb _]. rewrite Hb.
      by_char a; known_chars; char_tests;
        cbn -[Py.is_digit Py.digit_val Z.leb Z.mul Z.add] in *;
        repeat case_match; simplify_eq; try done.
      all: try (repeat f_equal; lia).
    + exfalso. rewrite ?andb_false_r in H. simpl in H.
      repeat case_match; simplify_eq.
  - unfold Py.strptime_d. intros H. exfalso.
    repeat case_match; simplify_eq.
Qed.

Ltac each_char c :=
  destruct c as [[] [] [] [] [] [] [] []].

(** The month of [%m] before a hyphen is the month of [\d{1,2}]. *)
Lemma strptime_m_month (r : string) (m : Z) (r' : string) :
  Py.strptime_m r = Some (m, String "-" r') ->
  Field.one_or_two_digits r = Some (m, String "-" r')
  /\ Py.all_chars (fun c => negb (Ascii.eqb c " ")) r
     = Py.all_chars (fun c => negb (Ascii.eqb c " ")) r'.
Proof.
  destruct r as [|a [|b r1]]; [done| |].
  - unfold Py.strptime_m. intros H. by repeat case_match.
  - unfold Py.strptime_m, Field.one_or_two_digits. intros H.
    cbn [Py.all_chars].
    destruct (Py.is_digit a) eqn:Ea.
    + destruct (digit_not_blank a Ea) as [-> _].
      destruct (Py.is_digit b) eqn:Eb.
      * destruct (digit_not_blank b Eb) as [Hb Hb']. rewrite Hb.
        by_char a; known_chars; char_tests;
          cbn -[Py.is_digit Py.digit_val Z.leb Z.mul Z.add] in *;
          repeat case_match; simplify_eq; try done.
        all: try (split; [repeat f_equal; lia|done]).
        all: by rewrite Ascii.eqb_refl in Hb'.
      * rewrite ?andb_false_r in H. simpl in H.
        repeat case_match; simplify_eq. done.
    + exfalso. rewrite ?andb_false_r in H. simpl in H.
      by_char a; known_chars; char_tests;
        cbn -[Py.is_digit Py.digit_val Z.leb Z.mul Z.add] in *;
        repeat case_match; simplify_eq.
Qed.

(** The one-digit month is tried again only where it was found before. *)
Lemma month_tried_once (r : string) (m : Z) (rest : string)
      (K : Z -> string -> option Py.date) (dd : Py.date) :
  Py.strptime_m r = Some (m, rest) ->
  (forall r', rest <> String "-" r') ->
  match r with
  | String a r1 =>
      if Py.is_digit a && negb (Ascii.eqb a "0")
      then match r1 with
           | String "-" r' => K (Py.digit_val a) r'
           | _ => None
           end
      else None
  | EmptyString => None
  end = Some dd -> False.
Proof.
  intros Em Hrest H. destruct r as [|a r1]; [done|].
  destruct (Py.is_digit a && negb (Ascii.eqb a "0")) eqn:Ea; [|done].
  destruct r1 as [|c r']; [done|].
  each_char c; try discriminate H.
  unfold Py.strptime_m in Em. rewrite Ea in Em.
  change (Py.is_digit "-") with false in Em.
  rewrite !andb_false_r in Em. simpl in Em.
  injection Em as _ <-. by apply (Hrest r').
Qed.

(** X17. A date that [strptime('%Y-%m-%d')] reads, as the handlers of a
    tenant check it, is read by the date field of the model as the same
    date when it holds no blank, and is refused by the field as badly
    formatted when it holds one (the day written as a blank and a
    digit). *)
Theorem strptime_against_date_field (s : string) (d : Py.date) :
  Py.strptime_ymd s = Some d ->
  Field.parse_date s
  = if Py.all_chars (fun c => negb (Ascii.eqb c " ")) s
    then Some (Some d) else None.
Proof.
  destruct s as [|y1 [|y2 [|y3 [|y4 [|h r]]]]]; try done.
  each_char h; try (intros H; discriminate H).
  unfold Py.strptime_ymd, Field.parse_date. cbn [Py.all_chars].
  destruct (Py.is_digit y1) eqn:E1; [|done].
  destruct (Py.is_digit y2) eqn:E2; [|done].
  destruct (Py.is_digit y3) eqn:E3; [|done].
  destruct (Py.is_digit y4) eqn:E4; [|done].
  destruct (digit_not_blank _ E1) as [-> _].
  destruct (digit_not_blank _ E2) as [-> _].
  destruct (digit_not_blank _ E3) as [-> _].
  destruct (digit_not_blank _ E4) as [-> _].
  cbn [andb negb]. change (Ascii.eqb "-" " ") with false. cbn [andb negb].
  set (y := 1000 * Py.digit_val y1 + 100 * Py.digit_val y2
            + 10 * Py.digit_val y3 + Py.digit_val y4).
  destruct (Py.strptime_m r) as [[m rest]|] eqn:Em; [|done].
  intros H.
  assert (exists r', rest = String "-" r') as [r' ->].
  { destruct rest as [|c rest'].
    - exfalso.
      exact (month_tried_once r m EmptyString
               (fun m0 r' => match Py.strptime_d r' with
                             | Some (d0, EmptyString) => Py.make_date y m0 d0
                             | _ => None
                             end) d Em ltac:(done) H).
    - each_char c;
        try (exfalso;
             exact (month_tried_once r m _
               (fun m0 r' => match Py.strptime_d r' with
                             | Some (d0, EmptyString) => Py.make_date y m0 d0
                             | _ => None
                             end) d Em ltac:(done) H)).
      by exists rest'. }
  cbn [fst snd] in H.
  destruct (Py.strptime_d r') as [[d0 [|]]|] eqn:Hd; try done.
  destruct (strptime_m_month r m r' Em) as [-> ->].
  change (Ascii.eqb "-" " ") with false. cbn [andb negb Py.all_chars].
  rewrite (strptime_d_day r' d0 Hd).
  destruct (Py.all_chars _ r'); [|done].
  cbn. by rewrite H.
Qed.

(** ** The actions of the admin site on bills *)

Lemma update_status_run (status : string) (selected : Z -> bool) (w : World) :
  refusal w = None ->
  update_status status selected w
  = (Ok (Z.of_nat (size (filter (fun kv : Z * MaintenanceBill =>
                                   selected (fst kv) = true)
                                (bills (store w))))),
     set_store (mark_bills status selected (store w)) (tick w)).
Proof. intros H. unfold update_status, db_write. by rewrite H. Qed.

Lemma mark_bills_lookup (status : string) (selected : Z -> bool) (s : Store)
      (k : Z) :
  bills (mark_bills status selected s) !! k
  = (fun b => if selected k then b_set_status status b else b)
      <$> bills s !! k.
Proof.
  unfold mark_bills. simpl. rewrite map_lookup_imap.
  by destruct (bills s !! k).
Qed.

Lemma mark_bills_again (status status' : string) (selected : Z -> bool)
      (s : Store) :
  mark_bills status' selected (mark_bills status selected s)
  = mark_bills status' selected s.
Proof.
  unfold mark_bills, with_bills. simpl. f_equal.
  apply map_eq. intros k. rewrite !map_lookup_imap.
  destruct (bills s !! k) as [b|]; [|done]. simpl.
  by destruct (selected k).
Qed.

(** X18. While the store takes the write, the actions [mark_paid] and
    [mark_unpaid] of the admin site end without an exception and touch
    nothing but the status of the selected bills: no bill appears or
    disappears, a selected bill gets the status [PAID] (or [UNPAID]) and
    keeps its flat, month, year and amount, a bill that is not selected
    stays as it is, and the other four tables are as before. The notice
    (a success for [mark_paid], a warning for [mark_unpaid]) counts the
    selected bills of the store. An action hides what the same selection
    was marked with before: after [mark_paid], [mark_unpaid] on the same
    selection leaves the store that [mark_unpaid] alone leaves. *)
Theorem bill_actions_set_only_the_status (selected : Z -> bool) (w : World) :
  refusal w = None ->
  let count := Z.of_nat (size (filter (fun kv : Z * MaintenanceBill =>
                                         selected (fst kv) = true)
                                      (bills (store w)))) in
  let after (status : string) (w' : World) :=
    users (store w') = users (store w)
    /\ societies (store w') = societies (store w)
    /\ flats (store w') = flats (store w)
    /\ tenants (store w') = tenants (store w)
    /\ (forall k, bills (store w) !! k = None ->
                  bills (store w') !! k = None)
    /\ (forall k b, bills (store w) !! k = Some b ->
          exists b', bills (store w') !! k = Some b'
                     /\ b_flat b' = b_flat b /\ b_month b' = b_month b
                     /\ b_year b' = b_year b /\ b_amount b' = b_amount b
                     /\ b_status b' = if selected k then status
                                      else b_status b) in
  fst (mark_paid selected w) = Ok tt
  /\ after "PAID" (snd (mark_paid selected w))
  /\ notices (snd (mark_paid selected w))
     = notices w ++ [mkNotice SUCCESS
                       (pretty count +:+ " bill(s) marked as paid")]
  /\ fst (mark_unpaid selected w) = Ok tt
  /\ after "UNPAID" (snd (mark_unpaid selected w))
  /\ notices (snd (mark_unpaid selected w))
     = notices w ++ [mkNotice WARNING
                       (pretty count +:+ " bill(s) marked as unpaid")]
  /\ (refusal (snd (mark_paid selected w)) = None ->
      store (snd (mark_unpaid selected (snd (mark_paid selected w))))
      = store (snd (mark_unpaid selected w))).
Proof.
  intros Hup count after.
  assert (forall status, after status
            (set_store (mark_bills status selected (store w)) (tick w)))
    as Hafter.
  { intros status. unfold after. cbn [store set_store].
    repeat split; try done.
    - intros k Hk. by rewrite mark_bills_lookup, Hk.
    - intros k b Hk. rewrite mark_bills_lookup, Hk. simpl.
      eexists. split; [done|]. by destruct (selected k). }
  unfold mark_paid, mark_unpaid, bind.
  rewrite !update_status_run by done. fold count.
  cbn [fst snd message notices store set_store tick set_faults].
  split; [done|]. split; [exact (Hafter "PAID")|]. split; [done|].
  split; [done|]. split; [exact (Hafter "UNPAID")|]. split; [done|].
  intros Hup'. rewrite update_status_run by done.
  cbn [fst snd message notices store set_store tick set_faults].
  apply mark_bills_again.
Qed.

(** ** The columns of the admin lists *)

(** X19. In a reachable store the name columns of the admin lists never
    fail. The column of a tenant finds the user of the tenant and shows
    the full name, or the e-mail address when the names are blank. The
    column of a bill finds the flat of the bill and shows a hyphen when
    the flat has no owner, and otherwise the full name of the owner, or
    the e-mail address when the names are blank. *)
Theorem admin_name_columns_never_fail (w : World) :
  reachable (store w) ->
  let shown (u : User) :=
    if Py.truthy (get_full_name u) then get_full_name u else u_email u in
  (forall k t, tenants (store w) !! k = Some t ->
     exists u, users (store w) !! t_user t = Some u
               /\ get_tenant_name t w = (Ok (shown u), w))
  /\ (forall k b, bills (store w) !! k = Some b ->
        exists f, flats (store w) !! b_flat b = Some f
                  /\ match f_owner f with
                     | None => bill_get_owner b w = (Ok "-", w)
                     | Some o =>
                         exists u, users (store w) !! o = Some u
                                   /\ bill_get_owner b w = (Ok (shown u), w)
                     end).
Proof.
  intros Hreach shown.
  destruct (reachable_schema _ Hreach)
    as ((_ & Htu & _) & _ & Hfo & _ & Hbf & _).
  split.
  - intros k t Hk. destruct (Htu k t Hk) as [u Hu]. exists u.
    split; [done|].
    unfold get_tenant_name, related, objects_get, query, load, bind, ret.
    simpl. by rewrite Hu.
  - intros k b Hk. destruct (Hbf k b Hk) as [f Hf]. exists f.
    split; [done|].
    unfold bill_get_owner, related, objects_get, query, load, bind, ret.
    simpl. rewrite Hf. simpl.
    destruct (f_owner f) as [o|] eqn:Ho; [|done].
    destruct (Hfo _ f o Hf Ho) as [u Hu]. exists u. split; [done|].
    simpl. by rewrite Hu.
Qed.

Lemma length_append (s t : string) :
  String.length (s +:+ t) = (String.length s + String.length t)%nat.
Proof.
  induction s as [|c s IH]; [done|].
  change (S (String.length (s +:+ t))
          = S (String.length s + String.length t)). by rewrite IH.
Qed.

Lemma substring_prefix (n : nat) (s : string) :
  (n <= String.length s)%nat ->
  String.length (String.substring 0 n s) = n
  /\ exists rest, s = String.substring 0 n s +:+ rest.
Proof.
  revert s. induction n as [|n IH]; intros s Hn.
  - destruct s; simpl; (split; [done|]); eexists; reflexivity.
  - destruct s as [|c s]; simpl in Hn; [lia|].
    destruct (IH s ltac:(lia)) as [Hlen [rest Hrest]].
    simpl. split; [by rewrite Hlen|].
    exists rest.
    change (String c s = String c (String.substring 0 n s +:+ rest)).
    by f_equal.
Qed.

(** X20. The address column of the admin list of societies is never
    longer than 63 characters: an address of at most 60 characters is
    shown whole, a longer one as its first 60 characters and three
    dots. *)
Theorem address_column_is_short (obj : Society) :
  Py.len (get_address obj) <= 63
  /\ (Py.len (s_address obj) <= 60 -> get_address obj = s_address obj)
  /\ (60 < Py.len (s_address obj) ->
      exists shown rest,
        s_address obj = shown +:+ rest /\ Py.len shown = 60
        /\ get_address obj = shown +:+ "...").
Proof.
  unfold get_address, Py.len.
  destruct (Z.ltb_spec 60 (Z.of_nat (String.length (s_address obj))))
    as [Hlong|Hshort].
  - destruct (substring_prefix 60 (s_address obj) ltac:(lia))
      as [Hlen [rest Hrest]].
    split; [|split; [lia|]].
    + rewrite length_append, Hlen. simpl. lia.
    + intros _. exists (String.substring 0 60 (s_address obj)), rest.
      split; [done|]. split; [by rewrite Hlen|done].
  - split; [lia|]. split; [done|lia].
Qed.

(** ** The schema in the reachable stores *)

(** X21. No reference of a reachable store dangles: the society of
    every flat, the owner of every flat that has one, the flat and the
    user of every tenant and the flat of every bill are rows of the
    store, whatever the handlers and the admin site have saved and
    deleted, and whichever writes the store has refused. *)
Theorem references_never_dangle (s : Store) :
  reachable s ->
  (forall i f, flats s !! i = Some f ->
     (exists so, societies s !! f_society f = Some so)
     /\ (forall o, f_owner f = Some o -> exists u, users s !! o = Some u))
  /\ (forall i t, tenants s !! i = Some t ->
        (exists f, flats s !! t_flat t = Some f)
        /\ (exists u, users s !! t_user t = Some u))
  /\ (forall i b, bills s !! i = Some b ->
        exists f, flats s !! b_flat b = Some f).
Proof.
  intros Hreach.
  destruct (reachable_schema _ Hreach)
    as ((_ & Htu & _) & Hfs & Hfo & Htf & Hbf & _).
  split; [|split].
  - intros i f Hi. split; [exact (Hfs i f Hi)|].
    intros o Ho. exact (Hfo i f o Hi Ho).
  - intros i t Hi. split; [exact (Htf i t Hi)|exact (Htu i t Hi)].
  - intros i b Hi. exact (Hbf i b Hi).
Qed.

(** X22. The unique columns of a reachable store hold no duplicates: no
    two users share a username or an e-mail address, no two flats of a
    society share a flat number, no two tenants share a user, and no two
    bills share flat, month and year. *)
Theorem unique_columns_hold_no_duplicates (s : Store) :
  reachable s ->
  (forall i j u1 u2, users s !! i = Some u1 -> users s !! j = Some u2 ->
     i <> j ->
     u_username u1 <> u_username u2 /\ u_email u1 <> u_email u2)
  /\ (forall i j f1 f2, flats s !! i = Some f1 -> flats s !! j = Some f2 ->
        i <> j -> f_society f1 = f_society f2 ->
        f_flat_number f1 <> f_flat_number f2)
  /\ (forall i j t1 t2, tenants s !! i = Some t1 ->
        tenants s !! j = Some t2 -> i <> j -> t_user t1 <> t_user t2)
  /\ (forall i j b1 b2, bills s !! i = Some b1 -> bills s !! j = Some b2 ->
        i <> j ->
        ~ (b_flat b1 = b_flat b2 /\ b_month b1 = b_month b2
           /\ b_year b1 = b_year b2)).
Proof.
  intros Hreach.
  destruct (reachable_schema _ Hreach)
    as ((Htu & _ & Hbk) & _ & _ & _ & _ & Hun & Hfk).
  split; [|split; [|split]].
  - intros i j u1 u2 Hi Hj Hne.
    split; intros E; apply Hne; apply (Hun i j u1 u2); auto.
  - intros i j f1 f2 Hi Hj Hne Hso E. apply Hne.
    by apply (Hfk i j f1 f2).
  - intros i j t1 t2 Hi Hj Hne E. apply Hne. by apply (Htu i j t1 t2).
  - intros i j b1 b2 Hi Hj Hne (E1 & E2 & E3). apply Hne.
    apply (Hbk i j b1 b2 Hi Hj). unfold same_bill_key.
    rewrite E1, E2, E3, Z.eqb_refl, String.eqb_refl, Z.eqb_refl. done.
Qed.

(** * The handlers on concrete requests *)

Module Run.
Import Example Cases.

(** C1. [Flat.society], [Tenant.flat] and [MaintenanceBill.flat] are
    declared [on_delete=CASCADE]: deleting society 1, which contains flats
    1 and 2, succeeds and takes the flats, the tenant and the bill with
    it; deleting flat 1, which has a tenant and a bill, succeeds and takes
    both with it. The [IntegrityError] notices of the two handlers are
    never reached. *)
Theorem deletion_cascades_instead_of_failing :
  (is_Some (societies store0 !! 1) /\ f_society flat1 = 1
   /\ flats store0 !! 1 = Some flat1 /\ t_flat tenant1 = 1
   /\ tenants store0 !! 1 = Some tenant1 /\ b_flat bill1 = 1
   /\ bills store0 !! 1 = Some bill1)
  /\ (fst delete_society_1 = Ok (RedirectTo "core:society_list")
      /\ List.map n_level (notices (snd delete_society_1)) = [SUCCESS]
      /\ societies (store (snd delete_society_1)) !! 1 = None
      /\ flats (store (snd delete_society_1)) !! 1 = None
      /\ flats (store (snd delete_society_1)) !! 2 = None
      /\ tenants (store (snd delete_society_1)) !! 1 = None
      /\ bills (store (snd delete_society_1)) !! 1 = None)
  /\ (fst delete_flat_1 = Ok (RedirectTo "core:flat_list")
      /\ List.map n_level (notices (snd delete_flat_1)) = [SUCCESS]
      /\ flats (store (snd delete_flat_1)) !! 1 = None
      /\ tenants (store (snd delete_flat_1)) !! 1 = None
      /\ bills (store (snd delete_flat_1)) !! 1 = None).
Proof. vm_compute. repeat split; eauto. Qed.

(** C2, as the specification states it, fails: an administrator who asks
    to update owner 99, who does not exist, gets the [Http404] exception
    of [get_object_or_404], with no response and no notice; and a society
    whose name is too short is answered with the form page, not with a
    redirect. *)
Lemma not_every_failure_is_a_redirect :
  update_missing_owner = (Raise Http404, world0)
  /\ ~ (exists resp, fst update_missing_owner = Ok resp)
  /\ fst create_short_society = Ok (RenderPage "admin/society_list.html")
  /\ ~ (exists name, fst create_short_society = Ok (RedirectTo name))
  /\ List.map n_level (notices (snd create_short_society)) = [ERROR].
Proof.
  vm_compute. repeat split; intros [x H]; discriminate H.
Qed.

(** The store of the examples keeps its schema. *)
Lemma store0_tenant_users_exist : tenant_users_exist store0.
Proof.
  intros i t H. simpl in H.
  destruct (decide (i = 1)) as [->|Hne].
  - rewrite lookup_insert_eq in H. injection H as <-. by eexists.
  - rewrite lookup_insert_ne, lookup_empty in H by done. discriminate H.
Defined.

Lemma store0_bill1_unique (i : Z) (r : MaintenanceBill) :
  bills store0 !! i = Some r -> same_bill_key bill1 r = true -> i = 1.
Proof.
  intros H _. simpl in H.
  destruct (decide (i = 1)) as [->|Hne]; [done|].
  rewrite lookup_insert_ne, lookup_empty in H by done. discriminate H.
Defined.

Lemma superuser_saved_as_admin_witness :
  exists u' w', User_save root_as_tenant world0 = (Ok u', w')
    /\ u_is_superuser u' = true /\ u_role u' = ADMIN.
Proof.
  eexists _, _. split; [vm_compute; reflexivity|].
  match goal with
  | |- u_is_superuser ?u' = _ /\ _ =>
      pose proof (superuser_saved_as_admin root_as_tenant u' world0 _ eq_refl)
        as (Hs & Hr & _)
  end.
  split; [reflexivity|]. apply Hr. reflexivity.
Defined.

Lemma toggle_bill_status_involution_witness :
  let w1 := snd (handle env (toggle_bill_status 1) toggle_bill_1 world0) in
  let w2 := snd (handle env (toggle_bill_status 1) toggle_bill_1 w1) in
  bills store0 !! 1 = Some bill1 /\ b_status bill1 = UNPAID
  /\ (exists b1, bills (store w1) !! 1 = Some b1 /\ b_status b1 = PAID)
  /\ (exists b2, bills (store w2) !! 1 = Some b2 /\ b_status b2 = UNPAID).
Proof.
  intros w1 w2. split; [reflexivity|]. split; [reflexivity|].
  destruct (toggle_bill_status_involution env 1 toggle_bill_1 world0 bill1
              admin eq_refl eq_refl eq_refl (or_intror eq_refl)
              store0_bill1_unique eq_refl)
    as ((b1 & Hb1 & Hs1 & _) & _ & _ & _ & _ & _ & (b2 & Hb2 & Hs2 & _) & _).
  split; [exists b1|exists b2]; split; assumption.
Defined.

Lemma bill_year_validation_witness :
  today_year env + 1 < 3000
  /\ post_opt bill_3000 "year" = Some "3000"
  /\ store (snd (handle env create_bill bill_3000 world0)) = store0
  /\ fst (handle env create_bill bill_3000 world0)
     = Ok (RenderPage "admin/bill_list.html")
  /\ notices (snd (handle env create_bill bill_3000 world0))
     = [mkNotice ERROR "Validation error: Year cannot be more than 2027"].
Proof.
  assert (today_year env + 1 < 3000) as Hlt by (vm_compute; reflexivity).
  split; [exact Hlt|]. split; [reflexivity|].
  split; [|split; vm_compute; reflexivity].
  exact (proj2 (proj2 (proj2 (bill_year_validation env))) Hlt bill_3000 world0
               eq_refl).
Defined.

Lemma bill_for_ownerless_flat_rejected_witness :
  flats store0 !! 2 = Some flat2 /\ f_owner flat2 = None
  /\ exists errs, errs <> [] /\
       handle env create_bill bill_for_flat2 world0 =
         (Ok (RenderPage "admin/bill_list.html"),
          add_notice (mkNotice ERROR (validation_notice errs)) world0).
Proof.
  split; [reflexivity|]. split; [reflexivity|].
  exact (proj2 (proj2 (bill_for_ownerless_flat_rejected env))
               bill_for_flat2 world0 admin "2" "MARCH" "2026" "100.50"
               2 2026 (DecFin 10050 (-2)) flat2
               eq_refl eq_refl eq_refl eq_refl eq_refl eq_refl eq_refl
               eq_refl eq_refl eq_refl eq_refl eq_refl eq_refl eq_refl).
Defined.

Lemma early_start_date_rejected_witness :
  post_opt tenant_1999 "start_date" = Some "1999-01-01"
  /\ Field.parse_date "1999-01-01" = Some (Some (Py.Date 1999 1 1))
  /\ Py.date_ltb (Py.Date 1999 1 1) year_2000 = true
  /\ store (snd (handle env create_tenant tenant_1999 world0)) = store0
  /\ fst (handle env create_tenant tenant_1999 world0)
     = Ok (RenderPage "owner/tenant_list.html")
  /\ notices (snd (handle env create_tenant tenant_1999 world0))
     = [mkNotice ERROR
          "Validation error: Start date cannot be before year 2000"].
Proof.
  split; [reflexivity|]. split; [reflexivity|]. split; [reflexivity|].
  split; [|split; vm_compute; reflexivity].
  exact (proj1 (proj2 (early_start_date_rejected env)) tenant_1999 world0
               "1999-01-01" (Py.Date 1999 1 1) eq_refl eq_refl eq_refl).
Defined.

Lemma w4_reachable : reachable (store w4).
Proof.
  apply reach_handle, reach_handle, reach_handle.
  exact (reach_handle env create_owner _ (mkWorld empty_store [] [] [])
                      reach_empty).
Defined.

Lemma at_most_one_active_tenant_witness :
  exists t, reachable (store w4) /\ tenants (store w4) !! 1 = Some t
    /\ t_user t = 2 /\ t_is_active t = true /\ 1 = 1.
Proof.
  eexists. split; [exact w4_reachable|].
  split; [vm_compute; reflexivity|]. split; [reflexivity|].
  split; [reflexivity|].
  match goal with
  | |- ?i = _ =>
      eapply (at_most_one_active_tenant (store w4) 2 i i _ _ w4_reachable)
  end; vm_compute; reflexivity.
Defined.

Lemma handlers_answer_every_failure_witness :
  user update_owner_2 = Some admin /\ u_role admin = "ADMIN"
  /\ tenant_users_exist store0
  /\ answered (update_owner 2) update_owner_2 world0
       (fst (handle env (update_owner 2) update_owner_2 world0))
       (snd (handle env (update_owner 2) update_owner_2 world0)).
Proof.
  split; [reflexivity|]. split; [reflexivity|].
  split; [exact store0_tenant_users_exist|].
  exact (handlers_answer_every_failure env (update_owner 2) update_owner_2
           world0 admin eq_refl eq_refl store0_tenant_users_exist).
Defined.

End Run.

(** * The further properties on concrete requests *)

Module Checks.
Import Example Cases Visits.

Lemma store0_tenant_user_unique : tenant_user_unique store0.
Proof.
  intros i j t1 t2 Hi Hj _. simpl in Hi, Hj.
  destruct (decide (i = 1)) as [->|Hne];
    [|rewrite lookup_insert_ne, lookup_empty in Hi by done; discriminate Hi].
  destruct (decide (j = 1)) as [->|Hne]; [done|].
  rewrite lookup_insert_ne, lookup_empty in Hj by done. discriminate Hj.
Defined.

Lemma store0_bill_flats_exist : bill_flats_exist store0.
Proof.
  intros i b H. simpl in H.
  destruct (decide (i = 1)) as [->|Hne].
  - rewrite lookup_insert_eq in H. injection H as <-. by eexists.
  - rewrite lookup_insert_ne, lookup_empty in H by done. discriminate H.
Defined.

(** [str.strip()] takes the next line and the no-break space away,
    [int()] skips them and does not skip the separators FS..US. *)
Lemma blanks_of_strip_and_int :
  Py.strip (NBSP +:+ "nel@example.com" +:+ NEL) = "nel@example.com"
  /\ Py.strip (US +:+ "2026") = "2026"
  /\ Py.int (NBSP +:+ "2026" +:+ NEL) = Some 2026
  /\ Py.int (US +:+ "2026") = None.
Proof. vm_compute. done. Qed.

(** A year padded with a separator is no number for [create_bill]. *)
Lemma padded_year_is_badly_formatted :
  handle env create_bill bill_padded_year world0
  = (Ok (RedirectTo "core:bill_list"),
     add_notice (mkNotice ERROR "Invalid format for Year or Amount.") world0).
Proof. vm_compute. reflexivity. Qed.

(** A first name that is only a blank is a missing field for
    [create_tenant]: nothing is saved and nothing is mailed. *)
Lemma blank_name_is_missing :
  handle env create_tenant tenant_blank_name world0
  = (Ok (RedirectTo "core:tenant_list"),
     add_notice (mkNotice ERROR "All fields are required.") world0).
Proof. vm_compute. reflexivity. Qed.

(** The credentials go to the address without its blanks. *)
Lemma padded_email_is_stripped :
  form_email env owner_padded_email = "nel@example.com"
  /\ List.map m_to (outbox (snd (handle env create_owner owner_padded_email
                                        world0)))
     = ["nel@example.com"].
Proof. vm_compute. done. Qed.

Lemma flat_full_clean_normalises_witness :
  Flat_full_clean_in store0 flat_b7 = Ok (mkFlat None 1 "B-7" (Some 2))
  /\ exists u, users store0 !! 2 = Some u /\ u_role u = "OWNER".
Proof.
  assert (Flat_full_clean_in store0 flat_b7 = Ok (mkFlat None 1 "B-7" (Some 2)))
    as H by (vm_compute; reflexivity).
  split; [exact H|].
  exact (proj1 (proj2 (proj2 (proj2 (proj2
           (flat_full_clean_normalises store0 flat_b7 _ H))))) 2 eq_refl).
Defined.

Lemma user_full_clean_normalises_witness :
  exists a, User_full_clean_in env store0 nina = Ok a
            /\ u_email a = "nina@example.com"
            /\ a = u_set_email (u_email a) nina.
Proof.
  eexists. split; [vm_compute; reflexivity|]. split; [reflexivity|].
  exact (proj1 (user_full_clean_normalises env store0 nina _
                  ltac:(vm_compute; reflexivity))).
Defined.

Lemma tenant_full_clean_guarantees_witness :
  exists a, Tenant_full_clean_in store0 tenant1_moved = Ok a
    /\ exists d, Field.date_to_python (t_start_date tenant1_moved) = inl d
                 /\ a = t_set_start_date (DDate d) tenant1_moved
                 /\ Py.date_ltb d year_2000 = false.
Proof.
  eexists. split; [vm_compute; reflexivity|].
  destruct (tenant_full_clean_guarantees store0 tenant1_moved _
              ltac:(vm_compute; reflexivity)) as (d & H1 & H2 & H3 & _).
  exists d. split; [exact H1|]. split; [exact H2|exact H3].
Defined.

Lemma bill_full_clean_guarantees_witness :
  Bill_full_clean_in env store0 bill_march = Ok bill_march
  /\ 2000 <= b_year bill_march <= today_year env + 1.
Proof.
  assert (Bill_full_clean_in env store0 bill_march = Ok bill_march)
    as H by (vm_compute; reflexivity).
  split; [exact H|].
  exact (proj1 (proj2 (proj2 (proj2
           (bill_full_clean_guarantees env store0 bill_march _ H))))).
Defined.

Lemma idle_requests_change_nothing_witness :
  user (get admin) = Some admin /\ u_role admin = required_role create_owner
  /\ submits create_owner (get admin) = false
  /\ snd (handle env create_owner (get admin) world0) = world0.
Proof.
  split; [reflexivity|]. split; [reflexivity|]. split; [reflexivity|].
  exact (idle_requests_change_nothing env create_owner (get admin) world0
           admin eq_refl eq_refl eq_refl).
Defined.

Lemma no_silent_write_witness :
  tenant_users_exist store0 /\ bill_flats_exist store0
  /\ (store (snd (handle env create_society society_form world0)) = store0
      \/ one_success world0 (snd (handle env create_society society_form
                                         world0))).
Proof.
  split; [exact Run.store0_tenant_users_exist|].
  split; [exact store0_bill_flats_exist|].
  exact (no_silent_write env create_society society_form world0
           Run.store0_tenant_users_exist store0_bill_flats_exist).
Defined.

Lemma credentials_outlive_rollback_witness :
  exists u1 m text,
    User_full_clean_in env store0 (tenant_account env tenant_1999) = Ok u1
    /\ Py.date_ltb (Py.Date 1999 1 1) year_2000 = true
    /\ handle env create_tenant tenant_1999 world0
       = (Ok (RenderPage "owner/tenant_list.html"),
          mkWorld store0 [mkNotice ERROR text] [m] [])
    /\ m_to m = u_email u1.
Proof.
  eexists.
  assert (User_full_clean_in env store0 (tenant_account env tenant_1999)
          = Ok _) as Hu by (vm_compute; reflexivity).
  destruct (credentials_outlive_rollback env tenant_1999 world0 owner
              "1" "900" "1999-01-01" 1 (DecFin 900 0) flat1
              (Py.Date 1999 1 1) (Py.Date 1999 1 1) _
              eq_refl eq_refl eq_refl eq_refl eq_refl eq_refl eq_refl
              eq_refl eq_refl eq_refl eq_refl eq_refl eq_refl Hu eq_refl
              eq_refl eq_refl)
    as (m & text & Hrun & Hto & _).
  exists m, text. split; [exact Hu|]. split; [reflexivity|].
  split; [exact Hrun|exact Hto].
Defined.

Lemma deleted_owner_leaves_flats_behind_witness :
  user (post admin []) = Some admin /\ u_role admin = "ADMIN"
  /\ users store0 !! 2 = Some owner /\ u_role owner = "OWNER"
  /\ refusal world0 = None
  /\ flats (store (snd (handle env (delete_owner 2) (post admin []) world0)))
       !! 1 = Some (mkFlat (Some 1) 1 "A-101" None)
  /\ fst (handle env (delete_owner 2) (post admin []) world0)
     = Ok (RedirectTo "core:owner_list").
Proof.
  split; [reflexivity|]. split; [reflexivity|]. split; [reflexivity|].
  split; [reflexivity|]. split; [reflexivity|].
  destruct (deleted_owner_leaves_flats_behind env 2 (post admin []) world0
              admin owner eq_refl eq_refl eq_refl eq_refl eq_refl)
    as (_ & _ & _ & Hflats & _ & Hresp & _).
  split; [exact (Hflats 1 flat1 eq_refl)|exact Hresp].
Defined.

Lemma owners_write_only_their_tenants_witness :
  required_role create_tenant = "OWNER" /\ user tenant_1999 = Some owner
  /\ tenant_user_unique store0 /\ tenant_users_exist store0
  /\ isolated owner world0 (snd (handle env create_tenant tenant_1999 world0)).
Proof.
  split; [reflexivity|]. split; [reflexivity|].
  split; [exact store0_tenant_user_unique|].
  split; [exact Run.store0_tenant_users_exist|].
  exact (owners_write_only_their_tenants env create_tenant tenant_1999 world0
           owner eq_refl eq_refl store0_tenant_user_unique
           Run.store0_tenant_users_exist).
Defined.



Lemma routes_round_trip_witness :
  update_owner_route ∈ urlpatterns /\ Forall (fun k => k < 2 ^ 63) [7]
  /\ fill (p_route update_owner_route) [7] = Some "admin/owner/7/update/"
  /\ resolve "admin/owner/7/update/" = Some (update_owner_route, [7]).
Proof.
  assert (update_owner_route ∈ urlpatterns) as Hin.
  { apply (list_elem_of_lookup_2 _ 5%nat). reflexivity. }
  assert (Forall (fun k => k < 2 ^ 63) [7]) as Hargs.
  { apply Forall_cons. split; [reflexivity|apply Forall_nil_2]. }
  split; [exact Hin|]. split; [exact Hargs|]. split; [reflexivity|].
  exact (routes_round_trip update_owner_route [7] "admin/owner/7/update/"
           Hin Hargs eq_refl).
Defined.

Lemma tenant_pages_show_the_tenancy_witness :
  reachable (store w4) /\ user (get tom) = Some tom /\ u_pk tom = Some 2
  /\ exists i t, tenants (store w4) !! i = Some t /\ t_user t = 2
                 /\ exists f so, tenant_dashboard_context (get tom) w4
                                 = (Ok (Some (t_set_pk (Some i) t, f, so)), w4).
Proof.
  split; [exact Run.w4_reachable|]. split; [reflexivity|].
  split; [reflexivity|].
  destruct (tenant_pages_show_the_tenancy (get tom) w4 tom 2
              Run.w4_reachable eq_refl eq_refl)
    as [(Hnone & _)|(i & t & f & so & Hi & Hk & _ & _ & _ & Hrun & _)].
  - exfalso. apply (Hnone 1 (mkTenant (Some 1) 2 1 (DecFin 900 0)
                               (DDate (Py.Date 2024 4 1)) None true)).
    + vm_compute. reflexivity.
    + reflexivity.
  - exists i, t. split; [exact Hi|]. split; [exact Hk|].
    eexists _, _. exact Hrun.
Defined.

Lemma strptime_against_date_field_witness :
  Py.strptime_ymd "2024-02- 5" = Some (Py.Date 2024 2 5)
  /\ Field.parse_date "2024-02- 5" = None.
Proof.
  split; [reflexivity|].
  exact (strptime_against_date_field "2024-02- 5" (Py.Date 2024 2 5) eq_refl).
Defined.

Lemma bill_actions_set_only_the_status_witness :
  refusal world0 = None
  /\ fst (mark_paid first_bill world0) = Ok tt
  /\ notices (snd (mark_paid first_bill world0))
     = [mkNotice SUCCESS "1 bill(s) marked as paid"].
Proof.
  split; [reflexivity|].
  destruct (bill_actions_set_only_the_status first_bill world0 eq_refl)
    as (Hok & _ & Hnotice & _).
  split; [exact Hok|].
  etrans; [exact Hnotice|]. vm_compute. reflexivity.
Defined.

Lemma admin_name_columns_never_fail_witness :
  reachable (store w4)
  /\ exists t text, tenants (store w4) !! 1 = Some t
                    /\ get_tenant_name t w4 = (Ok text, w4).
Proof.
  split; [exact Run.w4_reachable|].
  eexists.
  destruct (proj1 (admin_name_columns_never_fail w4 Run.w4_reachable) 1 _
              ltac:(vm_compute; reflexivity)) as (u & Hu & Hrun).
  eexists. split; [vm_compute; reflexivity|exact Hrun].
Defined.

Lemma references_never_dangle_witness :
  reachable (store w4)
  /\ exists t f, tenants (store w4) !! 1 = Some t
                 /\ flats (store w4) !! t_flat t = Some f.
Proof.
  split; [exact Run.w4_reachable|].
  eexists.
  destruct (proj1 (proj1 (proj2 (references_never_dangle (store w4)
                                   Run.w4_reachable)) 1 _
                     ltac:(vm_compute; reflexivity))) as [f Hf].
  exists f. split; [vm_compute; reflexivity|exact Hf].
Defined.

Lemma unique_columns_hold_no_duplicates_witness :
  reachable (store w4)
  /\ exists u1 u2, users (store w4) !! 1 = Some u1
                   /\ users (store w4) !! 2 = Some u2
                   /\ u_email u1 <> u_email u2.
Proof.
  split; [exact Run.w4_reachable|].
  eexists _, _.
  split; [vm_compute; reflexivity|]. split; [vm_compute; reflexivity|].
  refine (proj2 (proj1 (unique_columns_hold_no_duplicates (store w4)
                          Run.w4_reachable) 1 2 _ _ _ _ _)).
  - vm_compute. reflexivity.
  - vm_compute. reflexivity.
  - intros H. discriminate H.
Defined.

End Checks.
